(** * PhysicsKit vehicle-dynamics core: a shallow embedding and its properties

    The Python sources under [physicskit/] compute on IEEE doubles.  The
    embedding idealises a Python [float] as a real number ([R]): every
    arithmetic operation is exact, and the [math] functions are the real
    functions of the same name.  A Python exception (a [ZeroDivisionError]
    of [/], for instance) is the [None] of an [option].

    One place departs from the reals in more than rounding: the loops of
    [normalize_angle] step by [2 pi], and a double beyond [2^56] does not
    change under such a step.  Module [Float64] holds those loops on
    binary64 numbers, and the invariant of the yaw along a run of ticks
    is stated for yaws up to [2^56].

    Layout: the definitions come first, one [Module] per source file; the
    theorems follow, grouped by source file as well. *)

From Stdlib Require Import Reals Lra Lia ZArith List Bool.
From Stdlib Require Import Sorting.Sorted.
From Stdlib Require Import Strings.String.
From Stdlib Require Floats.
Import ListNotations.

Open Scope R_scope.

(* ================================================================= *)
(** * Part I: definitions *)
(* ================================================================= *)

(** ** Python numbers and the pieces of [math] the sources use *)

Module Py.

(** Comparisons of floats, as booleans. *)
Definition ltb (x y : R) : bool := if Rlt_dec x y then true else false.
Definition leb (x y : R) : bool := if Rle_dec x y then true else false.
Definition gtb (x y : R) : bool := ltb y x.
Definition geb (x y : R) : bool := leb y x.
Definition eqb (x y : R) : bool := if Req_dec_T x y then true else false.

(** [x / y] on floats raises [ZeroDivisionError] when [y] is zero. *)
Definition div (x y : R) : option R :=
  if Req_dec_T y 0 then None else Some (x / y).

(** The built-ins [max] and [min] on two floats. *)
Definition max (x y : R) : R := if ltb x y then y else x.
Definition min (x y : R) : R := if ltb y x then y else x.

(** [math.copysign x y]: the magnitude of [x] with the sign of [y]
    (a real has no negative zero: zero counts as positive). *)
Definition copysign (x y : R) : R :=
  if ltb y 0 then - Rabs x else Rabs x.

Definition degrees (x : R) : R := x * 180 / PI.
Definition radians (x : R) : R := x * PI / 180.

(** [math.atan2 y x], by quadrant. *)
Definition atan2 (y x : R) : R :=
  if ltb 0 x then atan (y / x)
  else if ltb x 0 then
         (if ltb y 0 then atan (y / x) - PI else atan (y / x) + PI)
  else if ltb 0 y then PI / 2
  else if ltb y 0 then - (PI / 2)
  else 0.

(** Sequencing of computations that may raise. *)
Definition bind {A B : Type} (c : option A) (k : A -> option B) : option B :=
  match c with
  | Some a => k a
  | None => None
  end.

End Py.

Notation "x <- c ;; k" := (Py.bind c (fun x => k))
  (at level 61, c at next level, right associativity).

(** ** core/integrators.py (the enumeration only) *)

Inductive IntegratorType : Type :=
| SEMI_IMPLICIT_EULER
| RK4.

(** ** core/world.py *)

Module World.

Section WithVehicle.

(** The world only ever calls [vehicle.physics_step(dt)] on the
    vehicles it manages; the call mutates the vehicle and may raise. *)
Variable Vehicle : Type.
Variable physics_step : Vehicle -> R -> option Vehicle.

Record World : Type := mkWorld {
  dt : R;
  time : R;
  gravity : R;
  integrator : IntegratorType;
  vehicles : list Vehicle;
  _accumulator : R;
  _max_steps_per_frame : Z
}.

(** [World(dt=d)]: the dataclass defaults for every other field. *)
Definition fresh (d : R) : World :=
  mkWorld d 0 (981 / 100) SEMI_IMPLICIT_EULER [] 0 20.

Definition set_time (w : World) (t : R) : World :=
  mkWorld (dt w) t (gravity w) (integrator w) (vehicles w)
          (_accumulator w) (_max_steps_per_frame w).

Definition set_vehicles (w : World) (vs : list Vehicle) : World :=
  mkWorld (dt w) (time w) (gravity w) (integrator w) vs
          (_accumulator w) (_max_steps_per_frame w).

Definition set_accumulator (w : World) (a : R) : World :=
  mkWorld (dt w) (time w) (gravity w) (integrator w) (vehicles w)
          a (_max_steps_per_frame w).

(** [for vehicle in self.vehicles: vehicle.physics_step(self.dt)] *)
Fixpoint step_vehicles (vs : list Vehicle) (d : R) : option (list Vehicle) :=
  match vs with
  | [] => Some []
  | v :: rest =>
      v' <- physics_step v d ;;
      rest' <- step_vehicles rest d ;;
      Some (v' :: rest')
  end.

(** [World.step] *)
Definition step (w : World) : option World :=
  vs <- step_vehicles (vehicles w) (dt w) ;;
  Some (set_time (set_vehicles w vs) (time w + dt w)).

(** The [while] loop of [step_fixed].  Each iteration increments
    [steps], and the loop stops at [_max_steps_per_frame] at the latest,
    so that many iterations is all the fuel the loop can use. *)
Fixpoint step_fixed_loop (fuel : nat) (w : World) (steps : Z)
  : option (World * Z) :=
  match fuel with
  | O => Some (w, steps)
  | S fuel' =>
      if Py.geb (_accumulator w) (dt w)
         && (steps <? _max_steps_per_frame w)%Z
      then
        w1 <- step w ;;
        step_fixed_loop fuel'
          (set_accumulator w1 (_accumulator w1 - dt w1)) (steps + 1)%Z
      else Some (w, steps)
  end.

(** [World.step_fixed]: the world after the call and the returned
    number of steps. *)
Definition step_fixed (w : World) (real_dt : R) : option (World * Z) :=
  step_fixed_loop (Z.to_nat (_max_steps_per_frame w))
    (set_accumulator w (_accumulator w + real_dt)) 0%Z.

(** [World.get_interpolation_alpha] *)
Definition get_interpolation_alpha (w : World) : R :=
  if Py.gtb (dt w) 0 then _accumulator w / dt w else 0.

End WithVehicle.

Arguments mkWorld {Vehicle}.
Arguments dt {Vehicle}.
Arguments time {Vehicle}.
Arguments gravity {Vehicle}.
Arguments integrator {Vehicle}.
Arguments vehicles {Vehicle}.
Arguments _accumulator {Vehicle}.
Arguments _max_steps_per_frame {Vehicle}.
Arguments fresh {Vehicle}.
Arguments set_time {Vehicle}.
Arguments set_vehicles {Vehicle}.
Arguments set_accumulator {Vehicle}.
Arguments step_vehicles {Vehicle}.
Arguments step {Vehicle}.
Arguments step_fixed_loop {Vehicle}.
Arguments step_fixed {Vehicle}.
Arguments get_interpolation_alpha {Vehicle}.

(** A vehicle that does nothing when stepped. *)
Definition idle_step (v : unit) (d : R) : option unit := Some v.

End World.

(** ** vehicle/steering.py *)

Module Steering.

Record SteeringConfig : Type := mkSteeringConfig {
  max_steer_angle : R;
  steering_ratio : R;
  ackermann_factor : R;
  wheelbase : R;
  track_width : R;
  steering_rate : R;
  steering_smoothing : R
}.

(** [SteeringConfig()] *)
Definition default_config : SteeringConfig :=
  mkSteeringConfig 0.6 15 0.8 2.7 1.5 3 0.

Record Steering : Type := mkSteering {
  config : SteeringConfig;
  _current_input : R;
  _target_input : R
}.

(** [Steering(config)] *)
Definition init (c : SteeringConfig) : Steering := mkSteering c 0 0.

(** [Steering.set_input] *)
Definition set_input (s : Steering) (steer_input : R) : Steering :=
  mkSteering (config s) (_current_input s)
             (Py.max (-1) (Py.min 1 steer_input)).

(** [Steering.update]; the division raises when [max_steer_angle] is
    zero. *)
Definition update (s : Steering) (dt : R) : option Steering :=
  max_delta <- Py.div (steering_rate (config s) * dt)
                      (max_steer_angle (config s)) ;;
  let diff := _target_input s - _current_input s in
  let diff := if Py.gtb (Rabs diff) max_delta
              then Py.copysign max_delta diff else diff in
  Some (mkSteering (config s) (_current_input s + diff) (_target_input s)).

(** The body of the [try] block of [get_wheel_angles]: the geometric
    Ackermann angles, or [None] when a division raises. *)
Definition full_ackermann (c : SteeringConfig) (base_angle : R)
  : option (R * R) :=
  R0 <- Py.div (wheelbase c) (tan (Rabs base_angle)) ;;
  let R_inner := R0 - track_width c / 2 in
  let R_outer := R0 + track_width c / 2 in
  q_inner <- Py.div (wheelbase c) R_inner ;;
  q_outer <- Py.div (wheelbase c) R_outer ;;
  let angle_inner := atan q_inner in
  let angle_outer := atan q_outer in
  let factor := ackermann_factor c in
  if Py.gtb base_angle 0 then
    let left_angle := Rabs base_angle * (1 - factor) + angle_outer * factor in
    let right_angle := Rabs base_angle * (1 - factor) + angle_inner * factor in
    Some (Py.copysign left_angle base_angle,
          Py.copysign right_angle base_angle)
  else
    let right_angle := Rabs base_angle * (1 - factor) + angle_outer * factor in
    let left_angle := Rabs base_angle * (1 - factor) + angle_inner * factor in
    Some (Py.copysign left_angle base_angle,
          Py.copysign right_angle base_angle).

(** [Steering.get_wheel_angles]: [(left_angle, right_angle)].  The
    argument is [None] for the default [steer_input=None]. *)
Definition get_wheel_angles (s : Steering) (steer_input : option R)
  : option (R * R) :=
  let c := config s in
  let steer_input :=
    match steer_input with
    | None => _current_input s
    | Some u => u
    end in
  let base_angle := steer_input * max_steer_angle c in
  if Py.ltb (Rabs base_angle) 0.001 then Some (0, 0)
  else if Py.ltb (ackermann_factor c) 0.001 then Some (base_angle, base_angle)
  else if Py.ltb (Rabs base_angle) 0.1 then
    q <- Py.div (wheelbase c * base_angle) (2 * track_width c) ;;
    let ackermann_correction := q * ackermann_factor c in
    Some (base_angle + ackermann_correction,
          base_angle - ackermann_correction)
  else
    match full_ackermann c base_angle with
    | Some angles => Some angles
    | None => Some (base_angle, base_angle)
    end.

End Steering.

(** ** tire/pacejka.py *)

Module Pacejka.

Record PacejkaParams : Type := mkPacejkaParams {
  b0 : R; b1 : R; b2 : R; b3 : R; b4 : R; b5 : R; b6 : R;
  b7 : R; b8 : R; b9 : R; b10 : R; b11 : R; b12 : R; b13 : R;
  a0 : R; a1 : R; a2 : R; a3 : R; a4 : R; a5 : R; a6 : R; a7 : R; a8 : R;
  a9 : R; a10 : R; a11 : R; a12 : R; a13 : R; a14 : R; a15 : R; a16 : R;
  a17 : R;
  nominal_load : R;
  slip_angle_in_degrees : bool
}.

Definition sport_tire : PacejkaParams :=
  mkPacejkaParams
    1.65 0 1688 0 229 0 0 0 (-10) 0 0 0 0 0
    1.3 (-22.1) 1011 1078 1.82 0.208 0 (-0.354) 0.707 0.028
    0 14.8 0.022 0 0 0 0 0
    4000 true.

Definition drift_tire : PacejkaParams :=
  mkPacejkaParams
    1.5 0 1400 0 200 0 0 0 (-8) 0 0 0 0 0
    1.2 (-18) 850 900 2 0.15 0 (-0.2) 0.5 0.02
    0 10 0.015 0 0 0 0 0
    4000 true.

Definition rain_tire : PacejkaParams :=
  mkPacejkaParams
    1.4 0 1000 0 150 0 0 0 (-5) 0 0 0 0 0
    1.1 (-15) 600 700 2.5 0.1 0 (-0.1) 0.3 0.01
    0 5 0.01 0 0 0 0 0
    4000 true.

(** [PacejkaFormula.magic_formula] *)
Definition magic_formula (x B C D E Sh Sv : R) : R :=
  let x1 := x + Sh in
  let Bx1 := B * x1 in
  D * sin (C * atan (Bx1 - E * (Bx1 - atan Bx1))) + Sv.

(** The peak factor and the vertical shift of the longitudinal curve,
    as [longitudinal_force] computes them. *)
Definition D_long (p : PacejkaParams) (Fz : R) : R :=
  Fz * (b1 p * (Fz / 1000) + b2 p) / 1000.

Definition Sv_long (p : PacejkaParams) (Fz : R) : R :=
  b11 p * (Fz / 1000) + b12 p.

(** [PacejkaFormula.longitudinal_force] *)
Definition longitudinal_force (p : PacejkaParams) (slip_ratio Fz : R) : R :=
  if Py.leb Fz 0 then 0
  else
    let Fz_kN := Fz / 1000 in
    let C := b0 p in
    let D := D_long p Fz in
    let BCD := (b3 p * Fz_kN * Fz_kN + b4 p * Fz_kN) * exp (- b5 p * Fz_kN) in
    let B := if Py.gtb (Rabs (C * D)) 1e-6 then BCD / (C * D) else 0 in
    let E := b6 p * Fz_kN * Fz_kN + b7 p * Fz_kN + b8 p in
    let Sh := b9 p * Fz_kN + b10 p in
    let Sv := Sv_long p Fz in
    magic_formula slip_ratio B C D E Sh Sv.

(** The peak factor and the vertical shift of the lateral curve, as
    [lateral_force] computes them. *)
Definition D_lat (p : PacejkaParams) (Fz camber : R) : R :=
  Fz * (a1 p * (Fz / 1000) + a2 p) * (1 - a15 p * camber * camber) / 1000.

Definition Sv_lat (p : PacejkaParams) (Fz camber : R) : R :=
  (a11 p * (Fz / 1000) + a12 p)
  + (a13 p * (Fz / 1000) + a14 p) * camber * (Fz / 1000).

(** [PacejkaFormula.lateral_force]; [Fz_kN / p.a4] raises when [a4] is
    zero. *)
Definition lateral_force (p : PacejkaParams) (slip_angle Fz camber : R)
  : option R :=
  if Py.leb Fz 0 then Some 0
  else
    let slip_angle :=
      if negb (slip_angle_in_degrees p) then Py.degrees slip_angle
      else slip_angle in
    let Fz_kN := Fz / 1000 in
    let D := D_lat p Fz camber in
    let C := a0 p in
    q <- Py.div Fz_kN (a4 p) ;;
    let BCD := a3 p * sin (2 * atan q) * (1 - a5 p * Rabs camber) in
    let B := if Py.gtb (Rabs (C * D)) 1e-6 then BCD / (C * D) else 0 in
    let E := (a6 p * Fz_kN + a7 p)
             * (1 - (a16 p * camber + a17 p) * Py.copysign 1 slip_angle) in
    let Sh := a8 p * Fz_kN + a9 p + a10 p * camber in
    let Sv := Sv_lat p Fz camber in
    Some (magic_formula slip_angle B C D E Sh Sv).

(** [np.linspace(start, stop, num)] for [num >= 2]. *)
Definition linspace (start stop : R) (num : nat) : list R :=
  map (fun i => start + INR i * ((stop - start) / INR (num - 1))) (seq 0 num).

(** [np.argmax]: the index of the first maximum. *)
Fixpoint argmax_from (best_i : nat) (best : R) (i : nat) (l : list R) : nat :=
  match l with
  | [] => best_i
  | x :: rest =>
      if Py.gtb x best then argmax_from i x (S i) rest
      else argmax_from best_i best (S i) rest
  end.

Definition argmax (l : list R) : nat :=
  match l with
  | [] => O
  | x :: rest => argmax_from O x 1%nat rest
  end.

(** A list comprehension whose body may raise. *)
Fixpoint map_raising {A B : Type} (f : A -> option B) (l : list A)
  : option (list B) :=
  match l with
  | [] => Some []
  | x :: rest =>
      y <- f x ;;
      ys <- map_raising f rest ;;
      Some (y :: ys)
  end.

(** Parameters without any stiffness or peak factor: both curves are
    flat, the longitudinal force at [fx] and the lateral force at [fy]
    whatever the slip. *)
Definition constant_force_tire (fx fy : R) : PacejkaParams :=
  mkPacejkaParams
    0 0 0 0 0 0 0 0 0 0 0 0 fx 0
    0 0 0 0 1 0 0 0 0 0 0 0 fy 0 0 0 0 0
    4000 true.

(** [PacejkaFormula.get_peak_lateral_force] *)
Definition get_peak_lateral_force (p : PacejkaParams) (Fz camber : R)
  : option (R * R) :=
  let slip_angles := linspace 0 20 200 in
  forces <- map_raising
              (fun a => f <- lateral_force p a Fz camber ;; Some (Rabs f))
              slip_angles ;;
  let peak_idx := argmax forces in
  Some (nth peak_idx forces 0, nth peak_idx slip_angles 0).

(** [PacejkaFormula.get_peak_longitudinal_force] *)
Definition get_peak_longitudinal_force (p : PacejkaParams) (Fz : R) : R * R :=
  let slip_ratios := linspace 0 0.5 200 in
  let forces := map (fun sr => Rabs (longitudinal_force p sr Fz)) slip_ratios in
  let peak_idx := argmax forces in
  (nth peak_idx forces 0, nth peak_idx slip_ratios 0).

End Pacejka.

(** ** tire/combined.py *)

Module Combined.

Record CombinedForces : Type := mkCombinedForces {
  Fx : R;
  Fy : R;
  Fx_pure : R;
  Fy_pure : R;
  saturation : R
}.

(** A [CombinedSlip] holds a [PacejkaFormula], which holds nothing but
    its parameters. *)
Record CombinedSlip : Type := mkCombinedSlip {
  pacejka : Pacejka.PacejkaParams;
  friction_mu : R;
  ellipse_ratio : R
}.

(** [CombinedSlip.combined_forces_simple] *)
Definition combined_forces_simple (cs : CombinedSlip)
           (slip_ratio slip_angle Fz camber : R) : option CombinedForces :=
  let p := pacejka cs in
  let Fx_pure := Pacejka.longitudinal_force p slip_ratio Fz * friction_mu cs in
  fy <- Pacejka.lateral_force p slip_angle Fz camber ;;
  let Fy_pure := fy * friction_mu cs in
  let Fx_peak := fst (Pacejka.get_peak_longitudinal_force p Fz) in
  pk <- Pacejka.get_peak_lateral_force p Fz camber ;;
  let Fy_peak := fst pk in
  let Fx_peak := Fx_peak * friction_mu cs in
  let Fy_peak := Fy_peak * (friction_mu cs * ellipse_ratio cs) in
  if Py.ltb Fx_peak 1 || Py.ltb Fy_peak 1 then
    Some (mkCombinedForces 0 0 Fx_pure Fy_pure 0)
  else
    let fx_norm := if Py.gtb Fx_peak 0 then Fx_pure / Fx_peak else 0 in
    let fy_norm := if Py.gtb Fy_peak 0 then Fy_pure / Fy_peak else 0 in
    let saturation := sqrt (fx_norm * fx_norm + fy_norm * fy_norm) in
    if Py.leb saturation 1 then
      Some (mkCombinedForces Fx_pure Fy_pure Fx_pure Fy_pure saturation)
    else
      let scale := 1 / saturation in
      Some (mkCombinedForces (Fx_pure * scale) (Fy_pure * scale)
                             Fx_pure Fy_pure 1).

(** [CombinedSlip.combined_forces_vector] *)
Definition combined_forces_vector (cs : CombinedSlip)
           (slip_ratio slip_angle_rad Fz camber : R) : option CombinedForces :=
  let p := pacejka cs in
  let slip_angle_deg := Py.degrees slip_angle_rad in
  let Fx_pure := Pacejka.longitudinal_force p slip_ratio Fz * friction_mu cs in
  fy <- Pacejka.lateral_force p slip_angle_deg Fz camber ;;
  let Fy_pure := fy * friction_mu cs in
  let epsilon := 1e-6 in
  let tan_alpha :=
    if Py.ltb (Rabs slip_angle_rad) 1.5 then tan slip_angle_rad else 10 in
  let sigma := sqrt (slip_ratio * slip_ratio + tan_alpha * tan_alpha) in
  if Py.ltb sigma epsilon then
    Some (mkCombinedForces 0 0 Fx_pure Fy_pure 0)
  else
    let sigma_deg := Py.degrees (atan sigma) in
    fc <- Pacejka.lateral_force p sigma_deg Fz camber ;;
    let F_combined := Rabs fc * friction_mu cs in
    let Fx := if Py.gtb sigma epsilon
              then F_combined * (slip_ratio / sigma) else 0 in
    let Fy := if Py.gtb sigma epsilon
              then F_combined * (tan_alpha / sigma) else 0 in
    let Fx := Py.copysign Fx slip_ratio in
    let Fy := Py.copysign Fy slip_angle_rad in
    let Fx_peak := fst (Pacejka.get_peak_longitudinal_force p Fz) in
    pk <- Pacejka.get_peak_lateral_force p Fz camber ;;
    let Fy_peak := fst pk in
    let F_peak := sqrt (Fx_peak ^ 2 + Fy_peak ^ 2) * friction_mu cs in
    let saturation :=
      if Py.gtb F_peak 0 then sqrt (Fx ^ 2 + Fy ^ 2) / F_peak else 0 in
    Some (mkCombinedForces Fx Fy Fx_pure Fy_pure (Py.min 1 saturation)).

(** [CombinedSlip.combined_forces_empirical] *)
Definition combined_forces_empirical (cs : CombinedSlip)
           (slip_ratio slip_angle_deg Fz camber : R) : option CombinedForces :=
  let p := pacejka cs in
  let Fx_pure := Pacejka.longitudinal_force p slip_ratio Fz * friction_mu cs in
  fy <- Pacejka.lateral_force p slip_angle_deg Fz camber ;;
  let Fy_pure := fy * friction_mu cs in
  let Fx_peak := fst (Pacejka.get_peak_longitudinal_force p Fz) in
  pk <- Pacejka.get_peak_lateral_force p Fz camber ;;
  let Fy_peak := fst pk in
  let Fx_peak := Fx_peak * friction_mu cs in
  let Fy_peak := Fy_peak * friction_mu cs in
  if Py.ltb Fx_peak 1 || Py.ltb Fy_peak 1 then
    Some (mkCombinedForces 0 0 Fx_pure Fy_pure 0)
  else
    let fx_norm := Rabs Fx_pure / Fx_peak in
    let fy_norm := Rabs Fy_pure / Fy_peak in
    if Py.ltb (fx_norm + fy_norm) 0.001 then
      Some (mkCombinedForces 0 0 Fx_pure Fy_pure 0)
    else
      let force_angle := Py.atan2 fy_norm fx_norm in
      let Gx := cos (force_angle * 0.5) in
      let Gy := cos ((PI / 2 - force_angle) * 0.5) in
      let Fx := Fx_pure * Gx in
      let Fy := Fy_pure * Gy in
      let fx_scaled := if Py.gtb Fx_peak 0 then Fx / Fx_peak else 0 in
      let fy_scaled := if Py.gtb Fy_peak 0 then Fy / Fy_peak else 0 in
      let saturation := sqrt (fx_scaled * fx_scaled + fy_scaled * fy_scaled) in
      if Py.gtb saturation 1 then
        let scale := 1 / saturation in
        Some (mkCombinedForces (Fx * scale) (Fy * scale) Fx_pure Fy_pure 1)
      else
        Some (mkCombinedForces Fx Fy Fx_pure Fy_pure saturation).

(** [CombinedSlip.calculate]; [method] is the Python string. *)
Definition calculate (cs : CombinedSlip)
           (slip_ratio slip_angle_deg Fz camber : R) (method : string)
  : option CombinedForces :=
  if String.eqb method "simple"%string then
    combined_forces_simple cs slip_ratio slip_angle_deg Fz camber
  else if String.eqb method "vector"%string then
    combined_forces_vector cs slip_ratio (Py.radians slip_angle_deg) Fz camber
  else
    combined_forces_empirical cs slip_ratio slip_angle_deg Fz camber.

(** [friction_ellipse_limit] *)
Definition friction_ellipse_limit (Fx Fy Fx_max Fy_max : R) : R * R :=
  if Py.leb Fx_max 0 || Py.leb Fy_max 0 then (0, 0)
  else
    let fx_norm := Fx / Fx_max in
    let fy_norm := Fy / Fy_max in
    let r_sq := fx_norm * fx_norm + fy_norm * fy_norm in
    if Py.leb r_sq 1 then (Fx, Fy)
    else
      let scale := 1 / sqrt r_sq in
      (Fx * scale, Fy * scale).

End Combined.

(** ** tire/relaxation.py *)

Module Relaxation.

Record TireRelaxation : Type := mkTireRelaxation {
  sigma_x : R;
  sigma_y : R;
  Fx : R;
  Fy : R
}.

Definition MIN_VELOCITY : R := 0.5.
Definition MAX_TAU : R := 0.5.

(** [TireRelaxation(relaxation_length_x, relaxation_length_y)] *)
Definition init (relaxation_length_x relaxation_length_y : R) : TireRelaxation :=
  mkTireRelaxation relaxation_length_x relaxation_length_y 0 0.

(** The time constant both updates compute; [v] is at least
    [MIN_VELOCITY], so the division cannot raise. *)
Definition tau (sigma velocity : R) : R :=
  let v := Py.max (Rabs velocity) MIN_VELOCITY in
  Py.min (sigma / v) MAX_TAU.

(** One axis of [TireRelaxation.update]. *)
Definition relax_exact (F target tau dt : R) : R :=
  if Py.gtb tau 0 then
    let alpha := 1 - exp (- dt / tau) in
    F + (target - F) * alpha
  else target.

(** [TireRelaxation.update]: the object after the call; the returned pair
    is [(Fx, Fy)] of that object. *)
Definition update (r : TireRelaxation) (target_Fx target_Fy velocity dt : R)
  : TireRelaxation :=
  let tau_x := tau (sigma_x r) velocity in
  let tau_y := tau (sigma_y r) velocity in
  mkTireRelaxation (sigma_x r) (sigma_y r)
    (relax_exact (Fx r) target_Fx tau_x dt)
    (relax_exact (Fy r) target_Fy tau_y dt).

(** One axis of [TireRelaxation.update_simple]. *)
Definition relax_linear (F target tau dt : R) : R :=
  let alpha := if Py.gtb tau 0 then Py.min (dt / tau) 1 else 1 in
  F + (target - F) * alpha.

(** [TireRelaxation.update_simple] *)
Definition update_simple (r : TireRelaxation)
           (target_Fx target_Fy velocity dt : R) : TireRelaxation :=
  let tau_x := tau (sigma_x r) velocity in
  let tau_y := tau (sigma_y r) velocity in
  mkTireRelaxation (sigma_x r) (sigma_y r)
    (relax_linear (Fx r) target_Fx tau_x dt)
    (relax_linear (Fy r) target_Fy tau_y dt).

(** [TireRelaxation.reset] and [TireRelaxation.set_forces] *)
Definition reset (r : TireRelaxation) : TireRelaxation :=
  mkTireRelaxation (sigma_x r) (sigma_y r) 0 0.

Definition set_forces (r : TireRelaxation) (fx fy : R) : TireRelaxation :=
  mkTireRelaxation (sigma_x r) (sigma_y r) fx fy.

(** The two variants of the filter, and a run of updates towards a
    constant target: one [(velocity, dt)] per step. *)
Inductive variant : Type := Exact | Linear.

Definition step (k : variant) (r : TireRelaxation)
           (target_Fx target_Fy : R) (vd : R * R) : TireRelaxation :=
  match k with
  | Exact => update r target_Fx target_Fy (fst vd) (snd vd)
  | Linear => update_simple r target_Fx target_Fy (fst vd) (snd vd)
  end.

(** The states the filter goes through, the initial one first. *)
Fixpoint trace (k : variant) (r : TireRelaxation) (target_Fx target_Fy : R)
         (inputs : list (R * R)) : list TireRelaxation :=
  match inputs with
  | [] => [r]
  | vd :: rest =>
      r :: trace k (step k r target_Fx target_Fy vd) target_Fx target_Fy rest
  end.

(** The error of each axis, and what it is for a list of errors not to
    increase. *)
Definition error_x (target_Fx : R) (r : TireRelaxation) : R :=
  Rabs (target_Fx - Fx r).

Definition error_y (target_Fy : R) (r : TireRelaxation) : R :=
  Rabs (target_Fy - Fy r).

Definition non_increasing (l : list R) : Prop :=
  Sorted (fun a b => b <= a) l.

End Relaxation.

(** ** vehicle/suspension.py *)

Module Suspension.

Inductive WheelPosition : Type :=
| FRONT_LEFT
| FRONT_RIGHT
| REAR_LEFT
| REAR_RIGHT.

Record WheelLoads : Type := mkWheelLoads {
  FL : R;
  FR : R;
  RL : R;
  RR : R
}.

(** [WheelLoads.get] and [WheelLoads.set] *)
Definition get (l : WheelLoads) (pos : WheelPosition) : R :=
  match pos with
  | FRONT_LEFT => FL l
  | FRONT_RIGHT => FR l
  | REAR_LEFT => RL l
  | REAR_RIGHT => RR l
  end.

Definition set (l : WheelLoads) (pos : WheelPosition) (value : R) : WheelLoads :=
  match pos with
  | FRONT_LEFT => mkWheelLoads value (FR l) (RL l) (RR l)
  | FRONT_RIGHT => mkWheelLoads (FL l) value (RL l) (RR l)
  | REAR_LEFT => mkWheelLoads (FL l) (FR l) value (RR l)
  | REAR_RIGHT => mkWheelLoads (FL l) (FR l) (RL l) value
  end.

(** The properties of [WheelLoads]. *)
Definition front_total (l : WheelLoads) : R := FL l + FR l.
Definition rear_total (l : WheelLoads) : R := RL l + RR l.
Definition left_total (l : WheelLoads) : R := FL l + RL l.
Definition right_total (l : WheelLoads) : R := FR l + RR l.
Definition total (l : WheelLoads) : R := FL l + FR l + RL l + RR l.

Record SuspensionConfig : Type := mkSuspensionConfig {
  wheelbase : R;
  track_front : R;
  track_rear : R;
  cg_height : R;
  cg_to_front : R;
  total_mass : R;
  gravity : R;
  front_roll_stiffness : R;
  rear_roll_stiffness : R
}.

(** [SuspensionConfig()] *)
Definition default_config : SuspensionConfig :=
  mkSuspensionConfig 2.7 1.5 1.5 0.5 1.35 1400 9.81 0.5 0.5.

(** The properties of [SuspensionConfig]; the two fractions divide by the
    wheelbase. *)
Definition cg_to_rear (c : SuspensionConfig) : R :=
  wheelbase c - cg_to_front c.

Definition front_weight_fraction (c : SuspensionConfig) : option R :=
  Py.div (cg_to_rear c) (wheelbase c).

Definition rear_weight_fraction (c : SuspensionConfig) : option R :=
  Py.div (cg_to_front c) (wheelbase c).

(** [Suspension._calculate_static_loads] *)
Definition _calculate_static_loads (c : SuspensionConfig) : option WheelLoads :=
  let total_weight := total_mass c * gravity c in
  ff <- front_weight_fraction c ;;
  let front_weight := total_weight * ff in
  rf <- rear_weight_fraction c ;;
  let rear_weight := total_weight * rf in
  Some (mkWheelLoads (front_weight / 2) (front_weight / 2)
                     (rear_weight / 2) (rear_weight / 2)).

(** A [Suspension] is its configuration and the static loads cached by
    [__init__]. *)
Record Suspension : Type := mkSuspension {
  config : SuspensionConfig;
  _static_loads : WheelLoads
}.

(** [Suspension(config)] *)
Definition init (c : SuspensionConfig) : option Suspension :=
  l <- _calculate_static_loads c ;;
  Some (mkSuspension c l).

(** [Suspension.get_static_loads]: a copy of the cached loads. *)
Definition get_static_loads (s : Suspension) : WheelLoads :=
  mkWheelLoads (FL (_static_loads s)) (FR (_static_loads s))
               (RL (_static_loads s)) (RR (_static_loads s)).

(** The final clamp of both load calculations. *)
Definition clamp_loads (l : WheelLoads) : WheelLoads :=
  mkWheelLoads (Py.max 0 (FL l)) (Py.max 0 (FR l))
               (Py.max 0 (RL l)) (Py.max 0 (RR l)).

(** [Suspension.calculate_loads] *)
Definition calculate_loads (s : Suspension)
           (longitudinal_accel lateral_accel : R) : option WheelLoads :=
  let cfg := config s in
  let m := total_mass cfg in
  let h := cg_height cfg in
  let loads := get_static_loads s in
  delta_Fz_long <- Py.div (m * longitudinal_accel * h) (wheelbase cfg) ;;
  let loads := mkWheelLoads (FL loads - delta_Fz_long / 2)
                            (FR loads - delta_Fz_long / 2)
                            (RL loads + delta_Fz_long / 2)
                            (RR loads + delta_Fz_long / 2) in
  loads <-
    (if Py.gtb (track_front cfg) 0 then
       ff <- front_weight_fraction cfg ;;
       let d := m * lateral_accel * h * ff / track_front cfg in
       q <- Py.div (front_roll_stiffness cfg)
              (front_roll_stiffness cfg + rear_roll_stiffness cfg + 0.001) ;;
       let d := d * (q * 2) in
       Some (mkWheelLoads (FL loads + d) (FR loads - d) (RL loads) (RR loads))
     else Some loads) ;;
  loads <-
    (if Py.gtb (track_rear cfg) 0 then
       rf <- rear_weight_fraction cfg ;;
       let d := m * lateral_accel * h * rf / track_rear cfg in
       q <- Py.div (rear_roll_stiffness cfg)
              (front_roll_stiffness cfg + rear_roll_stiffness cfg + 0.001) ;;
       let d := d * (q * 2) in
       Some (mkWheelLoads (FL loads) (FR loads) (RL loads + d) (RR loads - d))
     else Some loads) ;;
  Some (clamp_loads loads).

(** [Suspension.calculate_loads_simple]; it reads the configuration
    only. *)
Definition calculate_loads_simple (cfg : SuspensionConfig)
           (longitudinal_accel lateral_accel : R) : option WheelLoads :=
  let m := total_mass cfg in
  let h := cg_height cfg in
  let g := gravity cfg in
  let total_weight := m * g in
  front_frac <- front_weight_fraction cfg ;;
  rear_frac <- rear_weight_fraction cfg ;;
  long_transfer <- Py.div (m * longitudinal_accel * h) (wheelbase cfg) ;;
  lat_transfer_front <-
    Py.div (m * lateral_accel * h * front_frac) (track_front cfg) ;;
  lat_transfer_rear <-
    Py.div (m * lateral_accel * h * rear_frac) (track_rear cfg) ;;
  Some (clamp_loads
          (mkWheelLoads
             (total_weight * front_frac / 2 - long_transfer / 2
              + lat_transfer_front)
             (total_weight * front_frac / 2 - long_transfer / 2
              - lat_transfer_front)
             (total_weight * rear_frac / 2 + long_transfer / 2
              + lat_transfer_rear)
             (total_weight * rear_frac / 2 + long_transfer / 2
              - lat_transfer_rear))).

End Suspension.

(** ** core/vector.py *)

Module Vector.

Record Vector3 : Type := mkVector3 {
  x : R;
  y : R;
  z : R
}.

(** [Vector3()] *)
Definition zero : Vector3 := mkVector3 0 0 0.

Definition magnitude (v : Vector3) : R :=
  sqrt (x v * x v + y v * y v + z v * z v).

Definition magnitude_squared (v : Vector3) : R :=
  x v * x v + y v * y v + z v * z v.

Definition magnitude_2d (v : Vector3) : R :=
  sqrt (x v * x v + y v * y v).

(** [Vector3.normalized]; [mag] is not zero where it is divided by. *)
Definition normalized (v : Vector3) : Vector3 :=
  let mag := magnitude v in
  if Py.ltb mag 1e-10 then mkVector3 0 0 0
  else mkVector3 (x v / mag) (y v / mag) (z v / mag).

Definition dot (v w : Vector3) : R :=
  x v * x w + y v * y w + z v * z w.

Definition cross (v w : Vector3) : Vector3 :=
  mkVector3 (y v * z w - z v * y w)
            (z v * x w - x v * z w)
            (x v * y w - y v * x w).

Definition rotate_z (v : Vector3) (angle : R) : Vector3 :=
  let cos_a := cos angle in
  let sin_a := sin angle in
  mkVector3 (x v * cos_a - y v * sin_a) (x v * sin_a + y v * cos_a) (z v).

Definition perpendicular_2d (v : Vector3) : Vector3 :=
  mkVector3 (- y v) (x v) 0.

Definition lerp3 (v w : Vector3) (t : R) : Vector3 :=
  mkVector3 (x v + (x w - x v) * t)
            (y v + (y w - y v) * t)
            (z v + (z w - z v) * t).

(** The operators [+], [-], [*], [/] and unary [-]. *)
Definition add (v w : Vector3) : Vector3 :=
  mkVector3 (x v + x w) (y v + y w) (z v + z w).

Definition sub (v w : Vector3) : Vector3 :=
  mkVector3 (x v - x w) (y v - y w) (z v - z w).

Definition mul (v : Vector3) (scalar : R) : Vector3 :=
  mkVector3 (x v * scalar) (y v * scalar) (z v * scalar).


Definition neg (v : Vector3) : Vector3 :=
  mkVector3 (- x v) (- y v) (- z v).

(** [Vector3.project_onto] *)
Definition project_onto (v other : Vector3) : Vector3 :=
  let other_mag_sq := magnitude_squared other in
  if Py.ltb other_mag_sq 1e-10 then mkVector3 0 0 0
  else mul other (dot v other / other_mag_sq).

(** The two [while] loops of [normalize_angle] over the reals, with the
    number of iterations they may take as fuel. *)
Fixpoint wrap_down (fuel : nat) (angle : R) : R :=
  match fuel with
  | O => angle
  | S fuel' =>
      if Py.gtb angle PI then wrap_down fuel' (angle - 2 * PI) else angle
  end.

Fixpoint wrap_up (fuel : nat) (angle : R) : R :=
  match fuel with
  | O => angle
  | S fuel' =>
      if Py.ltb angle (- PI) then wrap_up fuel' (angle + 2 * PI) else angle
  end.

(** A number of turns that exceeds [|angle| / (2 pi)]: no loop of
    [normalize_angle] runs that often. *)
Definition turns (angle : R) : nat :=
  Z.to_nat (up (Rabs angle / (2 * PI))).

(** [normalize_angle] over the reals, where every step of [2 pi] brings
    the angle nearer and both loops stop within [turns] iterations.  On
    doubles a step only brings the angle nearer while it changes it: see
    [Float64.normalize_angle] and [double_resolution]. *)
Definition normalize_angle (angle : R) : R :=
  let angle := wrap_down (turns angle) angle in
  wrap_up (turns angle) angle.


Definition angle_difference (a b : R) : R := normalize_angle (a - b).

Definition clamp (value min_val max_val : R) : R :=
  Py.max min_val (Py.min max_val value).

Definition lerp (a b t : R) : R := a + (b - a) * t.

Definition sign (v : R) : R :=
  if Py.gtb v 0 then 1 else if Py.ltb v 0 then -1 else 0.

End Vector.

(** ** core/vector.py and core/rigid_body.py on doubles

    The angular part of [RigidBody.integrate] with the arithmetic of
    Python's floats (IEEE 754 binary64), for the inputs where it differs
    from the reals in more than rounding. *)

Module Float64.

Import PrimFloat.
Local Open Scope float_scope.

(** [math.pi] *)
Definition pi : float := 0x1.921fb54442d18p+1.

(** The two [while] loops of [normalize_angle].  [None] when the loop has
    not left after [fuel] iterations. *)
Fixpoint wrap_down (fuel : nat) (angle : float) : option float :=
  match fuel with
  | O => None
  | S fuel' =>
      if pi <? angle then wrap_down fuel' (angle - 2 * pi) else Some angle
  end.

Fixpoint wrap_up (fuel : nat) (angle : float) : option float :=
  match fuel with
  | O => None
  | S fuel' =>
      if angle <? - pi then wrap_up fuel' (angle + 2 * pi) else Some angle
  end.

(** [normalize_angle], each loop with [fuel] iterations to leave in. *)
Definition normalize_angle (fuel : nat) (angle : float) : option float :=
  match wrap_down fuel angle with
  | Some angle => wrap_up fuel angle
  | None => None
  end.


End Float64.

(** ** core/rigid_body.py *)

Module RigidBody.

Import Vector.

Record RigidBody : Type := mkRigidBody {
  mass : R;
  inertia : R;
  position : Vector3;
  orientation : R;
  velocity : Vector3;
  angular_velocity : R;
  _force : Vector3;
  _torque : R
}.


(** [RigidBody.apply_force]; [world_point] is [None] for the default. *)
Definition apply_force (b : RigidBody) (force : Vector3)
           (world_point : option Vector3) : RigidBody :=
  let f := add (_force b) force in
  let t :=
    match world_point with
    | Some pt =>
        let r := sub pt (position b) in
        _torque b + (x r * y force - y r * x force)
    | None => _torque b
    end in
  mkRigidBody (mass b) (inertia b) (position b) (orientation b)
              (velocity b) (angular_velocity b) f t.

Definition local_to_world (b : RigidBody) (local_point : Vector3) : Vector3 :=
  add (position b) (rotate_z local_point (orientation b)).

Definition world_to_local (b : RigidBody) (world_point : Vector3) : Vector3 :=
  rotate_z (sub world_point (position b)) (- orientation b).

Definition local_to_world_direction (b : RigidBody) (d : Vector3) : Vector3 :=
  rotate_z d (orientation b).

Definition world_to_local_direction (b : RigidBody) (d : Vector3) : Vector3 :=
  rotate_z d (- orientation b).

(** [RigidBody.apply_force_local] *)
Definition apply_force_local (b : RigidBody) (force : Vector3)
           (local_point : option Vector3) : RigidBody :=
  let world_force := rotate_z force (orientation b) in
  let world_point :=
    match local_point with
    | Some pt => Some (local_to_world b pt)
    | None => None
    end in
  apply_force b world_force world_point.


Definition get_velocity_at_point (b : RigidBody) (world_point : Vector3)
  : Vector3 :=
  let r := sub world_point (position b) in
  add (velocity b)
      (mkVector3 (- angular_velocity b * y r) (angular_velocity b * x r) 0).

Definition get_local_velocity (b : RigidBody) : Vector3 :=
  world_to_local_direction b (velocity b).

Definition get_forward_vector (b : RigidBody) : Vector3 :=
  mkVector3 (cos (orientation b)) (sin (orientation b)) 0.

Definition get_right_vector (b : RigidBody) : Vector3 :=
  mkVector3 (- sin (orientation b)) (cos (orientation b)) 0.

Definition get_speed (b : RigidBody) : R := magnitude (velocity b).
Definition get_forward_speed (b : RigidBody) : R := x (get_local_velocity b).
Definition get_lateral_speed (b : RigidBody) : R := y (get_local_velocity b).

Definition clear_forces (b : RigidBody) : RigidBody :=
  mkRigidBody (mass b) (inertia b) (position b) (orientation b)
              (velocity b) (angular_velocity b) (mkVector3 0 0 0) 0.





(** [RigidBody.set_state] *)
Definition set_state (b : RigidBody) (pos : Vector3) (o : R)
           (vel : Vector3) (w : R) : RigidBody :=
  mkRigidBody (mass b) (inertia b) pos (normalize_angle o) vel w
              (_force b) (_torque b).

(** [RigidBody.reset] *)
Definition reset (b : RigidBody) : RigidBody :=
  clear_forces (mkRigidBody (mass b) (inertia b) zero 0 zero 0
                            (_force b) (_torque b)).

(** What a physics tick does to the body: it accumulates forces and
    torques, then integrates. *)
Inductive load : Type :=
| Force (force : Vector3) (world_point : option Vector3)
| Torque (torque : R).





End RigidBody.

(** ** vehicle/drivetrain.py *)

Module Drivetrain.

Inductive DifferentialType : Type := OPEN | LOCKED | LSD.
Inductive DriveType : Type := RWD | FWD | AWD.

Record DrivetrainConfig : Type := mkDrivetrainConfig {
  drive_type : DriveType;
  differential : DifferentialType;
  max_torque : R;
  max_rpm : R;
  idle_rpm : R;
  gear_ratio : R;
  efficiency : R;
  lsd_preload : R;
  lsd_power_ratio : R;
  lsd_coast_ratio : R;
  wheel_inertia : R;
  max_brake_torque : R;
  brake_bias : R
}.

(** [DrivetrainConfig()] *)
Definition default_config : DrivetrainConfig :=
  mkDrivetrainConfig RWD OPEN 400 7000 800 3.5 0.9 100 0.3 0.1 1 3000 0.65.

Record Drivetrain : Type := mkDrivetrain {
  config : DrivetrainConfig;
  engine_rpm : R;
  throttle : R
}.

(** [Drivetrain(config)] *)
Definition init (c : DrivetrainConfig) : Drivetrain :=
  mkDrivetrain c (idle_rpm c) 0.

Definition set_throttle (d : Drivetrain) (t : R) : Drivetrain :=
  mkDrivetrain (config d) (engine_rpm d) (Py.max 0 (Py.min 1 t)).

(** The shape of the torque curve over the clamped rpm fraction. *)
Definition torque_mult (rpm_fraction : R) : R :=
  if Py.ltb rpm_fraction 0.3 then 0.6 + (rpm_fraction / 0.3) * 0.4
  else if Py.ltb rpm_fraction 0.8 then 1
  else 1 - (rpm_fraction - 0.8) / 0.2 * 0.3.

(** [Drivetrain.get_engine_torque]; [throttle] is [None] for the
    default. *)
Definition get_engine_torque (d : Drivetrain) (throttle_arg : option R)
  : option R :=
  let t := match throttle_arg with Some t => t | None => throttle d end in
  rpm_fraction <- Py.div (engine_rpm d) (max_rpm (config d)) ;;
  let rpm_fraction := Py.max 0.1 (Py.min 1 rpm_fraction) in
  Some (t * max_torque (config d) * torque_mult rpm_fraction).

(** [Drivetrain._calculate_lsd_torques] *)
Definition _calculate_lsd_torques (d : Drivetrain)
           (axle_torque omega_L omega_R : R) : R * R :=
  let delta_omega := omega_R - omega_L in
  let lock_ratio :=
    if Py.gtb axle_torque 0 then lsd_power_ratio (config d)
    else lsd_coast_ratio (config d) in
  let locking_torque := lsd_preload (config d) + Rabs axle_torque * lock_ratio in
  let T_base := axle_torque / 2 in
  if Py.gtb (Rabs delta_omega) 0.1 then
    let transfer := Py.min locking_torque (Rabs T_base) in
    if Py.gtb delta_omega 0 then
      (T_base + transfer * lock_ratio, T_base - transfer * lock_ratio)
    else
      (T_base - transfer * lock_ratio, T_base + transfer * lock_ratio)
  else (T_base, T_base).

(** The axle torque of [get_drive_torques]. *)
Definition axle_torque (d : Drivetrain) (throttle_arg : R) : option R :=
  engine_torque <- get_engine_torque d (Some throttle_arg) ;;
  Some (engine_torque * gear_ratio (config d) * efficiency (config d)).

(** [Drivetrain.get_drive_torques] *)
Definition get_drive_torques (d : Drivetrain) (throttle_arg : R)
           (wheel_speeds : R * R) : option (R * R) :=
  T <- axle_torque d throttle_arg ;;
  let omega_L := fst wheel_speeds in
  let omega_R := snd wheel_speeds in
  match differential (config d) with
  | LOCKED => Some (T / 2, T / 2)
  | OPEN => Some (T / 2, T / 2)
  | LSD => Some (_calculate_lsd_torques d T omega_L omega_R)
  end.

(** [Drivetrain.get_brake_torques]: [(FL, FR, RL, RR)]. *)
Definition get_brake_torques (d : Drivetrain) (brake : R) : R * R * R * R :=
  let total_brake := brake * max_brake_torque (config d) in
  let front_brake := total_brake * brake_bias (config d) in
  let rear_brake := total_brake * (1 - brake_bias (config d)) in
  (front_brake / 2, front_brake / 2, rear_brake / 2, rear_brake / 2).

(** [Drivetrain.update_engine_rpm] *)
Definition update_engine_rpm (d : Drivetrain) (wheel_speed dt : R) : Drivetrain :=
  let target_rpm := Rabs wheel_speed * gear_ratio (config d) * 60 / (2 * PI) in
  let target_rpm :=
    Py.max (idle_rpm (config d)) (Py.min (max_rpm (config d)) target_rpm) in
  let alpha := Py.min 1 (dt * 5) in
  mkDrivetrain (config d)
               (engine_rpm d + (target_rpm - engine_rpm d) * alpha)
               (throttle d).

End Drivetrain.

(** ** tire/slip.py *)

Module Slip.

(** The fields [slip_ratio] and [slip_angle] of the dataclass carry a
    trailing underscore here: the functions of those names follow. *)
Record SlipState : Type := mkSlipState {
  slip_ratio_ : R;
  slip_angle_ : R;
  slip_angle_deg : R;
  combined_slip : R
}.

(** [SlipState()] *)
Definition no_slip : SlipState := mkSlipState 0 0 0 0.

(** The reference speed of both slip ratios:
    [max(abs(ground_velocity), abs(wheel_velocity), epsilon)]. *)
Definition reference (ground_velocity wheel_velocity epsilon : R) : R :=
  Py.max (Py.max (Rabs ground_velocity) (Rabs wheel_velocity)) epsilon.

(** [SlipCalculator.slip_ratio_extended]; the division raises when the
    reference speed is zero, which takes an [epsilon] that is not
    positive. *)
Definition slip_ratio_extended
           (ground_velocity wheel_angular_velocity wheel_radius epsilon : R)
  : option R :=
  let wheel_velocity := wheel_angular_velocity * wheel_radius in
  let reference := reference ground_velocity wheel_velocity epsilon in
  Py.div (wheel_velocity - ground_velocity) reference.

(** [SlipCalculator.slip_ratio] *)
Definition slip_ratio
           (ground_velocity wheel_angular_velocity wheel_radius epsilon : R)
  : option R :=
  let wheel_velocity := wheel_angular_velocity * wheel_radius in
  let reference := reference ground_velocity wheel_velocity epsilon in
  slip <- Py.div (wheel_velocity - ground_velocity) reference ;;
  Some (Py.max (-1) (Py.min 1 slip)).

(** [SlipCalculator.slip_angle]; its two loops are those of
    [normalize_angle]. *)
Definition slip_angle (velocity : Vector.Vector3) (wheel_heading epsilon : R)
  : R :=
  let speed := Vector.magnitude_2d velocity in
  if Py.ltb speed epsilon then 0
  else
    let velocity_angle := Py.atan2 (Vector.y velocity) (Vector.x velocity) in
    let slip := velocity_angle - wheel_heading in
    let slip := Vector.wrap_down (Vector.turns slip) slip in
    Vector.wrap_up (Vector.turns slip) slip.

(** [SlipCalculator.slip_angle_from_local_velocity] *)
Definition slip_angle_from_local_velocity
           (local_velocity : Vector.Vector3) (epsilon : R) : R :=
  let vx := Vector.x local_velocity in
  let vy := Vector.y local_velocity in
  if Py.ltb (Rabs vx) epsilon then
    if Py.ltb (Rabs vy) epsilon then 0
    else Py.copysign (PI / 2) vy
  else Py.atan2 vy vx.

(** [SlipCalculator.combined_slip_magnitude] *)
Definition combined_slip_magnitude (slip_ratio slip_angle : R) : R :=
  let tan_alpha :=
    if Py.ltb (Rabs slip_angle) (PI / 2 - 0.01) then tan slip_angle else 100 in
  sqrt (slip_ratio * slip_ratio + tan_alpha * tan_alpha).

(** [SlipCalculator.calculate_slip]; the defaults [epsilon = 0.5] apply. *)
Definition calculate_slip (contact_velocity : Vector.Vector3)
           (wheel_heading wheel_angular_velocity wheel_radius : R)
  : option SlipState :=
  let heading_vec :=
    Vector.mkVector3 (cos wheel_heading) (sin wheel_heading) 0 in
  let forward_velocity := Vector.dot contact_velocity heading_vec in
  sr <- slip_ratio forward_velocity wheel_angular_velocity wheel_radius 0.5 ;;
  let sa := slip_angle contact_velocity wheel_heading 0.5 in
  let sa_deg := Py.degrees sa in
  let combined := combined_slip_magnitude sr sa in
  Some (mkSlipState sr sa sa_deg combined).

End Slip.

(** ** vehicle/handbrake.py *)

Module Handbrake.

Record HandbrakeConfig : Type := mkHandbrakeConfig {
  max_torque : R;
  engagement_rate : R;
  release_rate : R;
  can_lock_wheels : bool;
  lock_threshold : R
}.

(** [HandbrakeConfig()] *)
Definition default_config : HandbrakeConfig :=
  mkHandbrakeConfig 2000 10 15 true 0.5.

Record Handbrake : Type := mkHandbrake {
  config : HandbrakeConfig;
  _engagement : R;
  _target : R;
  _left_locked : bool;
  _right_locked : bool
}.

(** [Handbrake(config)] *)
Definition init (c : HandbrakeConfig) : Handbrake :=
  mkHandbrake c 0 0 false false.

(** [Handbrake.set_input] *)
Definition set_input (h : Handbrake) (input_value : R) : Handbrake :=
  mkHandbrake (config h) (_engagement h) (Py.max 0 (Py.min 1 input_value))
              (_left_locked h) (_right_locked h).

(** [Handbrake.update] *)
Definition update (h : Handbrake) (dt : R) : Handbrake :=
  let e :=
    if Py.gtb (_target h) (_engagement h) then
      Py.min (_target h) (_engagement h + engagement_rate (config h) * dt)
    else
      Py.max (_target h) (_engagement h - release_rate (config h) * dt) in
  mkHandbrake (config h) e (_target h) (_left_locked h) (_right_locked h).

(** [Handbrake.get_brake_torques]: the handbrake after the call (the lock
    flags change) and the two torques.  [wheel_speeds] is [None] for the
    default. *)
Definition get_brake_torques (h : Handbrake) (wheel_speeds : option (R * R))
  : Handbrake * (R * R) :=
  let base_torque := _engagement h * max_torque (config h) in
  let h' :=
    match wheel_speeds with
    | Some (omega_L, omega_R) =>
        if can_lock_wheels (config h) then
          if Py.gtb (_engagement h) 0.8 then
            mkHandbrake (config h) (_engagement h) (_target h)
                        (Py.ltb (Rabs omega_L) (lock_threshold (config h)))
                        (Py.ltb (Rabs omega_R) (lock_threshold (config h)))
          else
            mkHandbrake (config h) (_engagement h) (_target h) false false
        else h
    | None => h
    end in
  (h', (base_torque, base_torque)).

(** [Handbrake.get_torque_with_direction] *)
Definition get_torque_with_direction (h : Handbrake) (wheel_speeds : R * R)
  : Handbrake * (R * R) :=
  let (h', base) := get_brake_torques h (Some wheel_speeds) in
  let (base_L, base_R) := base in
  let (omega_L, omega_R) := wheel_speeds in
  let torque_L :=
    if Py.gtb (Rabs omega_L) 0.1 then - Py.copysign base_L omega_L else 0 in
  let torque_R :=
    if Py.gtb (Rabs omega_R) 0.1 then - Py.copysign base_R omega_R else 0 in
  (h', (torque_L, torque_R)).

(** The properties [is_engaged], [is_fully_engaged] and [both_locked]. *)
Definition is_engaged (h : Handbrake) : bool := Py.gtb (_engagement h) 0.01.
Definition is_fully_engaged (h : Handbrake) : bool := Py.gtb (_engagement h) 0.95.
Definition both_locked (h : Handbrake) : bool :=
  _left_locked h && _right_locked h.

(** [Handbrake.reset] *)
Definition reset (h : Handbrake) : Handbrake :=
  mkHandbrake (config h) 0 0 false false.

End Handbrake.

(** ** tire/tire.py *)

Module Tire.

(** The fields of the dataclass, each prefixed with [ts_] to keep them
    apart from the fields of [Tire]. *)
Record TireState : Type := mkTireState {
  ts_slip_ratio : R;
  ts_slip_angle : R;
  ts_slip_angle_deg : R;
  ts_Fx : R;
  ts_Fy : R;
  ts_Fz : R;
  ts_Fx_pure : R;
  ts_Fy_pure : R;
  ts_saturation : R;
  ts_angular_velocity : R;
  ts_rotation_angle : R;
  ts_contact_velocity : R;
  ts_is_grounded : bool
}.

Record TireConfig : Type := mkTireConfig {
  radius : R;
  width : R;
  inertia : R;
  pacejka_params : Pacejka.PacejkaParams;
  relaxation_length_x : R;
  relaxation_length_y : R;
  use_relaxation : bool;
  friction_mu : R
}.

(** [TireConfig.sport()] and [TireConfig.drift()] *)
Definition sport : TireConfig :=
  mkTireConfig 0.32 0.245 1.2 Pacejka.sport_tire 0.3 0.4 true 1.

Definition drift : TireConfig :=
  mkTireConfig 0.32 0.225 1 Pacejka.drift_tire 0.35 0.45 true 0.9.

(** A [Tire]: its configuration, its relaxation filter and its state.  The
    Pacejka formula and the combined-slip handler it holds are functions
    of the configuration. *)
Record Tire : Type := mkTire {
  config : TireConfig;
  relaxation : Relaxation.TireRelaxation;
  angular_velocity : R;
  rotation_angle : R;
  normal_load : R;
  camber : R;
  _slip_state : Slip.SlipState;
  _Fx : R;
  _Fy : R
}.

(** [CombinedSlip(self.pacejka, friction_mu=self.config.friction_mu)] *)
Definition combined_slip (t : Tire) : Combined.CombinedSlip :=
  Combined.mkCombinedSlip (pacejka_params (config t)) (friction_mu (config t)) 1.

(** [Tire(config)] *)
Definition init (c : TireConfig) : Tire :=
  mkTire c (Relaxation.init (relaxation_length_x c) (relaxation_length_y c))
         0 0 4000 0 Slip.no_slip 0 0.

(** [Tire._update_wheel_rotation]; the division raises when the wheel
    inertia is zero. *)
Definition _update_wheel_rotation (t : Tire) (drive_torque brake_torque dt : R)
  : option Tire :=
  let reaction_torque := _Fx t * radius (config t) in
  let net_torque := drive_torque - reaction_torque in
  let '(net_torque, omega) :=
    if Py.gtb (Rabs (angular_velocity t)) 0.1 then
      let brake_dir := - Py.copysign 1 (angular_velocity t) in
      (net_torque + brake_torque * brake_dir, angular_velocity t)
    else if Py.ltb (Rabs net_torque) brake_torque then (0, 0)
    else (net_torque, angular_velocity t) in
  angular_accel <- Py.div net_torque (inertia (config t)) ;;
  let omega := omega + angular_accel * dt in
  let omega :=
    if Py.gtb brake_torque 0 && Py.ltb (Rabs omega) 0.1
    then Py.max 0 omega else omega in
  Some (mkTire (config t) (relaxation t) omega (rotation_angle t)
               (normal_load t) (camber t) (_slip_state t) (_Fx t) (_Fy t)).

(** [Tire._get_state]; [forces] is [None] for the default. *)
Definition _get_state (t : Tire) (contact_velocity : Vector.Vector3)
           (forces : option Combined.CombinedForces) : TireState :=
  mkTireState
    (Slip.slip_ratio_ (_slip_state t))
    (Slip.slip_angle_ (_slip_state t))
    (Slip.slip_angle_deg (_slip_state t))
    (_Fx t) (_Fy t) (normal_load t)
    (match forces with Some f => Combined.Fx_pure f | None => _Fx t end)
    (match forces with Some f => Combined.Fy_pure f | None => _Fy t end)
    (match forces with Some f => Combined.saturation f | None => 0 end)
    (angular_velocity t) (rotation_angle t)
    (Vector.magnitude_2d contact_velocity)
    (Py.gtb (normal_load t) 10).

(** [Tire.update]: the tire after the call and the returned state. *)
Definition update (t : Tire) (contact_velocity : Vector.Vector3)
           (wheel_heading normal_load_arg drive_torque brake_torque dt : R)
  : option (Tire * TireState) :=
  let load := Py.max 0 normal_load_arg in
  let t := mkTire (config t) (relaxation t) (angular_velocity t)
                  (rotation_angle t) load (camber t) (_slip_state t)
                  (_Fx t) (_Fy t) in
  if Py.ltb load 10 then
    let t := mkTire (config t) (relaxation t) (angular_velocity t)
                    (rotation_angle t) load (camber t) (_slip_state t) 0 0 in
    Some (t, _get_state t contact_velocity None)
  else
    slip <- Slip.calculate_slip contact_velocity wheel_heading
              (angular_velocity t) (radius (config t)) ;;
    forces <- Combined.calculate (combined_slip t)
                (Slip.slip_ratio_ slip) (Slip.slip_angle_deg slip)
                load (camber t) "empirical" ;;
    let '(relax, fx, fy) :=
      if use_relaxation (config t) then
        let velocity_mag := Vector.magnitude_2d contact_velocity in
        let r := Relaxation.update (relaxation t) (Combined.Fx forces)
                                   (Combined.Fy forces) velocity_mag dt in
        (r, Relaxation.Fx r, Relaxation.Fy r)
      else (relaxation t, Combined.Fx forces, Combined.Fy forces) in
    let t := mkTire (config t) relax (angular_velocity t) (rotation_angle t)
                    load (camber t) slip fx fy in
    t <- _update_wheel_rotation t drive_torque brake_torque dt ;;
    let t := mkTire (config t) (relaxation t) (angular_velocity t)
                    (rotation_angle t + angular_velocity t * dt)
                    (normal_load t) (camber t) (_slip_state t)
                    (_Fx t) (_Fy t) in
    Some (t, _get_state t contact_velocity (Some forces)).

(** [Tire.get_forces_world] *)
Definition get_forces_world (t : Tire) (wheel_heading : R) : Vector.Vector3 :=
  let cos_h := cos wheel_heading in
  let sin_h := sin wheel_heading in
  Vector.mkVector3 (_Fx t * cos_h - _Fy t * sin_h)
                   (_Fx t * sin_h + _Fy t * cos_h) 0.

(** [Tire.reset] *)
Definition reset (t : Tire) : Tire :=
  mkTire (config t) (Relaxation.reset (relaxation t)) 0 0 4000 (camber t)
         Slip.no_slip 0 0.

(** [Tire.set_angular_velocity_from_speed] *)
Definition set_angular_velocity_from_speed (t : Tire) (speed : R) : option Tire :=
  omega <- Py.div speed (radius (config t)) ;;
  Some (mkTire (config t) (relaxation t) omega (rotation_angle t)
               (normal_load t) (camber t) (_slip_state t) (_Fx t) (_Fy t)).

End Tire.

(* ================================================================= *)
(** * Part II: properties *)
(* ================================================================= *)

(** ** Comparisons *)

Lemma ltb_true (x y : R) : x < y -> Py.ltb x y = true.
Proof. intros H. unfold Py.ltb. destruct (Rlt_dec x y); [reflexivity | contradiction]. Qed.

Lemma ltb_false (x y : R) : y <= x -> Py.ltb x y = false.
Proof. intros H. unfold Py.ltb. destruct (Rlt_dec x y); [lra | reflexivity]. Qed.

Lemma leb_true (x y : R) : x <= y -> Py.leb x y = true.
Proof. intros H. unfold Py.leb. destruct (Rle_dec x y); [reflexivity | contradiction]. Qed.

Lemma leb_false (x y : R) : y < x -> Py.leb x y = false.
Proof. intros H. unfold Py.leb. destruct (Rle_dec x y); [lra | reflexivity]. Qed.

Lemma ltb_spec (x y : R) : reflect (x < y) (Py.ltb x y).
Proof. unfold Py.ltb. destruct (Rlt_dec x y); constructor; assumption. Qed.

Lemma leb_spec (x y : R) : reflect (x <= y) (Py.leb x y).
Proof. unfold Py.leb. destruct (Rle_dec x y); constructor; assumption. Qed.

(** Case analysis on every comparison of the goal. *)
Ltac py_cases :=
  unfold Py.gtb, Py.geb in *;
  repeat match goal with
    | |- context [Py.ltb ?a ?b] => destruct (ltb_spec a b)
    | |- context [Py.leb ?a ?b] => destruct (leb_spec a b)
    end.

Lemma max_spec (x y : R) : Py.max x y = Rmax x y.
Proof.
  unfold Py.max, Rmax. py_cases; destruct (Rle_dec x y); lra.
Qed.

Lemma min_spec (x y : R) : Py.min x y = Rmin x y.
Proof.
  unfold Py.min, Rmin. py_cases; destruct (Rle_dec x y); lra.
Qed.

Lemma div_some (x y : R) : y <> 0 -> Py.div x y = Some (x / y).
Proof. intros H. unfold Py.div. destruct (Req_dec_T y 0); [contradiction | reflexivity]. Qed.

Lemma div_none (x : R) : Py.div x 0 = None.
Proof. unfold Py.div. destruct (Req_dec_T 0 0); [reflexivity | lra]. Qed.

Lemma div_inv (x y q : R) : Py.div x y = Some q -> y <> 0 /\ q = x / y.
Proof.
  unfold Py.div. destruct (Req_dec_T y 0); intros H; [discriminate |].
  injection H as <-. auto.
Qed.

Lemma bind_inv {A B : Type} (c : option A) (k : A -> option B) (b : B) :
  Py.bind c k = Some b -> exists a, c = Some a /\ k a = Some b.
Proof. destruct c as [a |]; simpl; intros H; [eauto | discriminate]. Qed.

Lemma some_inj {A : Type} (a b : A) : Some a = Some b -> a = b.
Proof. intros H. now injection H. Qed.

Lemma copysign_abs (x y : R) : Rabs (Py.copysign x y) = Rabs x.
Proof.
  unfold Py.copysign. py_cases.
  - rewrite Rabs_Ropp. apply Rabs_Rabsolu.
  - apply Rabs_Rabsolu.
Qed.

(** ** core/world.py *)

Section WorldFacts.

Import World.

Context {Vehicle : Type}.
Variable physics_step : Vehicle -> R -> option Vehicle.

Lemma step_vehicles_total (vs : list Vehicle) (d : R) :
  (forall v x, physics_step v x <> None) ->
  exists vs', step_vehicles physics_step vs d = Some vs'.
Proof.
  intros Hps. induction vs as [| v vs [vs' IH]]; simpl.
  - eauto.
  - destruct (physics_step v d) as [v' |] eqn:E; [| now apply Hps in E].
    simpl. rewrite IH. simpl. eauto.
Qed.

Lemma step_vehicles_length (vs vs' : list Vehicle) (d : R) :
  step_vehicles physics_step vs d = Some vs' -> List.length vs' = List.length vs.
Proof.
  revert vs'. induction vs as [| v vs IH]; simpl; intros vs' H.
  - now injection H as <-.
  - apply bind_inv in H as (v' & _ & H).
    apply bind_inv in H as (r & Hr & H).
    injection H as <-. simpl. f_equal. now apply IH.
Qed.

(** What [step] keeps and what it changes. *)
Lemma step_inv (w w1 : World Vehicle) :
  step physics_step w = Some w1 ->
  dt w1 = dt w /\ _max_steps_per_frame w1 = _max_steps_per_frame w
  /\ _accumulator w1 = _accumulator w /\ time w1 = time w + dt w
  /\ step_vehicles physics_step (vehicles w) (dt w) = Some (vehicles w1).
Proof.
  unfold step. intros H. apply bind_inv in H as (vs & Hvs & H).
  injection H as <-. simpl. auto.
Qed.

(** The loop counts every step it takes, and never takes more than the
    cap allows; it leaves when its condition fails, not when the fuel
    does. *)
Lemma step_fixed_loop_inv (fuel : nat) :
  forall (w : World Vehicle) (steps : Z) (w' : World Vehicle) (n : Z),
    step_fixed_loop physics_step fuel w steps = Some (w', n) ->
    (steps <= n <= steps + Z.of_nat fuel)%Z
    /\ dt w' = dt w
    /\ _max_steps_per_frame w' = _max_steps_per_frame w
    /\ time w' = time w + IZR (n - steps) * dt w
    /\ _accumulator w' = _accumulator w - IZR (n - steps) * dt w
    /\ ((steps <= _max_steps_per_frame w)%Z ->
        (n <= _max_steps_per_frame w)%Z)
    /\ ((_max_steps_per_frame w <= steps + Z.of_nat fuel)%Z ->
        ~ (dt w' <= _accumulator w' /\ (n < _max_steps_per_frame w')%Z)).
Proof.
  induction fuel as [| fuel IH]; intros w steps w' n H; simpl in H.
  - injection H as <- <-. rewrite Z.sub_diag. simpl.
    repeat split; try lra; try lia.
  - destruct (Py.geb (_accumulator w) (dt w)
              && (steps <? _max_steps_per_frame w)%Z) eqn:C.
    + apply andb_prop in C as [Ca Cs]. apply Z.ltb_lt in Cs.
      apply bind_inv in H as (w1 & Hstep & H).
      apply step_inv in Hstep as (Hd & Hm & Ha & Ht & _).
      apply IH in H as (Hn & Hd' & Hm' & Ht' & Ha' & Hcap & Hexit).
      simpl in *. rewrite Hd, Hm, Ha, Ht in *.
      replace (n - steps)%Z with (1 + (n - (steps + 1)))%Z by lia.
      rewrite plus_IZR.
      repeat split; try lia; try lra.
      intros Hf. apply Hexit. lia.
    + injection H as <- <-. rewrite Z.sub_diag. simpl.
      repeat split; try lra; try lia.
      intros _ [Hacc Hlt]. apply andb_false_iff in C as [C | C].
      * unfold Py.geb in C. destruct (leb_spec (dt w) (_accumulator w)); [discriminate | contradiction].
      * apply Z.ltb_ge in C. lia.
Qed.

Lemma step_fixed_loop_total (fuel : nat) :
  (forall v x, physics_step v x <> None) ->
  forall (w : World Vehicle) (steps : Z),
  exists w' n, step_fixed_loop physics_step fuel w steps = Some (w', n).
Proof.
  intros Hps. induction fuel as [| fuel IH]; intros w steps; simpl.
  - eauto.
  - destruct (_ && _); [| eauto].
    unfold step.
    destruct (step_vehicles_total (vehicles w) (dt w) Hps) as [vs ->].
    simpl. apply IH.
Qed.

(** A world without vehicles whose accumulator holds [fuel] steps takes
    them all. *)
Lemma step_fixed_loop_empty (fuel : nat) :
  forall (w : World Vehicle) (steps : Z),
    vehicles w = [] ->
    (steps + Z.of_nat fuel <= _max_steps_per_frame w)%Z ->
    0 <= dt w ->
    INR fuel * dt w <= _accumulator w ->
    exists w',
      step_fixed_loop physics_step fuel w steps
      = Some (w', (steps + Z.of_nat fuel)%Z).
Proof.
  induction fuel as [| fuel IH]; intros w steps Hv Hcap Hdt Hacc.
  - simpl. rewrite Z.add_0_r. eauto.
  - rewrite S_INR in Hacc.
    assert (0 <= INR fuel) by apply pos_INR.
    simpl step_fixed_loop.
    replace (Py.geb (_accumulator w) (dt w)) with true
      by (symmetry; apply leb_true; nra).
    replace (steps <? _max_steps_per_frame w)%Z with true
      by (symmetry; apply Z.ltb_lt; lia).
    simpl. unfold step. rewrite Hv. simpl.
    destruct (IH (set_accumulator
                    (set_time (set_vehicles w []) (time w + dt w))
                    (_accumulator w - dt w)) (steps + 1)%Z)
      as [w' Hw']; simpl; try easy; try lia; try lra.
    exists w'. rewrite Hw'. do 2 f_equal. lia.
Qed.

(** A fresh world given at least 20 steps' worth of time takes exactly
    20 steps and keeps the rest in its accumulator. *)
Lemma step_fixed_fresh_saturated (d real_dt : R) :
  0 <= d -> 20 * d <= real_dt ->
  exists w',
    step_fixed physics_step (fresh d) real_dt = Some (w', 20%Z)
    /\ dt w' = d /\ time w' = 20 * d
    /\ _accumulator w' = real_dt - 20 * d.
Proof.
  intros Hd Hr.
  pose (w0 := set_accumulator (fresh (Vehicle:=Vehicle) d) (0 + real_dt)).
  destruct (step_fixed_loop_empty 20 w0 0%Z) as [w' Hw'].
  - reflexivity.
  - change (20 <= 20)%Z. lia.
  - exact Hd.
  - change (INR 20 * d <= 0 + real_dt).
    replace (INR 20) with 20 by (unfold INR; lra). lra.
  - exists w'. split; [exact Hw' |].
    apply step_fixed_loop_inv in Hw' as (_ & Hd' & _ & Ht & Ha & _).
    change (dt w0) with d in *. change (time w0) with 0 in *.
    change (_accumulator w0) with (0 + real_dt) in *.
    change (IZR (0 + Z.of_nat 20 - 0)) with 20 in *.
    repeat split; lra.
Qed.

(** C2.  With the default cap of 20 steps per frame, [step_fixed] returns
    between 0 and 20 whatever [real_dt] and the accumulator are, and it
    does return unless a vehicle raises.  On a fresh world with
    [dt = 0.001], [step_fixed(10.0)] returns exactly 20 and advances
    [time] by [20 * dt]. *)
Theorem step_fixed_spiral_cap (w : World Vehicle) (real_dt : R) :
  _max_steps_per_frame w = 20%Z ->
  (forall w' n,
      step_fixed physics_step w real_dt = Some (w', n) -> (0 <= n <= 20)%Z)
  /\ ((forall v x, physics_step v x <> None) ->
      exists w' n, step_fixed physics_step w real_dt = Some (w', n))
  /\ (exists w',
         step_fixed physics_step (fresh 0.001) 10 = Some (w', 20%Z)
         /\ time w' = time (fresh (Vehicle:=Vehicle) 0.001)
                      + 20 * dt (fresh (Vehicle:=Vehicle) 0.001)).
Proof.
  intros Hcap. split; [| split].
  - intros w' n H. unfold step_fixed in H.
    apply step_fixed_loop_inv in H as (Hn & _ & _ & _ & _ & Hle & _).
    change (_max_steps_per_frame (set_accumulator w (_accumulator w + real_dt)))
      with (_max_steps_per_frame w) in Hle.
    lia.
  - intros Hps. apply step_fixed_loop_total, Hps.
  - destruct (step_fixed_fresh_saturated 0.001 10) as (w' & Hw' & _ & Ht & _);
      try lra.
    exists w'. split; [exact Hw' |].
    change (time (fresh (Vehicle:=Vehicle) 0.001)) with 0.
    change (dt (fresh (Vehicle:=Vehicle) 0.001)) with 0.001.
    lra.
Qed.

(** C3.  After [step_fixed(10.0)] on a fresh world with [dt = 0.001] the
    cap has left 9.98 s in the accumulator, and the interpolation alpha is
    9980: it is not in [[0, 1)]. *)
Theorem interpolation_alpha_after_cap :
  exists w',
    step_fixed physics_step (fresh 0.001) 10 = Some (w', 20%Z)
    /\ get_interpolation_alpha w' = 9980
    /\ ~ (0 <= get_interpolation_alpha w' < 1).
Proof.
  destruct (step_fixed_fresh_saturated 0.001 10) as (w' & Hw' & Hd & _ & Ha);
    try lra.
  exists w'. split; [exact Hw' |].
  assert (E : get_interpolation_alpha w' = 9980).
  { unfold get_interpolation_alpha, Py.gtb. rewrite Hd, Ha.
    rewrite ltb_true by lra. lra. }
  rewrite E. split; [reflexivity | lra].
Qed.

(** C4, as amended.  When the accumulator plus [real_dt] stays below
    [dt], [step_fixed] returns 0 and does not raise; it steps no vehicle
    and leaves [time] alone: the accumulator, and nothing else, changes. *)
Theorem step_fixed_below_dt_noop (w : World Vehicle) (real_dt : R) :
  _accumulator w + real_dt < dt w ->
  step_fixed physics_step w real_dt
  = Some (set_accumulator w (_accumulator w + real_dt), 0%Z).
Proof.
  intros H. unfold step_fixed.
  destruct (Z.to_nat (_max_steps_per_frame w)); [reflexivity |].
  cbn [step_fixed_loop].
  unfold Py.geb. rewrite leb_false; [reflexivity |].
  cbn [set_accumulator dt _accumulator]. lra.
Qed.

End WorldFacts.

Lemma step_fixed_spiral_cap_witness :
  (forall w' n,
      World.step_fixed World.idle_step (World.fresh 0.001) 10 = Some (w', n) ->
      (0 <= n <= 20)%Z)
  /\ ((forall v x, World.idle_step v x <> None) ->
      exists w' n, World.step_fixed World.idle_step (World.fresh 0.001) 10 = Some (w', n))
  /\ (exists w',
         World.step_fixed World.idle_step (World.fresh 0.001) 10 = Some (w', 20%Z)
         /\ World.time w' = World.time (World.fresh (Vehicle:=unit) 0.001)
                      + 20 * World.dt (World.fresh (Vehicle:=unit) 0.001)).
Proof.
  apply (step_fixed_spiral_cap World.idle_step (World.fresh 0.001) 10).
  reflexivity.
Defined.

Lemma step_fixed_below_dt_noop_witness :
  World.step_fixed World.idle_step (World.fresh 0.001) (-1)
  = Some (World.set_accumulator (World.fresh 0.001) (0 + -1), 0%Z).
Proof.
  apply (step_fixed_below_dt_noop World.idle_step (World.fresh 0.001) (-1)).
  change (0 + -1 < 0.001). lra.
Defined.

(** C4, as stated, fails: a world built with [dt = 0] and called with
    [real_dt = 0] runs the loop up to the cap and returns 20, not 0. *)
Lemma step_fixed_zero_dt_counterexample :
  0 <= 0
  /\ World.dt (World.fresh (Vehicle:=unit) 0) <= 0
  /\ (exists w', World.step_fixed World.idle_step (World.fresh 0) 0 = Some (w', 20%Z))
  /\ ~ (exists w', World.step_fixed World.idle_step (World.fresh 0) 0 = Some (w', 0%Z)).
Proof.
  destruct (step_fixed_fresh_saturated World.idle_step 0 0) as (w' & H & _);
    try lra.
  split; [lra |]. split; [change (0 <= 0); lra |].
  split; [exists w'; exact H |].
  intros [w'' H']. rewrite H in H'. discriminate.
Qed.

(** ** vehicle/steering.py *)

Section SteeringFacts.

Import Steering.

(** The small-angle branch: both wheels get the base angle plus or minus
    the linear correction, the left wheel always the plus. *)
Lemma get_wheel_angles_small (s : Steering) (u : R) :
  let c := config s in
  let delta := u * max_steer_angle c in
  let corr := wheelbase c * delta / (2 * track_width c) * ackermann_factor c in
  0.001 <= Rabs delta < 0.1 ->
  0.001 <= ackermann_factor c ->
  track_width c <> 0 ->
  get_wheel_angles s (Some u) = Some (delta + corr, delta - corr).
Proof.
  intros c delta corr [Hlo Hhi] Hk Ht. unfold get_wheel_angles.
  fold c. fold delta.
  rewrite (ltb_false (Rabs delta)) by lra.
  rewrite (ltb_false (ackermann_factor c)) by lra.
  rewrite ltb_true by lra.
  rewrite div_some by lra. reflexivity.
Qed.

(** C5.  On a right turn ([delta > 0], where the left wheel is the outer
    one) the small-angle branch gives the left wheel [delta + Delta] and
    the right wheel [delta - Delta]: with the default configuration and
    [steer_input = 0.1], [delta = 0.06], [Delta = 0.0432], the outer
    (left) wheel gets 0.1032 and the inner (right) wheel 0.0168, the
    reverse of what the claim assigns. *)
Theorem small_angle_right_turn_outer_gets_more :
  let delta := 0.1 * max_steer_angle default_config in
  let Delta := wheelbase default_config * delta
               / (2 * track_width default_config)
               * ackermann_factor default_config in
  delta = 0.06 /\ Delta = 0.0432
  /\ get_wheel_angles (init default_config) (Some 0.1)
     = Some (delta + Delta, delta - Delta)
  /\ delta + Delta = 0.1032 /\ delta - Delta = 0.0168
  /\ delta + Delta <> delta - Delta.
Proof.
  intros delta Delta.
  assert (Hd : delta = 0.06) by (unfold delta; simpl; lra).
  assert (HD : Delta = 0.0432) by (unfold Delta; rewrite Hd; simpl; lra).
  split; [exact Hd |]. split; [exact HD |]. split.
  - apply (get_wheel_angles_small (init default_config) 0.1); simpl.
    + rewrite Rabs_pos_eq; lra.
    + lra.
    + lra.
  - rewrite Hd, HD. repeat split; lra.
Qed.

End SteeringFacts.

(** ** vehicle/drivetrain.py *)

Section DrivetrainFacts.

Import Drivetrain.

Lemma lsd_torques_sum (d : Drivetrain) (T omega_L omega_R : R) :
  fst (_calculate_lsd_torques d T omega_L omega_R)
  + snd (_calculate_lsd_torques d T omega_L omega_R) = T.
Proof.
  unfold _calculate_lsd_torques.
  destruct (Py.gtb (Rabs (omega_R - omega_L)) 0.1);
    [destruct (Py.gtb (omega_R - omega_L) 0) |]; simpl; lra.
Qed.

(** C10.  Whatever the differential, the throttle and the wheel speeds,
    the two drive torques add up to the axle torque, the engine torque
    times the gear ratio times the efficiency.  (The call returns unless
    [max_rpm] is zero, where the rpm fraction divides by it.) *)
Theorem drive_torques_sum (d : Drivetrain) (t : R) (wheel_speeds : R * R) :
  max_rpm (config d) <> 0 ->
  exists T_engine T_L T_R,
    get_engine_torque d (Some t) = Some T_engine
    /\ get_drive_torques d t wheel_speeds = Some (T_L, T_R)
    /\ T_L + T_R = T_engine * gear_ratio (config d) * efficiency (config d).
Proof.
  intros Hrpm. unfold get_drive_torques, axle_torque, get_engine_torque.
  rewrite div_some by exact Hrpm. simpl.
  eexists. 
  destruct (differential (config d)) eqn:E.
  - do 2 eexists. split; [reflexivity |]. split; [reflexivity |]. lra.
  - do 2 eexists. split; [reflexivity |]. split; [reflexivity |]. lra.
  - do 2 eexists. split; [reflexivity |].
    split; [apply f_equal, surjective_pairing |].
    apply lsd_torques_sum.
Qed.

End DrivetrainFacts.

Lemma drive_torques_sum_witness :
  exists T_engine T_L T_R,
    Drivetrain.get_engine_torque
      (Drivetrain.init Drivetrain.default_config) (Some 1) = Some T_engine
    /\ Drivetrain.get_drive_torques
         (Drivetrain.init Drivetrain.default_config) 1 (10, 12)
       = Some (T_L, T_R)
    /\ T_L + T_R
       = T_engine * Drivetrain.gear_ratio Drivetrain.default_config
         * Drivetrain.efficiency Drivetrain.default_config.
Proof.
  apply (drive_torques_sum (Drivetrain.init Drivetrain.default_config) 1 (10, 12)).
  simpl. lra.
Defined.

(** ** vehicle/suspension.py *)

Section SuspensionFacts.

Import Suspension.

Lemma max_0_nonneg (v : R) : 0 <= v -> Py.max 0 v = v.
Proof. intros H. unfold Py.max. py_cases; lra. Qed.

(** C8, as amended.  With [0 < cg_to_front < wheelbase], positive mass
    and tracks and a gravity that is not negative, the loads at zero
    acceleration are the static loads: they add up to [m * g], the front
    axle carries the share [cg_to_rear / wheelbase] of it and the rear
    axle [cg_to_front / wheelbase], and each axle splits evenly. *)
Theorem static_loads_split (cfg : SuspensionConfig) :
  0 < cg_to_front cfg < wheelbase cfg ->
  0 < total_mass cfg ->
  0 < track_front cfg ->
  0 < track_rear cfg ->
  0 <= gravity cfg ->
  exists l,
    calculate_loads_simple cfg 0 0 = Some l
    /\ _calculate_static_loads cfg = Some l
    /\ total l = total_mass cfg * gravity cfg
    /\ front_total l = total l * (cg_to_rear cfg / wheelbase cfg)
    /\ rear_total l = total l * (cg_to_front cfg / wheelbase cfg)
    /\ FL l = FR l /\ RL l = RR l.
Proof.
  intros [Hf Hw] Hm Htf Htr Hg.
  set (W := total_mass cfg * gravity cfg).
  set (ff := cg_to_rear cfg / wheelbase cfg).
  set (rf := cg_to_front cfg / wheelbase cfg).
  assert (HW : 0 <= W) by (unfold W; nra).
  assert (Hff : 0 < ff).
  { unfold ff, cg_to_rear. apply Rdiv_lt_0_compat; lra. }
  assert (Hrf : 0 < rf).
  { unfold rf. apply Rdiv_lt_0_compat; lra. }
  assert (Hsum : ff + rf = 1).
  { unfold ff, rf, cg_to_rear. field. lra. }
  exists (mkWheelLoads (W * ff / 2) (W * ff / 2) (W * rf / 2) (W * rf / 2)).
  split; [| split].
  - unfold calculate_loads_simple, front_weight_fraction, rear_weight_fraction.
    rewrite !div_some by lra. simpl.
    rewrite !div_some by lra. simpl.
    fold W ff rf. unfold clamp_loads. simpl.
    f_equal.
    assert (E0 : forall a b, a * 0 * b = 0) by (intros; ring).
    assert (Z1 : total_mass cfg * 0 * cg_height cfg / wheelbase cfg = 0)
      by (rewrite E0; unfold Rdiv; ring).
    assert (Z2 : total_mass cfg * 0 * cg_height cfg * ff / track_front cfg = 0)
      by (rewrite E0; unfold Rdiv; ring).
    assert (Z3 : total_mass cfg * 0 * cg_height cfg * rf / track_rear cfg = 0)
      by (rewrite E0; unfold Rdiv; ring).
    rewrite Z1, Z2, Z3.
    f_equal; (rewrite max_0_nonneg; [lra | nra]).
  - unfold _calculate_static_loads, front_weight_fraction, rear_weight_fraction.
    rewrite !div_some by lra. simpl. reflexivity.
  - unfold total, front_total, rear_total. simpl.
    repeat split; try reflexivity; nra.
Qed.

End SuspensionFacts.

Lemma static_loads_split_witness :
  exists l,
    Suspension.calculate_loads_simple Suspension.default_config 0 0 = Some l
    /\ Suspension._calculate_static_loads Suspension.default_config = Some l
    /\ Suspension.total l
       = Suspension.total_mass Suspension.default_config
         * Suspension.gravity Suspension.default_config
    /\ Suspension.front_total l
       = Suspension.total l
         * (Suspension.cg_to_rear Suspension.default_config
            / Suspension.wheelbase Suspension.default_config)
    /\ Suspension.rear_total l
       = Suspension.total l
         * (Suspension.cg_to_front Suspension.default_config
            / Suspension.wheelbase Suspension.default_config)
    /\ Suspension.FL l = Suspension.FR l /\ Suspension.RL l = Suspension.RR l.
Proof.
  apply (static_loads_split Suspension.default_config); simpl; lra.
Defined.

(** C8, as stated, fails when the configured gravity is negative: every
    load is clamped to zero, and the loads no longer add up to [m * g]. *)
Lemma static_loads_negative_gravity_counterexample :
  let cfg := Suspension.mkSuspensionConfig 2.7 1.5 1.5 0.5 1.35 1400 (-9.81)
                                           0.5 0.5 in
  0 < Suspension.cg_to_front cfg < Suspension.wheelbase cfg
  /\ 0 < Suspension.total_mass cfg
  /\ 0 < Suspension.track_front cfg /\ 0 < Suspension.track_rear cfg
  /\ Suspension.calculate_loads_simple cfg 0 0
     = Some (Suspension.mkWheelLoads 0 0 0 0)
  /\ Suspension.total (Suspension.mkWheelLoads 0 0 0 0)
     <> Suspension.total_mass cfg * Suspension.gravity cfg.
Proof.
  intros cfg. simpl.
  repeat split; try lra.
  - unfold Suspension.calculate_loads_simple, Suspension.front_weight_fraction,
      Suspension.rear_weight_fraction, Suspension.cg_to_rear. simpl.
    rewrite !div_some by lra. simpl.
    rewrite !div_some by lra. simpl.
    unfold Suspension.clamp_loads. simpl.
    f_equal. unfold Py.max.
    f_equal; (rewrite ltb_false; [reflexivity | lra]).
  - unfold Suspension.total. simpl. lra.
Qed.

(** ** tire/relaxation.py *)

Section RelaxationFacts.

Import Relaxation.

(** The speed both updates divide by is at least [MIN_VELOCITY]. *)
Lemma relaxation_speed_floor (velocity : R) :
  0.5 <= Py.max (Rabs velocity) MIN_VELOCITY.
Proof. unfold Py.max, MIN_VELOCITY. py_cases; lra. Qed.

(** A step that moves [F] a fraction [alpha] in [[0, 1]] of the way to
    the target does not increase the error. *)
Lemma blend_error (F target alpha : R) :
  0 <= alpha <= 1 ->
  Rabs (target - (F + (target - F) * alpha)) <= Rabs (target - F).
Proof.
  intros [H0 H1].
  replace (target - (F + (target - F) * alpha))
    with ((target - F) * (1 - alpha)) by ring.
  rewrite Rabs_mult, (Rabs_pos_eq (1 - alpha)) by lra.
  pose proof (Rabs_pos (target - F)). nra.
Qed.

Lemma relax_exact_error (F target tau dt : R) :
  0 <= dt ->
  Rabs (target - relax_exact F target tau dt) <= Rabs (target - F).
Proof.
  intros Hdt. unfold relax_exact, Py.gtb.
  destruct (ltb_spec 0 tau) as [Htau | Htau].
  - apply blend_error.
    assert (Hx : - dt / tau <= 0).
    { unfold Rdiv. rewrite <- Ropp_mult_distr_l.
      apply Ropp_le_cancel. rewrite Ropp_involutive, Ropp_0.
      apply Rmult_le_pos; [lra |]. left. now apply Rinv_0_lt_compat. }
    pose proof (exp_pos (- dt / tau)).
    assert (exp (- dt / tau) <= 1).
    { destruct Hx as [Hx | Hx].
      - left. rewrite <- exp_0. now apply exp_increasing.
      - rewrite Hx, exp_0. lra. }
    lra.
  - replace (target - target) with 0 by ring.
    rewrite Rabs_R0. apply Rabs_pos.
Qed.

Lemma relax_linear_error (F target tau dt : R) :
  0 <= dt ->
  Rabs (target - relax_linear F target tau dt) <= Rabs (target - F).
Proof.
  intros Hdt. unfold relax_linear, Py.gtb. apply blend_error.
  destruct (ltb_spec 0 tau) as [Htau | Htau]; [| lra].
  assert (0 <= dt / tau).
  { apply Rmult_le_pos; [lra |]. left. now apply Rinv_0_lt_compat. }
  unfold Py.min. py_cases; lra.
Qed.

Lemma step_error (k : variant) (r : TireRelaxation)
      (target_Fx target_Fy : R) (vd : R * R) :
  0 <= snd vd ->
  error_x target_Fx (step k r target_Fx target_Fy vd) <= error_x target_Fx r
  /\ error_y target_Fy (step k r target_Fx target_Fy vd) <= error_y target_Fy r.
Proof.
  intros Hdt. unfold error_x, error_y.
  destruct k; simpl; split;
    auto using relax_exact_error, relax_linear_error.
Qed.

Lemma trace_head (k : variant) (r : TireRelaxation) (tx ty : R)
      (inputs : list (R * R)) :
  exists rest, trace k r tx ty inputs = r :: rest.
Proof. destruct inputs; simpl; eauto. Qed.

(** C7.  Along every run of updates towards a constant target, with time
    steps that are not negative, the error [|F_target - F_filtered|] of
    each axis never increases from one step to the next, with the exact
    update and with the linear one.  (A positive time constant is not
    needed: without one the filter jumps to the target.) *)
Theorem relaxation_error_non_increasing
        (k : variant) (r : TireRelaxation) (target_Fx target_Fy : R)
        (inputs : list (R * R)) :
  Forall (fun vd => 0 <= snd vd) inputs ->
  non_increasing
    (map (error_x target_Fx) (trace k r target_Fx target_Fy inputs))
  /\ non_increasing
       (map (error_y target_Fy) (trace k r target_Fx target_Fy inputs)).
Proof.
  intros Hin. revert r.
  induction Hin as [| vd inputs Hdt _ IH]; intros r; simpl.
  - split; repeat constructor.
  - destruct (IH (step k r target_Fx target_Fy vd)) as [IHx IHy].
    destruct (step_error k r target_Fx target_Fy vd Hdt) as [Hx Hy].
    destruct (trace_head k (step k r target_Fx target_Fy vd)
                         target_Fx target_Fy inputs) as [rest E].
    rewrite E in *. simpl in *.
    split; constructor; try assumption; constructor; assumption.
Qed.

End RelaxationFacts.

Lemma relaxation_error_non_increasing_witness :
  Relaxation.non_increasing
    (map (Relaxation.error_x 1000)
         (Relaxation.trace Relaxation.Exact (Relaxation.init 0.4 0.5)
                           1000 500 [(10, 0.001); (10, 0.001)]))
  /\ Relaxation.non_increasing
       (map (Relaxation.error_y 500)
            (Relaxation.trace Relaxation.Exact (Relaxation.init 0.4 0.5)
                              1000 500 [(10, 0.001); (10, 0.001)])).
Proof.
  apply (relaxation_error_non_increasing Relaxation.Exact
           (Relaxation.init 0.4 0.5) 1000 500 [(10, 0.001); (10, 0.001)]).
  repeat constructor; simpl; lra.
Defined.

(** ** core/vector.py and core/rigid_body.py *)

Section RigidBodyFacts.

Import Vector RigidBody.

Lemma wrap_down_spec (fuel : nat) :
  forall angle,
    angle <= PI + 2 * PI * INR fuel ->
    wrap_down fuel angle <= PI
    /\ (- PI <= angle -> - PI <= wrap_down fuel angle)
    /\ (angle <= PI -> wrap_down fuel angle = angle).
Proof.
  pose proof PI_RGT_0 as Hpi.
  induction fuel as [| fuel IH]; intros angle H.
  - simpl in *. repeat split; intros; lra.
  - rewrite S_INR in H. simpl. unfold Py.gtb.
    destruct (ltb_spec PI angle) as [Hgt | Hle].
    + destruct (IH (angle - 2 * PI)) as (H1 & H2 & H3); [nra |].
      repeat split; [exact H1 | intros _; apply H2; lra | intros; lra].
    + repeat split; intros; lra.
Qed.

Lemma wrap_up_spec (fuel : nat) :
  forall angle,
    - PI - 2 * PI * INR fuel <= angle ->
    - PI <= wrap_up fuel angle
    /\ (angle <= PI -> wrap_up fuel angle <= PI)
    /\ (- PI <= angle -> wrap_up fuel angle = angle).
Proof.
  pose proof PI_RGT_0 as Hpi.
  induction fuel as [| fuel IH]; intros angle H.
  - simpl in *. repeat split; intros; lra.
  - rewrite S_INR in H. simpl.
    destruct (ltb_spec angle (- PI)) as [Hlt | Hge].
    + destruct (IH (angle + 2 * PI)) as (H1 & H2 & H3); [nra |].
      repeat split; [exact H1 | intros _; apply H2; lra | intros; lra].
    + repeat split; intros; lra.
Qed.

(** [turns] provides more iterations than either loop can take. *)
Lemma turns_bound (angle : R) : Rabs angle < 2 * PI * INR (turns angle).
Proof.
  pose proof PI_RGT_0 as Hpi. unfold turns.
  set (q := Rabs angle / (2 * PI)).
  assert (Hq : 0 <= q).
  { unfold q. apply Rmult_le_pos; [apply Rabs_pos |].
    left. apply Rinv_0_lt_compat. lra. }
  destruct (archimed q) as [Hup _].
  assert (Hz : (0 <= up q)%Z).
  { apply le_IZR. lra. }
  rewrite INR_IZR_INZ, Z2Nat.id by exact Hz.
  assert (E : Rabs angle = q * (2 * PI)).
  { unfold q. field. lra. }
  rewrite E. nra.
Qed.

(** [normalize_angle] leaves both loops through their conditions, with
    an angle in [[-pi, pi]]. *)
Lemma normalize_angle_range (angle : R) :
  - PI <= normalize_angle angle <= PI.
Proof.
  pose proof PI_RGT_0 as Hpi. unfold normalize_angle.
  pose proof (turns_bound angle) as Hb.
  assert (Ha : - Rabs angle <= angle <= Rabs angle).
  { unfold Rabs. destruct (Rcase_abs angle); lra. }
  destruct (wrap_down_spec (turns angle) angle) as (D1 & D2 & D3); [lra |].
  set (a1 := wrap_down (turns angle) angle) in *.
  pose proof (turns_bound a1) as Hb1.
  assert (Ha1 : - Rabs a1 <= a1 <= Rabs a1).
  { unfold Rabs. destruct (Rcase_abs a1); lra. }
  destruct (wrap_up_spec (turns a1) a1) as (U1 & U2 & U3); [lra |].
  split; [exact U1 | apply U2, D1].
Qed.

Lemma normalize_angle_fixed (angle : R) :
  - PI <= angle <= PI -> normalize_angle angle = angle.
Proof.
  intros [Hlo Hhi]. pose proof PI_RGT_0 as Hpi. unfold normalize_angle.
  pose proof (turns_bound angle) as Hb.
  assert (Ha : - Rabs angle <= angle <= Rabs angle).
  { unfold Rabs. destruct (Rcase_abs angle); lra. }
  destruct (wrap_down_spec (turns angle) angle) as (_ & _ & D3); [lra |].
  rewrite (D3 Hhi).
  destruct (wrap_up_spec (turns angle) angle) as (_ & _ & U3); [lra |].
  exact (U3 Hlo).
Qed.






End RigidBodyFacts.


(** ** core/vector.py on doubles *)

Section Float64Facts.

Import PrimFloat.
Local Open Scope float_scope.

(** A yaw of a few radians is normalized on doubles as over the reals:
    one pass of the first loop, none of the second. *)
Lemma normalize_angle_double_moderate :
  Float64.normalize_angle 2 5 = Some (5 - 2 * Float64.pi).
Proof. reflexivity. Qed.

(** Where the doubles stop resolving a step of [2 pi]: from [2^56] the
    step leads to the double before it, from the double after [2^56] it
    leads nowhere. *)
Lemma double_resolution_edge :
  0x1p+56 - 2 * Float64.pi = 0x1.fffffffffffffp+55
  /\ 0x1.0000000000001p+56 - 2 * Float64.pi = 0x1.0000000000001p+56.
Proof. split; reflexivity. Qed.



End Float64Facts.

(** ** tire/pacejka.py *)

(** Case analysis on every absolute value of the goal, then linear
    arithmetic. *)
Ltac rabs_lra :=
  unfold Rabs in *;
  repeat match goal with
    | |- context [Rcase_abs ?x] => destruct (Rcase_abs x)
    | H : context [Rcase_abs ?x] |- _ => destruct (Rcase_abs x)
    end;
  lra.

Section PacejkaFacts.

Import Pacejka.

(** The Magic Formula stays within the peak factor of the vertical
    shift. *)
Lemma magic_formula_bound (x B C D E Sh Sv : R) :
  Rabs (magic_formula x B C D E Sh Sv - Sv) <= Rabs D.
Proof.
  unfold magic_formula.
  set (s := sin _).
  replace (D * s + Sv - Sv) with (D * s) by ring.
  rewrite Rabs_mult.
  assert (Hs : Rabs s <= 1).
  { pose proof (SIN_bound (C * atan (B * (x + Sh)
                                      - E * (B * (x + Sh) - atan (B * (x + Sh)))))).
    fold s in H. rabs_lra. }
  pose proof (Rabs_pos D). nra.
Qed.

Lemma magic_formula_abs (x B C D E Sh Sv : R) :
  Rabs (magic_formula x B C D E Sh Sv) <= Rabs D + Rabs Sv.
Proof.
  pose proof (magic_formula_bound x B C D E Sh Sv). rabs_lra.
Qed.

Lemma longitudinal_force_no_load (p : PacejkaParams) (slip_ratio Fz : R) :
  Fz <= 0 -> longitudinal_force p slip_ratio Fz = 0.
Proof. intros H. unfold longitudinal_force. now rewrite leb_true. Qed.

Lemma lateral_force_no_load (p : PacejkaParams) (slip_angle Fz camber : R) :
  Fz <= 0 -> lateral_force p slip_angle Fz camber = Some 0.
Proof. intros H. unfold lateral_force. now rewrite leb_true. Qed.

Lemma longitudinal_force_near_shift (p : PacejkaParams) (slip_ratio Fz : R) :
  0 < Fz ->
  Rabs (longitudinal_force p slip_ratio Fz - Sv_long p Fz) <= Rabs (D_long p Fz).
Proof.
  intros H. unfold longitudinal_force. rewrite leb_false by exact H.
  apply magic_formula_bound.
Qed.

(** With a load, [lateral_force] raises exactly when [a4] is zero. *)
Lemma lateral_force_near_shift (p : PacejkaParams) (slip_angle Fz camber : R) :
  0 < Fz -> a4 p <> 0 ->
  exists F,
    lateral_force p slip_angle Fz camber = Some F
    /\ Rabs (F - Sv_lat p Fz camber) <= Rabs (D_lat p Fz camber).
Proof.
  intros H Ha. unfold lateral_force. rewrite leb_false by exact H.
  rewrite div_some by exact Ha. simpl.
  eexists. split; [reflexivity | apply magic_formula_bound].
Qed.

Lemma lateral_force_total (p : PacejkaParams) (slip_angle Fz camber : R) :
  a4 p <> 0 -> exists F, lateral_force p slip_angle Fz camber = Some F.
Proof.
  intros Ha. destruct (Rle_dec Fz 0) as [H | H].
  - exists 0. now apply lateral_force_no_load.
  - destruct (lateral_force_near_shift p slip_angle Fz camber) as (F & E & _);
      [lra | exact Ha | eauto].
Qed.

Lemma D_long_bound (p : PacejkaParams) (Fz : R) :
  0 < Fz ->
  Rabs (D_long p Fz) <= (Rabs (b1 p) * Fz / 1000 + Rabs (b2 p)) * Fz / 1000.
Proof.
  intros H. unfold D_long.
  replace (Fz * (b1 p * (Fz / 1000) + b2 p) / 1000)
    with ((b1 p * (Fz / 1000) + b2 p) * (Fz / 1000)) by field.
  rewrite Rabs_mult, (Rabs_pos_eq (Fz / 1000)) by lra.
  assert (Rabs (b1 p * (Fz / 1000) + b2 p)
          <= Rabs (b1 p) * Fz / 1000 + Rabs (b2 p)).
  { eapply Rle_trans; [apply Rabs_triang |].
    rewrite Rabs_mult, (Rabs_pos_eq (Fz / 1000)) by lra. lra. }
  assert (0 < Fz / 1000) by lra.
  replace ((Rabs (b1 p) * Fz / 1000 + Rabs (b2 p)) * Fz / 1000)
    with ((Rabs (b1 p) * Fz / 1000 + Rabs (b2 p)) * (Fz / 1000)) by field.
  nra.
Qed.

Lemma D_lat_bound (p : PacejkaParams) (Fz camber : R) :
  0 < Fz ->
  Rabs (D_lat p Fz camber)
  <= (Rabs (a1 p) * Fz / 1000 + Rabs (a2 p)) * Fz / 1000
     * Rabs (1 - a15 p * camber * camber).
Proof.
  intros H. unfold D_lat.
  replace (Fz * (a1 p * (Fz / 1000) + a2 p)
           * (1 - a15 p * camber * camber) / 1000)
    with ((a1 p * (Fz / 1000) + a2 p) * (Fz / 1000)
          * (1 - a15 p * camber * camber)) by field.
  rewrite !Rabs_mult, (Rabs_pos_eq (Fz / 1000)) by lra.
  assert (Rabs (a1 p * (Fz / 1000) + a2 p)
          <= Rabs (a1 p) * Fz / 1000 + Rabs (a2 p)).
  { eapply Rle_trans; [apply Rabs_triang |].
    rewrite Rabs_mult, (Rabs_pos_eq (Fz / 1000)) by lra. lra. }
  assert (0 < Fz / 1000) by lra.
  pose proof (Rabs_pos (1 - a15 p * camber * camber)).
  replace ((Rabs (a1 p) * Fz / 1000 + Rabs (a2 p)) * Fz / 1000)
    with ((Rabs (a1 p) * Fz / 1000 + Rabs (a2 p)) * (Fz / 1000)) by field.
  apply Rmult_le_compat_r; [assumption | nra].
Qed.

(** C6, as amended.  Both evaluators return 0 without a load.  With a
    load, the longitudinal force is within [(|b1| Fz/1000 + |b2|) Fz/1000]
    of its vertical shift, and the lateral force (which raises when [a4]
    is zero) within [(|a1| Fz/1000 + |a2|) Fz/1000 |1 - a15 camber^2|] of
    its own; the bound with the factor 1.2 follows when the camber term
    is at most 1 and the shift at most 0.2 of that peak bound. *)
Theorem pacejka_force_bounds (p : PacejkaParams) (slip Fz camber : R) :
  let peak_long := (Rabs (b1 p) * Fz / 1000 + Rabs (b2 p)) * Fz / 1000 in
  let peak_lat := (Rabs (a1 p) * Fz / 1000 + Rabs (a2 p)) * Fz / 1000 in
  (Fz <= 0 ->
   longitudinal_force p slip Fz = 0
   /\ lateral_force p slip Fz camber = Some 0)
  /\ (0 < Fz ->
      Rabs (longitudinal_force p slip Fz)
      <= peak_long + Rabs (Sv_long p Fz)
      /\ (Rabs (Sv_long p Fz) <= 0.2 * peak_long ->
          Rabs (longitudinal_force p slip Fz) <= peak_long * 1.2))
  /\ (0 < Fz -> a4 p <> 0 ->
      exists F,
        lateral_force p slip Fz camber = Some F
        /\ Rabs F <= peak_lat * Rabs (1 - a15 p * camber * camber)
                     + Rabs (Sv_lat p Fz camber)
        /\ (Rabs (1 - a15 p * camber * camber) <= 1 ->
            Rabs (Sv_lat p Fz camber) <= 0.2 * peak_lat ->
            Rabs F <= peak_lat * 1.2)).
Proof.
  intros peak_long peak_lat. split; [| split].
  - intros H. split.
    + now apply longitudinal_force_no_load.
    + now apply lateral_force_no_load.
  - intros H.
    pose proof (longitudinal_force_near_shift p slip Fz H) as Hn.
    pose proof (D_long_bound p Fz H) as Hd. fold peak_long in Hd.
    split; [rabs_lra | intros Hs; rabs_lra].
  - intros H Ha.
    destruct (lateral_force_near_shift p slip Fz camber H Ha) as (F & E & Hn).
    pose proof (D_lat_bound p Fz camber H) as Hd. fold peak_lat in Hd.
    exists F. split; [exact E |]. split.
    + clear E. set (u := Rabs (1 - a15 p * camber * camber)) in *.
      clearbody u. rabs_lra.
    + intros Hc Hs.
      assert (0 <= peak_lat).
      { unfold peak_lat.
        pose proof (Rabs_pos (a1 p)). pose proof (Rabs_pos (a2 p)).
        assert (0 < Fz / 1000) by lra.
        replace ((Rabs (a1 p) * Fz / 1000 + Rabs (a2 p)) * Fz / 1000)
          with ((Rabs (a1 p) * (Fz / 1000) + Rabs (a2 p)) * (Fz / 1000))
          by field.
        nra. }
      assert (Rabs (D_lat p Fz camber) <= peak_lat).
      { eapply Rle_trans; [exact Hd |].
        pose proof (Rabs_pos (1 - a15 p * camber * camber)). nra. }
      clear E Hd Hc.
      set (u := Rabs (1 - a15 p * camber * camber)) in *. clearbody u.
      rabs_lra.
Qed.

(** C6, as stated, fails at small loads: the sport tyre under
    [Fz = 0.001] N returns a lateral force of at least 0.021 N, its
    vertical shift less its peak factor, above the claimed bound of
    0.0012132 N. *)
Lemma lateral_force_small_load_counterexample :
  exists F,
    lateral_force sport_tire 0 0.001 0 = Some F
    /\ (Rabs (a1 sport_tire) * 0.001 / 1000 + Rabs (a2 sport_tire))
       * 0.001 / 1000 * 1.2 < Rabs F.
Proof.
  destruct (lateral_force_near_shift sport_tire 0 0.001 0) as (F & E & Hn);
    [lra | simpl; lra |].
  exists F. split; [exact E |].
  unfold D_lat, Sv_lat in Hn. simpl in Hn.
  assert (Ha1 : Rabs (-22.1) = 22.1) by (rewrite Rabs_left; lra).
  assert (Ha2 : Rabs 1011 = 1011) by (rewrite Rabs_pos_eq; lra).
  simpl. rewrite Ha1, Ha2.
  set (D := 0.001 * (-22.1 * (0.001 / 1000) + 1011) * (1 - 0 * 0 * 0) / 1000) in *.
  set (Sv := 14.8 * (0.001 / 1000) + 0.022 + (0 * (0.001 / 1000) + 0) * 0 * (0.001 / 1000)) in *.
  assert (HD : D <= 0.0011) by (unfold D; lra).
  assert (HD' : 0 <= D) by (unfold D; lra).
  assert (HS : 0.022 <= Sv) by (unfold Sv; lra).
  clearbody D Sv. rabs_lra.
Qed.

End PacejkaFacts.

(** *** The peak search *)

Section PeakFacts.

Import Pacejka.

Lemma argmax_from_spec (l : list R) :
  forall (pre : list R) (best_i : nat) (best : R) (i : nat),
    i = List.length pre ->
    (best_i < i)%nat ->
    nth best_i pre 0 = best ->
    Forall (fun x => x <= best) pre ->
    (argmax_from best_i best i l < List.length (pre ++ l))%nat
    /\ Forall (fun x => x <= nth (argmax_from best_i best i l) (pre ++ l) 0)
              (pre ++ l).
Proof.
  induction l as [| x rest IH]; intros pre best_i best i Hi Hlt Hn Hall; simpl.
  - rewrite app_nil_r. split; [lia |]. rewrite Hn. exact Hall.
  - unfold Py.gtb. destruct (ltb_spec best x) as [Hx | Hx].
    + specialize (IH (pre ++ [x]) i x (S i)).
      rewrite <- app_assoc in IH. simpl in IH. apply IH.
      * rewrite length_app. simpl. lia.
      * lia.
      * rewrite app_nth2 by lia. subst i. now rewrite Nat.sub_diag.
      * apply Forall_app. split.
        -- eapply Forall_impl; [| exact Hall]. simpl. intros; lra.
        -- constructor; [lra | constructor].
    + specialize (IH (pre ++ [x]) best_i best (S i)).
      rewrite <- app_assoc in IH. simpl in IH. apply IH.
      * rewrite length_app. simpl. lia.
      * lia.
      * rewrite app_nth1 by lia. exact Hn.
      * apply Forall_app. split; [exact Hall |].
        constructor; [lra | constructor].
Qed.

(** [argmax] returns the index of a greatest element. *)
Lemma argmax_spec (l : list R) :
  l <> [] ->
  (argmax l < List.length l)%nat
  /\ Forall (fun x => x <= nth (argmax l) l 0) l.
Proof.
  destruct l as [| x rest]; [contradiction | intros _].
  apply (argmax_from_spec rest [x] 0%nat x 1%nat); simpl; try lia; auto.
  constructor; [lra | constructor].
Qed.

Lemma argmax_constant (l : list R) (c : R) :
  l <> [] -> Forall (fun x => x = c) l -> nth (argmax l) l 0 = c.
Proof.
  intros Hl Hc. destruct (argmax_spec l Hl) as [Hlt _].
  rewrite Forall_forall in Hc. apply Hc. now apply nth_In.
Qed.

Lemma map_raising_total {A B : Type} (f : A -> option B) (l : list A) :
  (forall a, exists b, f a = Some b) ->
  exists l', map_raising f l = Some l' /\ List.length l' = List.length l.
Proof.
  intros Hf. induction l as [| a l (l' & IH & Hlen)]; simpl.
  - exists []. auto.
  - destruct (Hf a) as [b ->]. simpl. rewrite IH. simpl.
    exists (b :: l'). simpl. auto.
Qed.

Lemma map_raising_eq {A B : Type} (f : A -> option B) (g : A -> B)
      (l : list A) :
  (forall a, f a = Some (g a)) -> map_raising f l = Some (map g l).
Proof.
  intros Hf. induction l as [| a l IH]; simpl; [reflexivity |].
  now rewrite Hf, IH.
Qed.

Lemma linspace_length (start stop : R) (num : nat) :
  List.length (linspace start stop num) = num.
Proof. unfold linspace. now rewrite length_map, length_seq. Qed.

(** The peak search returns whenever [lateral_force] does. *)
Lemma get_peak_lateral_force_total (p : PacejkaParams) (Fz camber : R) :
  a4 p <> 0 ->
  exists peak slip, get_peak_lateral_force p Fz camber = Some (peak, slip).
Proof.
  intros Ha. unfold get_peak_lateral_force.
  destruct (map_raising_total
              (fun a => f <- lateral_force p a Fz camber ;; Some (Rabs f))
              (linspace 0 20 200)) as (forces & -> & _).
  - intros a. destruct (lateral_force_total p a Fz camber Ha) as [F ->].
    cbn [Py.bind]. eauto.
  - cbn [Py.bind]. eauto.
Qed.

(** The forces of a tyre without stiffness. *)
Lemma constant_longitudinal (fx fy slip Fz : R) :
  0 < Fz -> longitudinal_force (constant_force_tire fx fy) slip Fz = fx.
Proof.
  intros H.
  pose proof (longitudinal_force_near_shift
                (constant_force_tire fx fy) slip Fz H) as Hn.
  unfold D_long, Sv_long in Hn. simpl in Hn.
  replace (Fz * (0 * (Fz / 1000) + 0) / 1000) with 0 in Hn by field.
  rewrite Rabs_R0 in Hn. rabs_lra.
Qed.

Lemma constant_lateral (fx fy slip Fz camber : R) :
  0 < Fz -> lateral_force (constant_force_tire fx fy) slip Fz camber = Some fy.
Proof.
  intros H.
  destruct (lateral_force_near_shift
              (constant_force_tire fx fy) slip Fz camber H) as (F & E & Hn);
    [simpl; lra |].
  rewrite E. f_equal.
  unfold D_lat, Sv_lat in Hn. simpl in Hn.
  replace (Fz * (0 * (Fz / 1000) + 0) * (1 - 0 * camber * camber) / 1000)
    with 0 in Hn by field.
  rewrite Rabs_R0 in Hn. rabs_lra.
Qed.

Lemma constant_peak_longitudinal (fx fy Fz : R) :
  0 < Fz ->
  fst (get_peak_longitudinal_force (constant_force_tire fx fy) Fz) = Rabs fx.
Proof.
  intros H. unfold get_peak_longitudinal_force. cbv zeta. cbn [fst].
  apply argmax_constant.
  - intros E. apply (f_equal (@List.length R)) in E.
    rewrite length_map, linspace_length in E. discriminate.
  - apply Forall_forall. intros x Hx. apply in_map_iff in Hx as (sr & <- & _).
    now rewrite constant_longitudinal.
Qed.

Lemma constant_peak_lateral (fx fy Fz camber : R) :
  0 < Fz ->
  exists slip,
    get_peak_lateral_force (constant_force_tire fx fy) Fz camber
    = Some (Rabs fy, slip).
Proof.
  intros H. unfold get_peak_lateral_force.
  rewrite (map_raising_eq _ (fun _ => Rabs fy)).
  - cbn [Py.bind]. eexists. f_equal. f_equal.
    apply argmax_constant.
    + intros E. apply (f_equal (@List.length R)) in E.
      rewrite length_map, linspace_length in E. discriminate.
    + apply Forall_forall. intros x Hx.
      apply in_map_iff in Hx as (a & <- & _). reflexivity.
  - intros a. now rewrite constant_lateral.
Qed.

Lemma map_raising_Forall {A B : Type} (f : A -> option B) (P : B -> Prop)
      (l : list A) :
  (forall a b, f a = Some b -> P b) ->
  forall l', map_raising f l = Some l' -> Forall P l'.
Proof.
  intros Hf. induction l as [| a l IH]; simpl; intros l' H.
  - apply some_inj in H. subst l'. constructor.
  - apply bind_inv in H as (b & Hb & H).
    apply bind_inv in H as (bs & Hbs & H).
    apply some_inj in H. subst l'. constructor; eauto.
Qed.

(** The searched lateral peak is a magnitude. *)
Lemma get_peak_lateral_force_nonneg (p : PacejkaParams)
      (Fz camber peak slip : R) :
  get_peak_lateral_force p Fz camber = Some (peak, slip) -> 0 <= peak.
Proof.
  unfold get_peak_lateral_force. intros H.
  apply bind_inv in H as (forces & Hf & H). cbv zeta in H.
  apply some_inj in H. apply (f_equal fst) in H. cbn [fst] in H. subst peak.
  apply (map_raising_Forall _ (fun x => 0 <= x)) in Hf.
  - destruct (nth_in_or_default (argmax forces) forces 0) as [Hin | ->];
      [| lra].
    rewrite Forall_forall in Hf. now apply Hf.
  - intros a b Hb. apply bind_inv in Hb as (F & _ & Hb).
    apply some_inj in Hb. subst b. apply Rabs_pos.
Qed.

End PeakFacts.

(** ** tire/combined.py *)

Section CombinedFacts.

Import Pacejka Combined.

(** The ellipse clip shared by the simple and the empirical method:
    forces inside the ellipse pass, forces outside are scaled onto it. *)
Lemma ellipse_clip (fx fy Fxp Fyp : R) :
  0 < Fxp -> 0 < Fyp ->
  let s := sqrt (fx / Fxp * (fx / Fxp) + fy / Fyp * (fy / Fyp)) in
  (s <= 1 -> Rsqr (fx / Fxp) + Rsqr (fy / Fyp) <= 1)
  /\ (1 < s ->
      Rsqr (fx * (1 / s) / Fxp) + Rsqr (fy * (1 / s) / Fyp) = 1).
Proof.
  intros Hx Hy s.
  set (a := fx / Fxp) in *. set (b := fy / Fyp) in *.
  assert (Hq : 0 <= a * a + b * b) by nra.
  assert (Hs : s * s = a * a + b * b) by (apply sqrt_sqrt, Hq).
  assert (Hs0 : 0 <= s) by apply sqrt_pos.
  split; intros H.
  - unfold Rsqr. nra.
  - replace (fx * (1 / s) / Fxp) with (a / s) by (unfold a; field; lra).
    replace (fy * (1 / s) / Fyp) with (b / s) by (unfold b; field; lra).
    unfold Rsqr.
    replace (a / s * (a / s) + b / s * (b / s))
      with ((a * a + b * b) / (s * s)) by (field; lra).
    rewrite <- Hs. field. nra.
Qed.

Lemma zero_forces_within (Fxp Fyp : R) :
  Rsqr (0 / Fxp) + Rsqr (0 / Fyp) <= 1.
Proof. unfold Rdiv. rewrite !Rmult_0_l, Rsqr_0. lra. Qed.

(** A narrower lateral axis only tightens the bound taken against the
    whole peak. *)
Lemma ratio_shrinks (y P rho : R) :
  0 < P -> 0 < rho <= 1 -> Rsqr (y / P) <= Rsqr (y / (P * rho)).
Proof.
  intros HP [H0 H1].
  replace (y / P) with (y / (P * rho) * rho) by (field; lra).
  unfold Rsqr. set (z := y / (P * rho)).
  assert (Hz : 0 <= z * z) by nra.
  assert (Hr : rho * rho <= 1) by nra.
  nra.
Qed.

(** A wider lateral axis loosens it by the square of the ratio at most. *)
Lemma ratio_widens (a y P rho : R) :
  0 < P -> 1 <= rho ->
  Rsqr a + Rsqr (y / (P * rho)) <= 1 ->
  Rsqr a + Rsqr (y / P) <= Rsqr rho.
Proof.
  intros HP H1.
  replace (y / P) with (y / (P * rho) * rho) by (field; lra).
  unfold Rsqr. set (z := y / (P * rho)). intros H.
  assert (Hz : 0 <= z * z) by nra.
  assert (Ha : 0 <= a * a) by nra.
  assert (Hr : 1 <= rho * rho) by nra.
  assert (H2 : 0 <= (rho * rho - 1) * (a * a)) by (apply Rmult_le_pos; lra).
  assert (H3 : 0 <= (rho * rho) * (1 - (a * a + z * z)))
    by (apply Rmult_le_pos; lra).
  nra.
Qed.

(** The simple method clips against the lateral axis
    [Fy_peak * ellipse_ratio].  For every ratio up to 1 (a ratio of 0 or
    less leaves an axis below 1 N, where the method returns no force) the
    result lies within the ellipse of the two peaks; for a ratio above 1
    it lies within that ellipse enlarged by the ratio. *)
Lemma simple_within_ellipse (cs : CombinedSlip)
      (slip_ratio slip_angle Fz camber Fy_peak slip : R) :
  friction_mu cs = 1 ->
  a4 (pacejka cs) <> 0 ->
  get_peak_lateral_force (pacejka cs) Fz camber = Some (Fy_peak, slip) ->
  exists r,
    combined_forces_simple cs slip_ratio slip_angle Fz camber = Some r
    /\ (ellipse_ratio cs <= 1 ->
        Rsqr (Fx r / fst (get_peak_longitudinal_force (pacejka cs) Fz))
        + Rsqr (Fy r / Fy_peak) <= 1)
    /\ (1 <= ellipse_ratio cs ->
        Rsqr (Fx r / fst (get_peak_longitudinal_force (pacejka cs) Fz))
        + Rsqr (Fy r / Fy_peak) <= Rsqr (ellipse_ratio cs)).
Proof.
  intros Hmu Ha Hpk.
  pose proof (get_peak_lateral_force_nonneg _ _ _ _ _ Hpk) as Hpk0.
  unfold combined_forces_simple.
  destruct (lateral_force_total (pacejka cs) slip_angle Fz camber Ha) as [F ->].
  rewrite Hpk, Hmu. cbn [Py.bind fst].
  set (Fxp := fst (get_peak_longitudinal_force (pacejka cs) Fz)).
  set (rho := ellipse_ratio cs) in *.
  rewrite !Rmult_1_r, Rmult_1_l.
  assert (Hzero : forall bound, 1 <= bound ->
                    Rsqr (0 / Fxp) + Rsqr (0 / Fy_peak) <= bound).
  { intros bound Hb. pose proof (zero_forces_within Fxp Fy_peak). lra. }
  assert (Hsq : 1 <= rho -> 1 <= Rsqr rho) by (unfold Rsqr; intros; nra).
  destruct (ltb_spec Fxp 1) as [H1 | H1]; cbn [orb].
  { eexists. split; [reflexivity |]. cbn [Fx Fy].
    split; intros; apply Hzero; auto; lra. }
  destruct (ltb_spec (Fy_peak * rho) 1) as [H2 | H2].
  { eexists. split; [reflexivity |]. cbn [Fx Fy].
    split; intros; apply Hzero; auto; lra. }
  assert (Hrho : 0 < rho) by nra.
  assert (HP : 0 < Fy_peak) by nra.
  unfold Py.gtb. rewrite !ltb_true by lra.
  set (fx := longitudinal_force (pacejka cs) slip_ratio Fz).
  destruct (ellipse_clip fx F Fxp (Fy_peak * rho)) as [Hin Hout]; try lra.
  cbv zeta in Hin, Hout.
  destruct (leb_spec
              (sqrt (fx / Fxp * (fx / Fxp)
                     + F / (Fy_peak * rho) * (F / (Fy_peak * rho)))) 1)
    as [Hs | Hs].
  - eexists. split; [reflexivity |]. cbn [Fx Fy].
    specialize (Hin Hs). split; intros Hr.
    + pose proof (ratio_shrinks F Fy_peak rho HP (conj Hrho Hr)). lra.
    + apply (ratio_widens _ F Fy_peak rho HP Hr Hin).
  - eexists. split; [reflexivity |]. cbn [Fx Fy].
    assert (Hlt : 1 < sqrt (fx / Fxp * (fx / Fxp)
                     + F / (Fy_peak * rho) * (F / (Fy_peak * rho)))) by lra.
    specialize (Hout Hlt). split; intros Hr.
    + match goal with
      | |- _ + Rsqr (?y / Fy_peak) <= 1 =>
          pose proof (ratio_shrinks y Fy_peak rho HP (conj Hrho Hr))
      end.
      lra.
    + match goal with
      | |- Rsqr ?a + Rsqr (?y / Fy_peak) <= _ =>
          apply (ratio_widens a y Fy_peak rho HP Hr)
      end.
      lra.
Qed.

Lemma empirical_within_ellipse (cs : CombinedSlip)
      (slip_ratio slip_angle_deg Fz camber Fy_peak slip : R) :
  friction_mu cs = 1 ->
  a4 (pacejka cs) <> 0 ->
  get_peak_lateral_force (pacejka cs) Fz camber = Some (Fy_peak, slip) ->
  exists r,
    combined_forces_empirical cs slip_ratio slip_angle_deg Fz camber = Some r
    /\ Rsqr (Fx r / fst (get_peak_longitudinal_force (pacejka cs) Fz))
       + Rsqr (Fy r / Fy_peak) <= 1.
Proof.
  intros Hmu Ha Hpk. unfold combined_forces_empirical.
  destruct (lateral_force_total (pacejka cs) slip_angle_deg Fz camber Ha)
    as [F ->].
  rewrite Hpk, Hmu. cbn [Py.bind fst].
  set (Fxp := fst (get_peak_longitudinal_force (pacejka cs) Fz)).
  rewrite !Rmult_1_r.
  destruct (ltb_spec Fxp 1) as [H1 | H1]; cbn [orb].
  { eexists. split; [reflexivity | apply zero_forces_within]. }
  destruct (ltb_spec Fy_peak 1) as [H2 | H2].
  { eexists. split; [reflexivity | apply zero_forces_within]. }
  match goal with
  | |- context [if Py.ltb ?a ?b then _ else _] => destruct (ltb_spec a b)
  end.
  { eexists. split; [reflexivity | apply zero_forces_within]. }
  unfold Py.gtb. rewrite !(ltb_true 0) by lra.
  match goal with
  | |- context [Py.ltb 1 (sqrt (?fx / Fxp * _ + ?fy / Fy_peak * _))] =>
      destruct (ellipse_clip fx fy Fxp Fy_peak) as [Hin Hout]; try lra;
      destruct (ltb_spec 1 (sqrt (fx / Fxp * (fx / Fxp)
                                  + fy / Fy_peak * (fy / Fy_peak))))
        as [Hs | Hs]
  end.
  - eexists. split; [reflexivity |]. cbn [Fx Fy]. rewrite Hout; lra.
  - eexists. split; [reflexivity |]. cbn [Fx Fy]. apply Hin. lra.
Qed.

(** C1, as amended.  In exact real arithmetic and with [mu = 1], the
    empirical method (the default, and what every method name other than
    "simple" and "vector" selects) and the simple method with an ellipse
    ratio of at most 1 (the default is 1) return forces within the
    friction ellipse of the two searched peaks:
    [(Fx/Fx_peak)^2 + (Fy/Fy_peak)^2 <= 1], so within [1 + 1e-6] as well.
    A ratio above 1 enlarges the ellipse by the ratio, and the simple
    method stays within [1 + 1e-6] as long as the square of the ratio
    does.  The computation returns whenever [a4] is not zero. *)
Theorem combined_forces_within_ellipse
        (cs : CombinedSlip) (slip_ratio slip_angle_deg Fz camber : R)
        (method : string) :
  friction_mu cs = 1 ->
  a4 (pacejka cs) <> 0 ->
  method <> "vector"%string ->
  (method = "simple"%string ->
   ellipse_ratio cs <= 1 \/ Rsqr (ellipse_ratio cs) <= 1 + 1e-6) ->
  exists r Fy_peak slip,
    calculate cs slip_ratio slip_angle_deg Fz camber method = Some r
    /\ get_peak_lateral_force (pacejka cs) Fz camber = Some (Fy_peak, slip)
    /\ ((method = "simple"%string -> ellipse_ratio cs <= 1) ->
        Rsqr (Fx r / fst (get_peak_longitudinal_force (pacejka cs) Fz))
        + Rsqr (Fy r / Fy_peak) <= 1)
    /\ Rsqr (Fx r / fst (get_peak_longitudinal_force (pacejka cs) Fz))
       + Rsqr (Fy r / Fy_peak) <= 1 + 1e-6.
Proof.
  intros Hmu Ha Hv Hs.
  destruct (get_peak_lateral_force_total (pacejka cs) Fz camber Ha)
    as (Fy_peak & slip & Hpk).
  unfold calculate.
  destruct (String.eqb_spec method "simple") as [E | E].
  - destruct (simple_within_ellipse cs slip_ratio slip_angle_deg Fz camber
                Fy_peak slip Hmu Ha Hpk) as (r & Hr & Hin & Hwide).
    exists r, Fy_peak, slip.
    split; [exact Hr |]. split; [exact Hpk |].
    split; [intros Hle; apply Hin, Hle, E |].
    destruct (Rle_dec (ellipse_ratio cs) 1) as [Hle | Hgt].
    + specialize (Hin Hle). lra.
    + destruct (Hs E) as [Hle | Hsq]; [contradiction |].
      assert (H1 : 1 <= ellipse_ratio cs) by lra.
      specialize (Hwide H1). lra.
  - destruct (String.eqb_spec method "vector") as [E' | E']; [contradiction |].
    destruct (empirical_within_ellipse cs slip_ratio slip_angle_deg Fz camber
                Fy_peak slip Hmu Ha Hpk) as (r & Hr & Hin).
    exists r, Fy_peak, slip. repeat split; auto. lra.
Qed.

End CombinedFacts.

Lemma combined_forces_within_ellipse_witness :
  let cs := Combined.mkCombinedSlip Pacejka.sport_tire 1 0.9 in
  exists r Fy_peak slip,
    Combined.calculate cs 0.1 5 4000 0 "simple" = Some r
    /\ Pacejka.get_peak_lateral_force (Combined.pacejka cs) 4000 0
       = Some (Fy_peak, slip)
    /\ (("simple"%string = "simple"%string -> Combined.ellipse_ratio cs <= 1) ->
        Rsqr (Combined.Fx r
              / fst (Pacejka.get_peak_longitudinal_force (Combined.pacejka cs) 4000))
        + Rsqr (Combined.Fy r / Fy_peak) <= 1)
    /\ Rsqr (Combined.Fx r
             / fst (Pacejka.get_peak_longitudinal_force (Combined.pacejka cs) 4000))
       + Rsqr (Combined.Fy r / Fy_peak) <= 1 + 1e-6.
Proof.
  intros cs.
  apply (combined_forces_within_ellipse cs 0.1 5 4000 0 "simple").
  - reflexivity.
  - simpl. lra.
  - discriminate.
  - intros _. left. simpl. lra.
Defined.

(** The vector method applies no ellipse clip.  A tyre whose longitudinal
    curve is flat at 2 N and whose lateral curve is flat at 10 N has the
    peaks 2 N and 10 N; under a load of 1000 N, at slip ratio 1 and slip
    angle 0, the vector method reads the combined force 10 N off the
    lateral curve and returns [Fx = 10], [Fy = 0]:
    [(Fx/Fx_peak)^2 = 25]. *)
Lemma vector_method_outside_ellipse :
  let cs := Combined.mkCombinedSlip (Pacejka.constant_force_tire 2 10) 1 1 in
  exists r slip,
    Combined.friction_mu cs = 1
    /\ Combined.calculate cs 1 0 1000 0 "vector" = Some r
    /\ fst (Pacejka.get_peak_longitudinal_force (Combined.pacejka cs) 1000) = 2
    /\ Pacejka.get_peak_lateral_force (Combined.pacejka cs) 1000 0
       = Some (10, slip)
    /\ Combined.Fx r = 10 /\ Combined.Fy r = 0
    /\ ~ (Rsqr (Combined.Fx r / 2) + Rsqr (Combined.Fy r / 10) <= 1 + 1e-6).
Proof.
  intros cs.
  assert (Hpx : fst (Pacejka.get_peak_longitudinal_force
                       (Combined.pacejka cs) 1000) = 2).
  { unfold cs. cbn [Combined.pacejka].
    rewrite constant_peak_longitudinal by lra. apply Rabs_pos_eq. lra. }
  destruct (constant_peak_lateral 2 10 1000 0) as [slip Hpy]; [lra |].
  rewrite (Rabs_pos_eq 10) in Hpy by lra.
  assert (Hrad : Py.radians 0 = 0) by (unfold Py.radians; lra).
  unfold Combined.calculate. cbn [String.eqb Ascii.eqb Bool.eqb].
  unfold Combined.combined_forces_vector.
  cbn [Combined.pacejka Combined.friction_mu cs].
  rewrite Hrad, !constant_lateral, Hpy by lra.
  cbn [Py.bind fst].
  rewrite (ltb_true (Rabs 0)) by (rewrite Rabs_R0; lra).
  rewrite tan_0.
  replace (1 * 1 + 0 * 0) with 1 by ring. rewrite sqrt_1.
  rewrite (ltb_false 1 1e-6) by lra.
  unfold Py.gtb. rewrite (ltb_true 1e-6 1) by lra.
  eexists. exists slip.
  split; [reflexivity |]. split; [reflexivity |].
  split; [exact Hpx |]. split; [reflexivity |].
  cbn [Combined.Fx Combined.Fy].
  assert (Hfx : Py.copysign (Rabs 10 * 1 * (1 / 1)) 1 = 10).
  { unfold Py.copysign. rewrite ltb_false by lra.
    rewrite (Rabs_pos_eq 10) by lra. rewrite Rabs_pos_eq; lra. }
  assert (Hfy : Py.copysign (Rabs 10 * 1 * (0 / 1)) 0 = 0).
  { unfold Py.copysign. rewrite ltb_false by lra.
    replace (Rabs 10 * 1 * (0 / 1)) with 0 by lra. apply Rabs_R0. }
  rewrite Hfx, Hfy. split; [reflexivity |]. split; [reflexivity |].
  unfold Rsqr. lra.
Qed.

(** The simple method with an ellipse ratio above 1 clips against a
    lateral axis longer than the lateral peak.  For the same flat tyre and
    the ratio 2 the axes are 2 N and 20 N; the pure forces 2 N and 10 N
    have the saturation [sqrt 1.25] and are divided by it:
    [(Fx/2)^2 + (Fy/10)^2 = 1.6]. *)
Lemma simple_method_wide_ellipse :
  let cs := Combined.mkCombinedSlip (Pacejka.constant_force_tire 2 10) 1 2 in
  exists r slip,
    Combined.friction_mu cs = 1
    /\ Combined.calculate cs 1 0 1000 0 "simple" = Some r
    /\ fst (Pacejka.get_peak_longitudinal_force (Combined.pacejka cs) 1000) = 2
    /\ Pacejka.get_peak_lateral_force (Combined.pacejka cs) 1000 0
       = Some (10, slip)
    /\ Rsqr (Combined.Fx r / 2) + Rsqr (Combined.Fy r / 10) = 1.6
    /\ ~ (Rsqr (Combined.Fx r / 2) + Rsqr (Combined.Fy r / 10) <= 1 + 1e-6).
Proof.
  intros cs.
  assert (Hpx : fst (Pacejka.get_peak_longitudinal_force
                       (Combined.pacejka cs) 1000) = 2).
  { unfold cs. cbn [Combined.pacejka].
    rewrite constant_peak_longitudinal by lra. apply Rabs_pos_eq. lra. }
  destruct (constant_peak_lateral 2 10 1000 0) as [slip Hpy]; [lra |].
  rewrite (Rabs_pos_eq 10) in Hpy by lra.
  unfold Combined.calculate. cbn [String.eqb Ascii.eqb Bool.eqb].
  unfold Combined.combined_forces_simple.
  rewrite Hpx.
  cbn [Combined.pacejka Combined.friction_mu Combined.ellipse_ratio cs].
  rewrite constant_longitudinal, constant_lateral, Hpy by lra.
  cbn [Py.bind fst].
  rewrite (ltb_false (2 * 1) 1), (ltb_false (10 * (1 * 2)) 1) by lra.
  cbn [orb]. unfold Py.gtb. rewrite !(ltb_true 0) by lra.
  replace (2 * 1 / (2 * 1) * (2 * 1 / (2 * 1))
           + 10 * 1 / (10 * (1 * 2)) * (10 * 1 / (10 * (1 * 2))))
    with 1.25 by lra.
  assert (Hs : sqrt 1.25 * sqrt 1.25 = 1.25) by (apply sqrt_sqrt; lra).
  assert (Hs1 : 1 < sqrt 1.25).
  { rewrite <- sqrt_1 at 1. apply sqrt_lt_1; lra. }
  rewrite (leb_false (sqrt 1.25) 1) by exact Hs1.
  eexists. exists slip.
  split; [reflexivity |]. split; [reflexivity |].
  split; [reflexivity |]. split; [reflexivity |].
  cbn [Combined.Fx Combined.Fy].
  assert (E : Rsqr (2 * 1 * (1 / sqrt 1.25) / 2)
              + Rsqr (10 * 1 * (1 / sqrt 1.25) / 10) = 1.6).
  { unfold Rsqr.
    replace (2 * 1 * (1 / sqrt 1.25) / 2 * (2 * 1 * (1 / sqrt 1.25) / 2)
             + 10 * 1 * (1 / sqrt 1.25) / 10
               * (10 * 1 * (1 / sqrt 1.25) / 10))
      with (2 / (sqrt 1.25 * sqrt 1.25)) by (field; lra).
    rewrite Hs. lra. }
  split; [exact E |]. rewrite E. lra.
Qed.

(** C1, as stated, fails in the two places where the clip is not taken
    against the peaks: the vector method, which applies no clip, and the
    simple method with an ellipse ratio above 1. *)
Lemma combined_forces_outside_ellipse_counterexample :
  (let cs := Combined.mkCombinedSlip (Pacejka.constant_force_tire 2 10) 1 1 in
   exists r slip,
     Combined.friction_mu cs = 1
     /\ Combined.calculate cs 1 0 1000 0 "vector" = Some r
     /\ fst (Pacejka.get_peak_longitudinal_force (Combined.pacejka cs) 1000) = 2
     /\ Pacejka.get_peak_lateral_force (Combined.pacejka cs) 1000 0
        = Some (10, slip)
     /\ Combined.Fx r = 10 /\ Combined.Fy r = 0
     /\ ~ (Rsqr (Combined.Fx r / 2) + Rsqr (Combined.Fy r / 10) <= 1 + 1e-6))
  /\ (let cs := Combined.mkCombinedSlip (Pacejka.constant_force_tire 2 10) 1 2 in
      exists r slip,
        Combined.friction_mu cs = 1
        /\ Combined.calculate cs 1 0 1000 0 "simple" = Some r
        /\ fst (Pacejka.get_peak_longitudinal_force (Combined.pacejka cs) 1000) = 2
        /\ Pacejka.get_peak_lateral_force (Combined.pacejka cs) 1000 0
           = Some (10, slip)
        /\ Rsqr (Combined.Fx r / 2) + Rsqr (Combined.Fy r / 10) = 1.6
        /\ ~ (Rsqr (Combined.Fx r / 2) + Rsqr (Combined.Fy r / 10) <= 1 + 1e-6)).
Proof.
  split.
  - exact vector_method_outside_ellipse.
  - exact simple_method_wide_ellipse.
Qed.


(* ================================================================= *)
(** * Part III: further properties of the same code *)
(* ================================================================= *)

(** ** core/world.py *)

Section WorldAccounting.

Import World.

Context {Vehicle : Type}.
Variable physics_step : Vehicle -> R -> option Vehicle.

(** The loop does not start while the accumulator is below [dt]. *)
Lemma step_fixed_loop_stops (fuel : nat) (w : World Vehicle) (steps : Z) :
  _accumulator w < dt w ->
  step_fixed_loop physics_step fuel w steps = Some (w, steps).
Proof.
  intros H. destruct fuel; [reflexivity |]. cbn [step_fixed_loop].
  unfold Py.geb. now rewrite leb_false.
Qed.

(** A step is only taken from an accumulator that holds it: the loop never
    drives the accumulator below zero. *)
Lemma step_fixed_loop_nonneg (fuel : nat) :
  forall (w : World Vehicle) (steps : Z) (w' : World Vehicle) (n : Z),
    step_fixed_loop physics_step fuel w steps = Some (w', n) ->
    0 <= _accumulator w -> 0 <= _accumulator w'.
Proof.
  induction fuel as [| fuel IH]; intros w steps w' n H Hacc; simpl in H.
  - now injection H as <- <-.
  - destruct (Py.geb (_accumulator w) (dt w)
              && (steps <? _max_steps_per_frame w)%Z) eqn:C.
    + apply andb_prop in C as [Ca _]. unfold Py.geb in Ca.
      destruct (leb_spec (dt w) (_accumulator w)) as [Hle |]; [| discriminate].
      apply bind_inv in H as (w1 & Hstep & H).
      apply step_inv in Hstep as (Hd & _ & Ha & _).
      apply IH in H; [exact H |]. simpl. rewrite Hd, Ha. lra.
    + now injection H as <- <-.
Qed.

(** Simulated time is accounted for exactly in exact arithmetic (on
    doubles, up to the rounding of each addition): a call that takes [n]
    steps advances [time] by [n * dt] and leaves in the accumulator what
    [real_dt] added less those [n] steps, so [time + accumulator] grows by
    [real_dt]. *)
Theorem step_fixed_accounts_time
        (w : World Vehicle) (real_dt : R) (w' : World Vehicle) (n : Z) :
  step_fixed physics_step w real_dt = Some (w', n) ->
  dt w' = dt w
  /\ time w' = time w + IZR n * dt w
  /\ _accumulator w' = _accumulator w + real_dt - IZR n * dt w
  /\ time w' + _accumulator w' = time w + _accumulator w + real_dt.
Proof.
  intros H. unfold step_fixed in H.
  apply step_fixed_loop_inv in H as (_ & Hd & _ & Ht & Ha & _).
  rewrite Z.sub_0_r in Ht, Ha.
  change (dt (set_accumulator w (_accumulator w + real_dt))) with (dt w) in *.
  change (time (set_accumulator w (_accumulator w + real_dt)))
    with (time w) in *.
  change (_accumulator (set_accumulator w (_accumulator w + real_dt)))
    with (_accumulator w + real_dt) in *.
  repeat split; try assumption; lra.
Qed.

(** When the call stays under the cap, the accumulator it leaves is below
    [dt]; from an accumulator that is not negative the interpolation alpha
    is then in [[0, 1)]. *)
Theorem interpolation_alpha_in_range
        (w : World Vehicle) (real_dt : R) (w' : World Vehicle) (n : Z) :
  0 < dt w ->
  0 <= _accumulator w + real_dt ->
  step_fixed physics_step w real_dt = Some (w', n) ->
  (n < _max_steps_per_frame w)%Z ->
  0 <= get_interpolation_alpha w' < 1.
Proof.
  intros Hdt Hacc H Hn. unfold step_fixed in H.
  pose proof (step_fixed_loop_nonneg _ _ _ _ _ H Hacc) as Hnn.
  apply step_fixed_loop_inv in H as (_ & Hd & Hm & _ & _ & _ & Hexit).
  change (dt (set_accumulator w (_accumulator w + real_dt))) with (dt w) in *.
  change (_max_steps_per_frame (set_accumulator w (_accumulator w + real_dt)))
    with (_max_steps_per_frame w) in *.
  assert (Hlt : _accumulator w' < dt w').
  { destruct (Rlt_dec (_accumulator w') (dt w')) as [Hlt | Hge]; [exact Hlt |].
    exfalso. apply Hexit; [lia |]. split; [lra | lia]. }
  unfold get_interpolation_alpha, Py.gtb. rewrite ltb_true by lra.
  rewrite Hd in *. split.
  - apply Rmult_le_pos; [exact Hnn |]. left. now apply Rinv_0_lt_compat.
  - apply Rmult_lt_reg_r with (dt w); [exact Hdt |].
    unfold Rdiv. rewrite Rmult_assoc, Rinv_l by lra. lra.
Qed.

End WorldAccounting.

(** [World(dt=0.25).step_fixed(5.125)]: twenty steps of a quarter second
    and an eighth left over, every number of the run a binary fraction. *)
Lemma step_fixed_accounts_time_witness :
  exists w',
    World.step_fixed World.idle_step (World.fresh 0.25) 5.125 = Some (w', 20%Z)
    /\ World.dt w' = World.dt (World.fresh (Vehicle:=unit) 0.25)
    /\ World.time w'
       = World.time (World.fresh (Vehicle:=unit) 0.25)
         + IZR 20 * World.dt (World.fresh (Vehicle:=unit) 0.25)
    /\ World._accumulator w'
       = World._accumulator (World.fresh (Vehicle:=unit) 0.25) + 5.125
         - IZR 20 * World.dt (World.fresh (Vehicle:=unit) 0.25)
    /\ World.time w' + World._accumulator w'
       = World.time (World.fresh (Vehicle:=unit) 0.25)
         + World._accumulator (World.fresh (Vehicle:=unit) 0.25) + 5.125.
Proof.
  destruct (step_fixed_fresh_saturated World.idle_step 0.25 5.125)
    as (w' & H & _); try lra.
  exists w'. split; [exact H |].
  exact (step_fixed_accounts_time World.idle_step (World.fresh 0.25) 5.125 w'
           20%Z H).
Defined.

Lemma interpolation_alpha_in_range_witness :
  0 <= World.get_interpolation_alpha
         (World.set_accumulator (World.fresh (Vehicle:=unit) 0.001)
                                (0 + 0.0004)) < 1.
Proof.
  apply (interpolation_alpha_in_range World.idle_step (World.fresh 0.001)
           0.0004 _ 0%Z).
  - change (0 < 0.001). lra.
  - change (0 <= 0 + 0.0004). lra.
  - unfold World.step_fixed. apply step_fixed_loop_stops.
    change (0 + 0.0004 < 0.001). lra.
  - change (0 < 20)%Z. lia.
Defined.

(** ** vehicle/steering.py *)

Section SteeringMore.

Import Steering.

(** [max(lo, min(hi, v))], the clamp the sources write out. *)
Lemma clamp_range (lo hi v : R) :
  lo <= hi ->
  lo <= Py.max lo (Py.min hi v) <= hi
  /\ (lo <= v <= hi -> Py.max lo (Py.min hi v) = v).
Proof.
  intros H. unfold Py.min. destruct (ltb_spec v hi);
    unfold Py.max;
    match goal with |- context [Py.ltb ?a ?b] => destruct (ltb_spec a b) end;
    split; intros; lra.
Qed.

(** [set_input] keeps the target within [[-1, 1]]. *)
Theorem steering_set_input_clamps (s : Steering) (steer_input : R) :
  -1 <= _target_input (set_input s steer_input) <= 1
  /\ (-1 <= steer_input <= 1 ->
      _target_input (set_input s steer_input) = steer_input).
Proof.
  unfold set_input. cbn [_target_input]. apply clamp_range. lra.
Qed.

(** [update] moves the steering towards its target by at most
    [steering_rate * dt / max_steer_angle], never past the target, and
    reaches the target when it is that close. *)
Theorem steering_update_rate_limited (s : Steering) (dt : R) :
  let max_delta := steering_rate (config s) * dt / max_steer_angle (config s) in
  max_steer_angle (config s) <> 0 ->
  0 <= max_delta ->
  exists s',
    update s dt = Some s'
    /\ _target_input s' = _target_input s
    /\ Rabs (_current_input s' - _current_input s) <= max_delta
    /\ Rabs (_target_input s - _current_input s')
       <= Rabs (_target_input s - _current_input s)
    /\ (Rabs (_target_input s - _current_input s) <= max_delta ->
        _current_input s' = _target_input s).
Proof.
  intros max_delta Hm Hd. unfold update.
  rewrite div_some by exact Hm. cbn [Py.bind]. fold max_delta.
  eexists. split; [reflexivity |]. cbn [_target_input _current_input].
  split; [reflexivity |].
  unfold Py.gtb, Py.copysign.
  destruct (ltb_spec max_delta (Rabs (_target_input s - _current_input s)))
    as [Hbig | Hsmall].
  - destruct (ltb_spec (_target_input s - _current_input s) 0).
    + rewrite (Rabs_pos_eq max_delta) by exact Hd.
      repeat split; intros; rabs_lra.
    + rewrite (Rabs_pos_eq max_delta) by exact Hd.
      repeat split; intros; rabs_lra.
  - repeat split; intros; rabs_lra.
Qed.

(** [get_wheel_angles] raises in one case only: in the small-angle branch,
    when the track width is zero.  The geometric branch catches its own
    divisions by zero and falls back to parallel steering. *)
Theorem get_wheel_angles_raises_iff (s : Steering) (u : R) :
  let delta := u * max_steer_angle (config s) in
  get_wheel_angles s (Some u) = None
  <-> (0.001 <= Rabs delta < 0.1
       /\ 0.001 <= ackermann_factor (config s)
       /\ track_width (config s) = 0).
Proof.
  intros delta. unfold get_wheel_angles. fold delta.
  destruct (ltb_spec (Rabs delta) 0.001) as [H1 | H1].
  { split; [discriminate | intros [[H _] _]; lra]. }
  destruct (ltb_spec (ackermann_factor (config s)) 0.001) as [H2 | H2].
  { split; [discriminate | intros (_ & H & _); lra]. }
  destruct (ltb_spec (Rabs delta) 0.1) as [H3 | H3].
  - unfold Py.div.
    destruct (Req_dec_T (2 * track_width (config s)) 0) as [E | E]; simpl.
    + split; [intros _ | reflexivity]. repeat split; lra.
    + split; [discriminate | intros (_ & _ & H); lra].
  - destruct (full_ackermann (config s) delta);
      (split; [discriminate | intros [[_ H] _]; lra]).
Qed.

End SteeringMore.

Lemma steering_update_rate_limited_witness :
  let s := Steering.set_input (Steering.init Steering.default_config) 1 in
  exists s',
    Steering.update s 0.001 = Some s'
    /\ Steering._target_input s' = Steering._target_input s
    /\ Rabs (Steering._current_input s' - Steering._current_input s)
       <= Steering.steering_rate (Steering.config s) * 0.001
          / Steering.max_steer_angle (Steering.config s)
    /\ Rabs (Steering._target_input s - Steering._current_input s')
       <= Rabs (Steering._target_input s - Steering._current_input s)
    /\ (Rabs (Steering._target_input s - Steering._current_input s)
        <= Steering.steering_rate (Steering.config s) * 0.001
           / Steering.max_steer_angle (Steering.config s) ->
        Steering._current_input s' = Steering._target_input s).
Proof.
  intros s.
  apply (steering_update_rate_limited s 0.001); simpl; lra.
Defined.

(** ** tire/pacejka.py *)

Section PacejkaMore.

Import Pacejka.

Lemma linspace_in (start stop x : R) (num : nat) :
  In x (linspace start stop num) ->
  exists i, (i < num)%nat
            /\ x = start + INR i * ((stop - start) / INR (num - 1)).
Proof.
  unfold linspace. intros H. apply in_map_iff in H as (i & <- & Hi).
  apply in_seq in Hi. exists i. split; [lia | reflexivity].
Qed.

(** The samples of [linspace] lie between its two ends. *)
Lemma linspace_between (start stop x : R) (num : nat) :
  start <= stop -> (2 <= num)%nat ->
  In x (linspace start stop num) -> start <= x <= stop.
Proof.
  intros Hs Hn H. apply linspace_in in H as (i & Hi & ->).
  set (N := INR (num - 1)).
  assert (HN : 0 < N) by (unfold N; apply lt_0_INR; lia).
  assert (Hi0 : 0 <= INR i) by apply pos_INR.
  assert (HiN : INR i <= N) by (unfold N; apply le_INR; lia).
  assert (E : INR i * ((stop - start) / N) = (stop - start) * (INR i / N))
    by (field; lra).
  rewrite E.
  assert (0 <= INR i / N <= 1).
  { split.
    - apply Rmult_le_pos; [exact Hi0 |]. left. now apply Rinv_0_lt_compat.
    - apply Rmult_le_reg_r with N; [exact HN |].
      unfold Rdiv. rewrite Rmult_assoc, Rinv_l by lra. lra. }
  nra.
Qed.

(** The peak search returns the greatest sampled magnitude, and the slip
    ratio, one of 200 samples between 0 and 0.5, at which it is reached. *)
Theorem peak_longitudinal_is_grid_maximum (p : PacejkaParams) (Fz : R) :
  let peak := fst (get_peak_longitudinal_force p Fz) in
  let slip := snd (get_peak_longitudinal_force p Fz) in
  peak = Rabs (longitudinal_force p slip Fz)
  /\ In slip (linspace 0 0.5 200)
  /\ 0 <= slip <= 0.5
  /\ (forall sr, In sr (linspace 0 0.5 200) ->
                 Rabs (longitudinal_force p sr Fz) <= peak).
Proof.
  unfold get_peak_longitudinal_force. cbv zeta. cbn [fst snd].
  set (l := linspace 0 0.5 200).
  set (f := fun sr => Rabs (longitudinal_force p sr Fz)).
  assert (Hlen : List.length (map f l) = 200%nat)
    by (rewrite length_map; apply linspace_length).
  assert (Hne : map f l <> []).
  { intros E. rewrite E in Hlen. discriminate. }
  destruct (argmax_spec (map f l) Hne) as [Hj Hmax].
  set (j := argmax (map f l)) in *.
  assert (Hnth : nth j (map f l) 0 = f (nth j l 0)).
  { rewrite (nth_indep (map f l) 0 (f 0) Hj). apply map_nth. }
  assert (Hin : In (nth j l 0) l).
  { apply nth_In. rewrite length_map in Hj. exact Hj. }
  split; [exact Hnth |]. split; [exact Hin |]. split.
  - apply (linspace_between 0 0.5 _ 200); [lra | lia | exact Hin].
  - intros sr Hsr. rewrite Forall_forall in Hmax.
    apply Hmax. apply in_map_iff. exists sr. auto.
Qed.

(** Without shifts the Magic Formula is odd in the slip. *)
Lemma magic_formula_odd (x B C D E : R) :
  magic_formula (- x) B C D E 0 0 = - magic_formula x B C D E 0 0.
Proof.
  unfold magic_formula. rewrite !Rplus_0_r.
  replace (B * - x) with (- (B * x)) by ring.
  rewrite atan_opp.
  replace (- (B * x) - E * (- (B * x) - - atan (B * x)))
    with (- (B * x - E * (B * x - atan (B * x)))) by ring.
  rewrite atan_opp.
  replace (C * - atan (B * x - E * (B * x - atan (B * x))))
    with (- (C * atan (B * x - E * (B * x - atan (B * x))))) by ring.
  rewrite sin_neg. ring.
Qed.

(** A tyre whose longitudinal shifts are all zero (every preset) brakes
    as hard as it drives: the force is odd in the slip ratio. *)
Theorem longitudinal_force_odd (p : PacejkaParams) (slip_ratio Fz : R) :
  b9 p = 0 -> b10 p = 0 -> b11 p = 0 -> b12 p = 0 ->
  longitudinal_force p (- slip_ratio) Fz = - longitudinal_force p slip_ratio Fz.
Proof.
  intros H9 H10 H11 H12. unfold longitudinal_force, Sv_long.
  destruct (leb_spec Fz 0); [lra |].
  rewrite H9, H10, H11, H12.
  replace (0 * (Fz / 1000) + 0) with 0 by ring.
  apply magic_formula_odd.
Qed.

(** [lateral_force] raises exactly when there is a load and [a4] is
    zero. *)
Theorem lateral_force_raises_iff (p : PacejkaParams) (slip_angle Fz camber : R) :
  lateral_force p slip_angle Fz camber = None <-> (0 < Fz /\ a4 p = 0).
Proof.
  unfold lateral_force. destruct (leb_spec Fz 0) as [H | H].
  - split; [discriminate | intros [H' _]; lra].
  - unfold Py.div. destruct (Req_dec_T (a4 p) 0) as [E | E]; simpl.
    + split; [intros _; split; [lra | exact E] | reflexivity].
    + split; [discriminate | intros [_ E']; contradiction].
Qed.

End PacejkaMore.

Lemma longitudinal_force_odd_witness :
  Pacejka.longitudinal_force Pacejka.sport_tire (- (0.1)) 4000
  = - Pacejka.longitudinal_force Pacejka.sport_tire 0.1 4000.
Proof.
  apply (longitudinal_force_odd Pacejka.sport_tire 0.1 4000); reflexivity.
Defined.

(** ** tire/combined.py *)

Section CombinedMore.

Import Pacejka Combined.

(** [friction_ellipse_limit] returns a force within the ellipse of the two
    maxima that points along the given one: it is the given force times a
    factor [k] with [0 < k <= 1].  A force already within the ellipse
    passes unchanged; a force outside is brought onto the ellipse itself;
    a maximum that is not positive yields no force. *)
Theorem friction_ellipse_limit_within (Fx Fy Fx_max Fy_max : R) :
  let out := friction_ellipse_limit Fx Fy Fx_max Fy_max in
  ((Fx_max <= 0 \/ Fy_max <= 0) -> out = (0, 0))
  /\ (0 < Fx_max -> 0 < Fy_max ->
      Rsqr (fst out / Fx_max) + Rsqr (snd out / Fy_max) <= 1
      /\ (exists k, 0 < k <= 1 /\ fst out = k * Fx /\ snd out = k * Fy)
      /\ fst out * Fy = snd out * Fx
      /\ (Rsqr (Fx / Fx_max) + Rsqr (Fy / Fy_max) <= 1 -> out = (Fx, Fy))
      /\ (1 < Rsqr (Fx / Fx_max) + Rsqr (Fy / Fy_max) ->
          Rsqr (fst out / Fx_max) + Rsqr (snd out / Fy_max) = 1)).
Proof.
  intros out. unfold out, friction_ellipse_limit. split.
  - intros [H | H].
    + now rewrite (leb_true Fx_max 0).
    + rewrite (leb_true Fy_max 0) by exact H. now rewrite orb_true_r.
  - intros Hx Hy. rewrite !leb_false by lra. cbn [orb].
    set (q := Fx / Fx_max * (Fx / Fx_max) + Fy / Fy_max * (Fy / Fy_max)).
    destruct (ellipse_clip Fx Fy Fx_max Fy_max Hx Hy) as [Hin Hout].
    fold q in Hin, Hout.
    destruct (leb_spec q 1) as [Hq | Hq]; cbn [fst snd].
    + split; [unfold Rsqr; fold q; exact Hq |].
      split; [exists 1; repeat split; lra |].
      split; [ring |]. split; [reflexivity |].
      unfold Rsqr. fold q. intros; lra.
    + assert (Hs : 1 < sqrt q).
      { rewrite <- sqrt_1. apply sqrt_lt_1; lra. }
      assert (Hk : 0 < 1 / sqrt q <= 1).
      { unfold Rdiv. rewrite Rmult_1_l. split.
        - apply Rinv_0_lt_compat. lra.
        - assert (H : / sqrt q < / 1) by (apply Rinv_lt_contravar; lra).
          rewrite Rinv_1 in H. lra. }
      split; [rewrite (Hout Hs); lra |].
      split; [exists (1 / sqrt q); repeat split; try apply Hk; ring |].
      split; [ring |].
      split; [unfold Rsqr; fold q; intros; lra |].
      intros _. exact (Hout Hs).
Qed.

Lemma min_1_range (v : R) : 0 <= v -> 0 <= Py.min 1 v <= 1.
Proof. intros H. unfold Py.min. py_cases; lra. Qed.

(** Every method reports a saturation between 0 and 1. *)
Theorem saturation_in_unit_interval
        (cs : CombinedSlip) (slip_ratio slip_angle_deg Fz camber : R)
        (method : string) (r : CombinedForces) :
  calculate cs slip_ratio slip_angle_deg Fz camber method = Some r ->
  0 <= saturation r <= 1.
Proof.
  unfold calculate.
  destruct (String.eqb method "simple"); [| destruct (String.eqb method "vector")].
  - unfold combined_forces_simple.
    destruct (lateral_force _ _ _ _) as [fy |]; [| discriminate].
    destruct (get_peak_lateral_force _ _ _) as [pk |]; [| discriminate].
    cbn [Py.bind].
    destruct (_ || _); [intros H; apply some_inj in H; subst r; cbn [saturation]; lra |].
    match goal with
    | |- context [Py.leb ?a 1] => destruct (leb_spec a 1) as [Hs | Hs]
    end; intros H; apply some_inj in H; subst r; cbn [saturation].
    + split; [apply sqrt_pos | exact Hs].
    + lra.
  - unfold combined_forces_vector.
    destruct (lateral_force (pacejka cs) (Py.degrees _) Fz camber)
      as [fy |]; [| discriminate].
    cbn [Py.bind].
    match goal with
    | |- context [if Py.ltb ?a ?b then Some _ else _] =>
        destruct (ltb_spec a b)
    end; [intros H; apply some_inj in H; subst r; cbn [saturation]; lra |].
    destruct (lateral_force _ _ _ _) as [fc |]; [| discriminate].
    destruct (get_peak_lateral_force _ _ _) as [pk |]; [| discriminate].
    cbn [Py.bind]. intros H. apply some_inj in H. subst r. cbn [saturation].
    apply min_1_range.
    match goal with
    | |- context [if Py.gtb ?F 0 then _ else _] =>
        unfold Py.gtb at 1; destruct (ltb_spec 0 F) as [HF | HF]
    end; [| lra].
    apply Rmult_le_pos; [apply sqrt_pos |].
    left. now apply Rinv_0_lt_compat.
  - unfold combined_forces_empirical.
    destruct (lateral_force _ _ _ _) as [fy |]; [| discriminate].
    destruct (get_peak_lateral_force _ _ _) as [pk |]; [| discriminate].
    cbn [Py.bind].
    destruct (_ || _); [intros H; apply some_inj in H; subst r; cbn [saturation]; lra |].
    match goal with
    | |- context [if Py.ltb ?a ?b then Some _ else _] =>
        destruct (ltb_spec a b)
    end; [intros H; apply some_inj in H; subst r; cbn [saturation]; lra |].
    match goal with
    | |- (if Py.gtb ?a 1 then _ else _) = _ -> _ =>
        change (Py.gtb a 1) with (Py.ltb 1 a);
        destruct (ltb_spec 1 a) as [Hs | Hs]
    end; intros H; apply some_inj in H; subst r; cbn [saturation].
    + lra.
    + split; [apply sqrt_pos | lra].
Qed.

End CombinedMore.

Section VectorMethod.

Import Pacejka Combined.

Lemma copysign_sqr (x y : R) : Rsqr (Py.copysign x y) = Rsqr x.
Proof.
  unfold Py.copysign. destruct (Py.ltb y 0).
  - rewrite <- Rsqr_neg. symmetry. apply Rsqr_abs.
  - symmetry. apply Rsqr_abs.
Qed.

(** The vector method splits one force between the two axes: above its
    slip threshold, the resultant of the returned [Fx] and [Fy] has the
    magnitude read off the lateral curve at the combined slip, times
    [mu]. *)
Theorem vector_forces_magnitude
        (cs : CombinedSlip) (slip_ratio slip_angle_rad Fz camber : R) :
  let tan_alpha :=
    if Py.ltb (Rabs slip_angle_rad) 1.5 then tan slip_angle_rad else 10 in
  let sigma := sqrt (slip_ratio * slip_ratio + tan_alpha * tan_alpha) in
  a4 (pacejka cs) <> 0 ->
  1e-6 < sigma ->
  exists r fc,
    combined_forces_vector cs slip_ratio slip_angle_rad Fz camber = Some r
    /\ lateral_force (pacejka cs) (Py.degrees (atan sigma)) Fz camber = Some fc
    /\ Rsqr (Fx r) + Rsqr (Fy r) = Rsqr (Rabs fc * friction_mu cs).
Proof.
  intros tan_alpha sigma Ha Hs. unfold combined_forces_vector.
  fold tan_alpha. fold sigma.
  destruct (lateral_force_total (pacejka cs) (Py.degrees slip_angle_rad)
                                Fz camber Ha) as [fy ->].
  destruct (lateral_force_total (pacejka cs) (Py.degrees (atan sigma))
                                Fz camber Ha) as [fc Hfc].
  destruct (get_peak_lateral_force_total (pacejka cs) Fz camber Ha)
    as (pk & sl & ->).
  cbn [Py.bind]. rewrite (ltb_false sigma 1e-6) by lra.
  rewrite Hfc. cbn [Py.bind].
  unfold Py.gtb at 1 2. rewrite (ltb_true 1e-6 sigma) by exact Hs.
  eexists. exists fc. split; [reflexivity |]. split; [reflexivity |].
  cbn [Fx Fy]. rewrite !copysign_sqr.
  assert (Hq : 0 <= slip_ratio * slip_ratio + tan_alpha * tan_alpha) by nra.
  assert (Hss : sigma * sigma = slip_ratio * slip_ratio + tan_alpha * tan_alpha)
    by (apply sqrt_sqrt, Hq).
  unfold Rsqr.
  replace (Rabs fc * friction_mu cs * (slip_ratio / sigma)
           * (Rabs fc * friction_mu cs * (slip_ratio / sigma))
           + Rabs fc * friction_mu cs * (tan_alpha / sigma)
             * (Rabs fc * friction_mu cs * (tan_alpha / sigma)))
    with (Rabs fc * friction_mu cs * (Rabs fc * friction_mu cs)
          * ((slip_ratio * slip_ratio + tan_alpha * tan_alpha)
             / (sigma * sigma))) by (field; lra).
  rewrite <- Hss. field. nra.
Qed.

End VectorMethod.

Lemma vector_forces_magnitude_witness :
  let cs := Combined.mkCombinedSlip Pacejka.sport_tire 1 1 in
  let tan_alpha := if Py.ltb (Rabs 0) 1.5 then tan 0 else 10 in
  let sigma := sqrt (1 * 1 + tan_alpha * tan_alpha) in
  exists r fc,
    Combined.combined_forces_vector cs 1 0 4000 0 = Some r
    /\ Pacejka.lateral_force (Combined.pacejka cs)
         (Py.degrees (atan sigma)) 4000 0 = Some fc
    /\ Rsqr (Combined.Fx r) + Rsqr (Combined.Fy r)
       = Rsqr (Rabs fc * Combined.friction_mu cs).
Proof.
  intros cs.
  apply (vector_forces_magnitude cs 1 0 4000 0).
  - simpl. lra.
  - rewrite (ltb_true (Rabs 0)) by (rewrite Rabs_R0; lra).
    rewrite tan_0. replace (1 * 1 + 0 * 0) with 1 by ring.
    rewrite sqrt_1. lra.
Defined.

(** ** tire/relaxation.py *)

Section RelaxationMore.

Import Relaxation.

Lemma relax_exact_composes (F target tau d1 d2 : R) :
  relax_exact (relax_exact F target tau d1) target tau d2
  = relax_exact F target tau (d1 + d2).
Proof.
  unfold relax_exact. destruct (Py.gtb tau 0); [| reflexivity].
  replace (- (d1 + d2) / tau) with (- d1 / tau + - d2 / tau)
    by (unfold Rdiv; ring).
  rewrite exp_plus. ring.
Qed.

(** The exact update is exact: two updates towards the same target at the
    same speed, over [d1] and then [d2], leave the filter where one update
    over [d1 + d2] does. *)
Theorem exact_update_composes
        (r : TireRelaxation) (target_Fx target_Fy velocity d1 d2 : R) :
  update (update r target_Fx target_Fy velocity d1)
         target_Fx target_Fy velocity d2
  = update r target_Fx target_Fy velocity (d1 + d2).
Proof.
  unfold update. cbn [sigma_x sigma_y Fx Fy].
  now rewrite !relax_exact_composes.
Qed.

(** The time constant is positive exactly for a positive relaxation
    length, and is capped at [MAX_TAU], half a second. *)
Theorem relaxation_tau_bounds (sigma velocity : R) :
  tau sigma velocity <= 0.5
  /\ (0 < sigma <-> 0 < tau sigma velocity).
Proof.
  unfold tau. pose proof (relaxation_speed_floor velocity) as Hv.
  set (v := Py.max (Rabs velocity) MIN_VELOCITY) in *.
  assert (Hinv : 0 < / v) by (apply Rinv_0_lt_compat; lra).
  unfold Py.min, MAX_TAU, Rdiv.
  destruct (ltb_spec 0.5 (sigma * / v)) as [H | H].
  - split; [lra |]. split; intros; [lra | nra].
  - split; [lra |]. split; intros H'; nra.
Qed.

(** The linear update never overshoots: the new force lies between the
    old force and the target, and is the target once [dt] covers the time
    constant. *)
Theorem linear_update_no_overshoot (F target tau dt : R) :
  0 <= dt ->
  Rmin F target <= relax_linear F target tau dt <= Rmax F target
  /\ (tau <= dt -> relax_linear F target tau dt = target).
Proof.
  intros Hdt. unfold relax_linear, Py.gtb.
  assert (Hblend : forall alpha, 0 <= alpha <= 1 ->
            Rmin F target <= F + (target - F) * alpha <= Rmax F target).
  { intros alpha [H0 H1]. unfold Rmin, Rmax.
    destruct (Rle_dec F target); split; nra. }
  destruct (ltb_spec 0 tau) as [Htau | Htau].
  - assert (Hq : 0 <= dt / tau).
    { apply Rmult_le_pos; [lra |]. left. now apply Rinv_0_lt_compat. }
    unfold Py.min. destruct (ltb_spec 1 (dt / tau)) as [H1 | H1].
    + split; [apply Hblend; lra | intros; ring].
    + split; [apply Hblend; lra |]. intros Hle.
      assert (1 <= dt / tau).
      { apply Rmult_le_reg_r with tau; [exact Htau |].
        unfold Rdiv. rewrite Rmult_assoc, Rinv_l by lra. lra. }
      replace (dt / tau) with 1 by lra. ring.
  - split; [apply Hblend; lra | intros; ring].
Qed.

End RelaxationMore.

Lemma linear_update_no_overshoot_witness :
  Rmin 0 1000 <= Relaxation.relax_linear 0 1000 0.04 0.001 <= Rmax 0 1000
  /\ (0.04 <= 0.001 -> Relaxation.relax_linear 0 1000 0.04 0.001 = 1000).
Proof.
  apply (linear_update_no_overshoot 0 1000 0.04 0.001). lra.
Defined.

(** ** vehicle/suspension.py *)

Section SuspensionMore.

Import Suspension.

(** Loads are looked up where they were stored, and storing one leaves
    the other wheels alone. *)
Theorem wheel_loads_get_set (l : WheelLoads) (pos other : WheelPosition) (v : R) :
  get (set l pos v) pos = v
  /\ (other <> pos -> get (set l pos v) other = get l other).
Proof.
  split.
  - destruct pos; reflexivity.
  - destruct pos, other; intros H; try reflexivity; contradiction.
Qed.

(** [calculate_loads_simple] raises exactly when the wheelbase or a track
    is zero. *)
Theorem calculate_loads_simple_raises_iff
        (cfg : SuspensionConfig) (longitudinal_accel lateral_accel : R) :
  calculate_loads_simple cfg longitudinal_accel lateral_accel = None
  <-> (wheelbase cfg = 0 \/ track_front cfg = 0 \/ track_rear cfg = 0).
Proof.
  unfold calculate_loads_simple, front_weight_fraction, rear_weight_fraction.
  unfold Py.div.
  destruct (Req_dec_T (wheelbase cfg) 0) as [Hw | Hw]; cbn [Py.bind].
  { split; auto. }
  destruct (Req_dec_T (track_front cfg) 0) as [Hf | Hf]; cbn [Py.bind].
  { split; auto. }
  destruct (Req_dec_T (track_rear cfg) 0) as [Hr | Hr]; cbn [Py.bind].
  { split; auto. }
  split; [discriminate | intros [H | [H | H]]; contradiction].
Qed.

Lemma max_0_ge (v : R) : 0 <= Py.max 0 v /\ v <= Py.max 0 v
                         /\ (0 < Py.max 0 v -> Py.max 0 v = v).
Proof. unfold Py.max. py_cases; repeat split; intros; lra. Qed.

(** Whatever the accelerations, no load is negative and the loads add up
    to at least the weight [m * g]; they add up to exactly the weight as
    long as every wheel carries load (no wheel has lifted). *)
Theorem loads_simple_carry_weight
        (cfg : SuspensionConfig) (longitudinal_accel lateral_accel : R) :
  wheelbase cfg <> 0 -> track_front cfg <> 0 -> track_rear cfg <> 0 ->
  exists l,
    calculate_loads_simple cfg longitudinal_accel lateral_accel = Some l
    /\ 0 <= FL l /\ 0 <= FR l /\ 0 <= RL l /\ 0 <= RR l
    /\ total_mass cfg * gravity cfg <= total l
    /\ (0 < FL l -> 0 < FR l -> 0 < RL l -> 0 < RR l ->
        total l = total_mass cfg * gravity cfg).
Proof.
  intros Hw Hf Hr.
  unfold calculate_loads_simple, front_weight_fraction, rear_weight_fraction.
  rewrite !div_some by assumption. cbn [Py.bind].
  rewrite !div_some by assumption. cbn [Py.bind].
  eexists. split; [reflexivity |].
  unfold clamp_loads, total. cbn [FL FR RL RR].
  set (W := total_mass cfg * gravity cfg).
  set (ff := cg_to_rear cfg / wheelbase cfg).
  set (rf := cg_to_front cfg / wheelbase cfg).
  assert (Hsum : ff + rf = 1).
  { unfold ff, rf, cg_to_rear. field. exact Hw. }
  match goal with
  | |- 0 <= Py.max 0 ?a /\ 0 <= Py.max 0 ?b /\ 0 <= Py.max 0 ?c
       /\ 0 <= Py.max 0 ?d /\ _ =>
      destruct (max_0_ge a) as (A1 & A2 & A3);
      destruct (max_0_ge b) as (B1 & B2 & B3);
      destruct (max_0_ge c) as (C1 & C2 & C3);
      destruct (max_0_ge d) as (D1 & D2 & D3);
      assert (Hw4 : a + b + c + d = W) by (clear - Hsum; nra)
  end.
  split; [exact A1 |]. split; [exact B1 |].
  split; [exact C1 |]. split; [exact D1 |].
  split; [lra |].
  intros HA HB HC HD.
  rewrite (A3 HA), (B3 HB), (C3 HC), (D3 HD). exact Hw4.
Qed.

End SuspensionMore.

Lemma loads_simple_carry_weight_witness :
  exists l,
    Suspension.calculate_loads_simple Suspension.default_config 3 5 = Some l
    /\ 0 <= Suspension.FL l /\ 0 <= Suspension.FR l
    /\ 0 <= Suspension.RL l /\ 0 <= Suspension.RR l
    /\ Suspension.total_mass Suspension.default_config
       * Suspension.gravity Suspension.default_config <= Suspension.total l
    /\ (0 < Suspension.FL l -> 0 < Suspension.FR l ->
        0 < Suspension.RL l -> 0 < Suspension.RR l ->
        Suspension.total l
        = Suspension.total_mass Suspension.default_config
          * Suspension.gravity Suspension.default_config).
Proof.
  apply (loads_simple_carry_weight Suspension.default_config 3 5); simpl; lra.
Defined.

(** ** core/vector.py and core/rigid_body.py *)

Section VectorMore.

Import Vector RigidBody.

Lemma wrap_down_turns (fuel : nat) :
  forall angle, exists k : Z, wrap_down fuel angle = angle + 2 * PI * IZR k.
Proof.
  induction fuel as [| fuel IH]; intros angle; simpl.
  - exists 0%Z. lra.
  - destruct (Py.gtb angle PI).
    + destruct (IH (angle - 2 * PI)) as [k Hk]. exists (k - 1)%Z.
      rewrite Hk, minus_IZR. lra.
    + exists 0%Z. lra.
Qed.

Lemma wrap_up_turns (fuel : nat) :
  forall angle, exists k : Z, wrap_up fuel angle = angle + 2 * PI * IZR k.
Proof.
  induction fuel as [| fuel IH]; intros angle; simpl.
  - exists 0%Z. lra.
  - destruct (Py.ltb angle (- PI)).
    + destruct (IH (angle + 2 * PI)) as [k Hk]. exists (k + 1)%Z.
      rewrite Hk, plus_IZR. lra.
    + exists 0%Z. lra.
Qed.

(** [normalize_angle] returns the angle in [[-pi, pi]] that differs from
    its argument by a whole number of turns; normalizing twice changes
    nothing more. *)
Theorem normalize_angle_same_direction (angle : R) :
  (exists k : Z, normalize_angle angle = angle + 2 * PI * IZR k)
  /\ - PI <= normalize_angle angle <= PI
  /\ normalize_angle (normalize_angle angle) = normalize_angle angle.
Proof.
  split; [| split].
  - unfold normalize_angle.
    destruct (wrap_down_turns (turns angle) angle) as [k1 H1].
    destruct (wrap_up_turns (turns (wrap_down (turns angle) angle))
                            (wrap_down (turns angle) angle)) as [k2 H2].
    exists (k1 + k2)%Z. rewrite H2, H1, plus_IZR. lra.
  - apply normalize_angle_range.
  - apply normalize_angle_fixed, normalize_angle_range.
Qed.

Lemma rotate_z_back (v : Vector3) (angle : R) :
  rotate_z (rotate_z v angle) (- angle) = v.
Proof.
  destruct v as [vx vy vz]. unfold rotate_z. cbn [x y z].
  rewrite cos_neg, sin_neg.
  pose proof (sin2_cos2 angle) as H. unfold Rsqr in H.
  f_equal.
  - transitivity (vx * (sin angle * sin angle + cos angle * cos angle));
      [ring | rewrite H; ring].
  - transitivity (vy * (sin angle * sin angle + cos angle * cos angle));
      [ring | rewrite H; ring].
Qed.

Lemma rotate_z_forth (v : Vector3) (angle : R) :
  rotate_z (rotate_z v (- angle)) angle = v.
Proof.
  rewrite <- (Ropp_involutive angle) at 2. apply rotate_z_back.
Qed.

(** Body coordinates and world coordinates convert into each other
    without loss, whatever the pose of the body. *)
Theorem local_world_round_trip (b : RigidBody) (p : Vector3) :
  world_to_local b (local_to_world b p) = p
  /\ local_to_world b (world_to_local b p) = p.
Proof.
  unfold world_to_local, local_to_world. split.
  - replace (sub (add (position b) (rotate_z p (orientation b))) (position b))
      with (rotate_z p (orientation b)).
    + apply rotate_z_back.
    + destruct (position b), (rotate_z p (orientation b)).
      unfold sub, add. cbn [x y z]. f_equal; ring.
  - rewrite rotate_z_forth.
    destruct (position b), p. unfold sub, add. cbn [x y z]. f_equal; ring.
Qed.

(** A rotation about the z axis keeps the length of a vector. *)
Lemma rotate_z_magnitude (v : Vector3) (angle : R) :
  magnitude_squared (rotate_z v angle) = magnitude_squared v.
Proof.
  destruct v as [vx vy vz]. unfold magnitude_squared, rotate_z. cbn [x y z].
  pose proof (sin2_cos2 angle) as H. unfold Rsqr in H.
  transitivity ((vx * vx + vy * vy)
                * (sin angle * sin angle + cos angle * cos angle) + vz * vz);
    [ring | rewrite H; ring].
Qed.

(** [normalized] returns a unit vector, or the zero vector for a vector
    shorter than 1e-10. *)
Theorem normalized_is_unit (v : Vector3) :
  (1e-10 <= magnitude v -> magnitude (normalized v) = 1)
  /\ (magnitude v < 1e-10 -> normalized v = mkVector3 0 0 0).
Proof.
  unfold normalized. split; intros H.
  - rewrite ltb_false by exact H.
    set (m := magnitude v) in *.
    assert (Hq : 0 <= x v * x v + y v * y v + z v * z v) by nra.
    assert (Hm : m * m = x v * x v + y v * y v + z v * z v)
      by (apply sqrt_sqrt, Hq).
    unfold magnitude at 1. cbn [x y z].
    replace (x v / m * (x v / m) + y v / m * (y v / m) + z v / m * (z v / m))
      with ((x v * x v + y v * y v + z v * z v) / (m * m)) by (field; lra).
    rewrite <- Hm.
    replace (m * m / (m * m)) with 1 by (field; lra).
    apply sqrt_1.
  - now rewrite ltb_true.
Qed.

End VectorMore.

(** ** vehicle/drivetrain.py *)

Section DrivetrainMore.

Import Drivetrain.

(** The four brake torques add up to [brake * max_brake_torque]; the
    front axle takes the share [brake_bias] of it, and each axle splits
    evenly. *)
Theorem brake_torques_split (d : Drivetrain) (brake : R) :
  let '(bFL, bFR, bRL, bRR) := get_brake_torques d brake in
  bFL + bFR + bRL + bRR = brake * max_brake_torque (config d)
  /\ bFL + bFR = brake * max_brake_torque (config d) * brake_bias (config d)
  /\ bFL = bFR /\ bRL = bRR.
Proof.
  unfold get_brake_torques. repeat split; lra.
Qed.

Lemma torque_mult_range (f : R) :
  0.1 <= f <= 1 -> 0.7 <= torque_mult f <= 1.
Proof.
  intros [H0 H1]. unfold torque_mult.
  destruct (ltb_spec f 0.3); [lra |].
  destruct (ltb_spec f 0.8); lra.
Qed.

(** The engine delivers between 70% and 100% of [throttle * max_torque],
    whatever its speed. *)
Theorem engine_torque_bounds (d : Drivetrain) (t : R) :
  max_rpm (config d) <> 0 ->
  0 <= t -> 0 <= max_torque (config d) ->
  exists T,
    get_engine_torque d (Some t) = Some T
    /\ 0.7 * (t * max_torque (config d)) <= T <= t * max_torque (config d).
Proof.
  intros Hrpm Ht Hm. unfold get_engine_torque.
  rewrite div_some by exact Hrpm. cbn [Py.bind].
  eexists. split; [reflexivity |].
  destruct (clamp_range 0.1 1 (engine_rpm d / max_rpm (config d)))
    as [Hc _]; [lra |].
  pose proof (torque_mult_range _ Hc) as Hr.
  set (k := torque_mult _) in *.
  assert (0 <= t * max_torque (config d)) by nra.
  nra.
Qed.

(** The limited-slip differential favours the slower wheel: with locking
    parameters that are not negative, the wheel that turns slower by more
    than 0.1 rad/s gets at least the torque of the other; within that band
    both get the same; and the two never differ by more than the larger
    locking ratio times the axle torque. *)
Theorem lsd_favours_slower_wheel (d : Drivetrain) (T omega_L omega_R : R) :
  0 <= lsd_preload (config d) ->
  0 <= lsd_power_ratio (config d) ->
  0 <= lsd_coast_ratio (config d) ->
  let T_L := fst (_calculate_lsd_torques d T omega_L omega_R) in
  let T_R := snd (_calculate_lsd_torques d T omega_L omega_R) in
  (0.1 < omega_R - omega_L -> T_R <= T_L)
  /\ (omega_R - omega_L < - 0.1 -> T_L <= T_R)
  /\ (Rabs (omega_R - omega_L) <= 0.1 -> T_L = T_R)
  /\ Rabs (T_L - T_R)
     <= Rmax (lsd_power_ratio (config d)) (lsd_coast_ratio (config d))
        * Rabs T.
Proof.
  intros Hp Hpr Hcr T_L T_R. unfold T_L, T_R, _calculate_lsd_torques.
  set (ratio := if Py.gtb T 0 then lsd_power_ratio (config d)
                else lsd_coast_ratio (config d)).
  assert (Hr0 : 0 <= ratio) by (unfold ratio; destruct (Py.gtb T 0); lra).
  assert (Hrm : ratio <= Rmax (lsd_power_ratio (config d))
                              (lsd_coast_ratio (config d))).
  { unfold ratio. destruct (Py.gtb T 0); [apply Rmax_l | apply Rmax_r]. }
  set (M := Rmax _ _) in *.
  set (transfer := Py.min (lsd_preload (config d) + Rabs T * ratio)
                          (Rabs (T / 2))).
  assert (HaT : Rabs (T / 2) = Rabs T / 2).
  { unfold Rdiv. rewrite Rabs_mult, (Rabs_pos_eq (/ 2)) by lra. reflexivity. }
  pose proof (Rabs_pos T) as HT.
  assert (Ht : 0 <= transfer <= Rabs T / 2).
  { unfold transfer, Py.min. rewrite HaT.
    destruct (ltb_spec (Rabs T / 2) (lsd_preload (config d) + Rabs T * ratio));
      nra. }
  assert (Hprod : 0 <= transfer * ratio <= M * Rabs T / 2) by nra.
  unfold Py.gtb.
  destruct (ltb_spec 0.1 (Rabs (omega_R - omega_L))) as [Hd | Hd].
  - destruct (ltb_spec 0 (omega_R - omega_L)) as [Hs | Hs]; cbn [fst snd].
    + split; [intros; lra |]. split; [intros; lra |].
      split; [intros; lra |].
      replace (T / 2 + transfer * ratio - (T / 2 - transfer * ratio))
        with (2 * (transfer * ratio)) by ring.
      rewrite Rabs_pos_eq by lra. lra.
    + split; [intros; lra |]. split; [intros; lra |].
      split; [intros; lra |].
      replace (T / 2 - transfer * ratio - (T / 2 + transfer * ratio))
        with (- (2 * (transfer * ratio))) by ring.
      rewrite Rabs_Ropp, Rabs_pos_eq by lra. lra.
  - cbn [fst snd].
    split; [intros H; exfalso; revert Hd H; clear; intros; rabs_lra |].
    split; [intros H; exfalso; revert Hd H; clear; intros; rabs_lra |].
    split; [reflexivity |].
    replace (T / 2 - T / 2) with 0 by ring. rewrite Rabs_R0. nra.
Qed.

(** The engine speed follows the wheels within its band: from a speed
    between idle and redline, [update_engine_rpm] leaves it there. *)
Theorem engine_rpm_stays_in_band (d : Drivetrain) (wheel_speed dt : R) :
  idle_rpm (config d) <= max_rpm (config d) ->
  idle_rpm (config d) <= engine_rpm d <= max_rpm (config d) ->
  0 <= dt ->
  idle_rpm (config d)
  <= engine_rpm (update_engine_rpm d wheel_speed dt)
  <= max_rpm (config d).
Proof.
  intros Hband Hrpm Hdt. unfold update_engine_rpm. cbn [engine_rpm].
  destruct (clamp_range (idle_rpm (config d)) (max_rpm (config d))
              (Rabs wheel_speed * gear_ratio (config d) * 60 / (2 * PI)) Hband)
    as [Ht _].
  set (target := Py.max _ _) in *.
  assert (Ha : 0 <= Py.min 1 (dt * 5) <= 1).
  { unfold Py.min. destruct (ltb_spec (dt * 5) 1); lra. }
  set (alpha := Py.min 1 (dt * 5)) in *. nra.
Qed.

End DrivetrainMore.

Lemma engine_torque_bounds_witness :
  exists T,
    Drivetrain.get_engine_torque
      (Drivetrain.init Drivetrain.default_config) (Some 0.5) = Some T
    /\ 0.7 * (0.5 * Drivetrain.max_torque Drivetrain.default_config) <= T
       <= 0.5 * Drivetrain.max_torque Drivetrain.default_config.
Proof.
  apply (engine_torque_bounds (Drivetrain.init Drivetrain.default_config) 0.5);
    simpl; lra.
Defined.

Lemma lsd_favours_slower_wheel_witness :
  let d := Drivetrain.init Drivetrain.default_config in
  let T_L := fst (Drivetrain._calculate_lsd_torques d 1000 10 12) in
  let T_R := snd (Drivetrain._calculate_lsd_torques d 1000 10 12) in
  (0.1 < 12 - 10 -> T_R <= T_L)
  /\ (12 - 10 < - 0.1 -> T_L <= T_R)
  /\ (Rabs (12 - 10) <= 0.1 -> T_L = T_R)
  /\ Rabs (T_L - T_R)
     <= Rmax (Drivetrain.lsd_power_ratio (Drivetrain.config d))
             (Drivetrain.lsd_coast_ratio (Drivetrain.config d))
        * Rabs 1000.
Proof.
  intros d.
  apply (lsd_favours_slower_wheel d 1000 10 12); simpl; lra.
Defined.

Lemma engine_rpm_stays_in_band_witness :
  let d := Drivetrain.init Drivetrain.default_config in
  Drivetrain.idle_rpm (Drivetrain.config d)
  <= Drivetrain.engine_rpm (Drivetrain.update_engine_rpm d 50 0.001)
  <= Drivetrain.max_rpm (Drivetrain.config d).
Proof.
  intros d.
  apply (engine_rpm_stays_in_band d 50 0.001); simpl; lra.
Defined.

(** ** tire/slip.py *)

Section SlipFacts.

Import Slip.

Lemma reference_floor (g w epsilon : R) :
  Rabs g <= reference g w epsilon
  /\ Rabs w <= reference g w epsilon
  /\ epsilon <= reference g w epsilon.
Proof.
  unfold reference, Py.max.
  destruct (ltb_spec (Rabs g) (Rabs w));
    match goal with |- context [Py.ltb ?a ?b] => destruct (ltb_spec a b) end;
    repeat split; lra.
Qed.

(** With a positive [epsilon] both slip ratios return.  The unclamped one
    is between -2 and 2, and between -1 and 1 whenever the wheel does not
    turn against the direction of travel, where the clamp of [slip_ratio]
    changes nothing; the clamped one is always between -1 and 1. *)
Theorem slip_ratio_bounded
        (ground_velocity wheel_angular_velocity wheel_radius epsilon : R) :
  0 < epsilon ->
  exists extended clamped,
    slip_ratio_extended ground_velocity wheel_angular_velocity wheel_radius
                        epsilon = Some extended
    /\ slip_ratio ground_velocity wheel_angular_velocity wheel_radius epsilon
       = Some clamped
    /\ -1 <= clamped <= 1
    /\ -2 <= extended <= 2
    /\ (0 <= ground_velocity * (wheel_angular_velocity * wheel_radius) ->
        clamped = extended).
Proof.
  intros He. unfold slip_ratio_extended, slip_ratio.
  set (w := wheel_angular_velocity * wheel_radius).
  destruct (reference_floor ground_velocity w epsilon) as (Hg & Hw & Hr).
  set (ref := reference ground_velocity w epsilon) in *.
  rewrite div_some by lra. cbn [Py.bind].
  do 2 eexists. split; [reflexivity |]. split; [reflexivity |].
  assert (Hinv : 0 < / ref) by (apply Rinv_0_lt_compat; lra).
  assert (Hq : forall a, Rabs a <= ref -> -1 <= a / ref <= 1).
  { intros a Ha. unfold Rdiv.
    assert (- ref <= a <= ref) by (revert Ha; clear; intros; rabs_lra).
    split.
    - apply Rmult_le_reg_r with ref; [lra |].
      rewrite Rmult_assoc, Rinv_l by lra. lra.
    - apply Rmult_le_reg_r with ref; [lra |].
      rewrite Rmult_assoc, Rinv_l by lra. lra. }
  destruct (clamp_range (-1) 1 ((w - ground_velocity) / ref)) as [Hc Hid];
    [lra |].
  split; [exact Hc |]. split.
  - replace ((w - ground_velocity) / ref)
      with (w / ref - ground_velocity / ref) by (field; lra).
    pose proof (Hq w Hw). pose proof (Hq ground_velocity Hg). lra.
  - intros Hsame. apply Hid, Hq.
    revert Hg Hw Hsame. clear. intros.
    unfold Rabs in *.
    destruct (Rcase_abs ground_velocity), (Rcase_abs w),
      (Rcase_abs (w - ground_velocity)); nra.
Qed.

(** The slip angle is always between [-pi] and [pi], and zero below the
    speed [epsilon]. *)
Theorem slip_angle_range (velocity : Vector.Vector3) (wheel_heading epsilon : R) :
  - PI <= slip_angle velocity wheel_heading epsilon <= PI
  /\ (Vector.magnitude_2d velocity < epsilon ->
      slip_angle velocity wheel_heading epsilon = 0).
Proof.
  pose proof PI_RGT_0 as Hpi. unfold slip_angle.
  destruct (ltb_spec (Vector.magnitude_2d velocity) epsilon) as [H | H].
  - split; [lra | reflexivity].
  - split; [| intros; lra].
    apply (normalize_angle_range
             (Py.atan2 (Vector.y velocity) (Vector.x velocity) - wheel_heading)).
Qed.

End SlipFacts.

Lemma slip_ratio_bounded_witness :
  exists extended clamped,
    Slip.slip_ratio_extended 10 40 0.32 0.5 = Some extended
    /\ Slip.slip_ratio 10 40 0.32 0.5 = Some clamped
    /\ -1 <= clamped <= 1
    /\ -2 <= extended <= 2
    /\ (0 <= 10 * (40 * 0.32) -> clamped = extended).
Proof.
  apply (slip_ratio_bounded 10 40 0.32 0.5). lra.
Defined.

(** ** vehicle/handbrake.py *)

Section HandbrakeFacts.

Import Handbrake.

(** With rates and a time step that are not negative, [update] moves the
    engagement towards the target and never past it; engagement and
    target within [[0, 1]] stay there. *)
Theorem handbrake_update_approaches (h : Handbrake) (dt : R) :
  0 <= engagement_rate (config h) ->
  0 <= release_rate (config h) ->
  0 <= dt ->
  Rmin (_engagement h) (_target h) <= _engagement (update h dt)
    <= Rmax (_engagement h) (_target h)
  /\ Rabs (_target h - _engagement (update h dt))
     <= Rabs (_target h - _engagement h)
  /\ (0 <= _engagement h <= 1 -> 0 <= _target h <= 1 ->
      0 <= _engagement (update h dt) <= 1).
Proof.
  intros He Hr Hdt. unfold update. cbn [_engagement].
  assert (0 <= engagement_rate (config h) * dt) by nra.
  assert (0 <= release_rate (config h) * dt) by nra.
  set (e := _engagement h) in *. set (t := _target h) in *.
  set (a := engagement_rate (config h) * dt) in *.
  set (b := release_rate (config h) * dt) in *.
  unfold Py.gtb, Py.min, Py.max, Rmin, Rmax.
  destruct (ltb_spec e t);
    match goal with |- context [Py.ltb ?u ?v] => destruct (ltb_spec u v) end;
    destruct (Rle_dec e t);
    repeat split; intros; rabs_lra.
Qed.

(** The signed handbrake torque opposes the rotation of each wheel.  On
    either wheel it is zero when the wheel turns no faster than 0.1 rad/s
    and has the magnitude [engagement * max_torque] when it turns
    faster. *)
Theorem handbrake_torque_opposes_rotation (h : Handbrake) (omega_L omega_R : R) :
  0 <= _engagement h * max_torque (config h) ->
  let torques := snd (get_torque_with_direction h (omega_L, omega_R)) in
  fst torques * omega_L <= 0 /\ snd torques * omega_R <= 0
  /\ Rabs (fst torques) <= _engagement h * max_torque (config h)
  /\ Rabs (snd torques) <= _engagement h * max_torque (config h)
  /\ (Rabs omega_L <= 0.1 -> fst torques = 0)
  /\ (Rabs omega_R <= 0.1 -> snd torques = 0)
  /\ (0.1 < Rabs omega_L ->
      Rabs (fst torques) = _engagement h * max_torque (config h))
  /\ (0.1 < Rabs omega_R ->
      Rabs (snd torques) = _engagement h * max_torque (config h)).
Proof.
  intros Hb torques. unfold torques, get_torque_with_direction.
  unfold get_brake_torques. cbn [fst snd].
  set (base := _engagement h * max_torque (config h)) in *.
  destruct (can_lock_wheels (config h)); [destruct (Py.gtb (_engagement h) 0.8) |];
    cbn [fst snd]; unfold Py.gtb, Py.copysign;
    destruct (ltb_spec 0.1 (Rabs omega_L));
    destruct (ltb_spec 0.1 (Rabs omega_R));
    repeat match goal with
      | |- context [Py.ltb ?u 0] => destruct (ltb_spec u 0)
      end;
    rewrite ?(Rabs_pos_eq base) by exact Hb;
    repeat split; intros; try nra; rabs_lra.
Qed.

End HandbrakeFacts.

Lemma handbrake_update_approaches_witness :
  let h := Handbrake.set_input (Handbrake.init Handbrake.default_config) 1 in
  Rmin (Handbrake._engagement h) (Handbrake._target h)
    <= Handbrake._engagement (Handbrake.update h 0.001)
    <= Rmax (Handbrake._engagement h) (Handbrake._target h)
  /\ Rabs (Handbrake._target h - Handbrake._engagement (Handbrake.update h 0.001))
     <= Rabs (Handbrake._target h - Handbrake._engagement h)
  /\ (0 <= Handbrake._engagement h <= 1 -> 0 <= Handbrake._target h <= 1 ->
      0 <= Handbrake._engagement (Handbrake.update h 0.001) <= 1).
Proof.
  intros h.
  apply (handbrake_update_approaches h 0.001); simpl; lra.
Defined.

Lemma handbrake_torque_opposes_rotation_witness :
  let h := Handbrake.mkHandbrake Handbrake.default_config 1 1 false false in
  let torques := snd (Handbrake.get_torque_with_direction h (20, 0.05)) in
  fst torques * 20 <= 0 /\ snd torques * 0.05 <= 0
  /\ Rabs (fst torques)
     <= Handbrake._engagement h * Handbrake.max_torque (Handbrake.config h)
  /\ Rabs (snd torques)
     <= Handbrake._engagement h * Handbrake.max_torque (Handbrake.config h)
  /\ (Rabs 20 <= 0.1 -> fst torques = 0)
  /\ (Rabs 0.05 <= 0.1 -> snd torques = 0)
  /\ (0.1 < Rabs 20 ->
      Rabs (fst torques)
      = Handbrake._engagement h * Handbrake.max_torque (Handbrake.config h))
  /\ (0.1 < Rabs 0.05 ->
      Rabs (snd torques)
      = Handbrake._engagement h * Handbrake.max_torque (Handbrake.config h)).
Proof.
  intros h.
  apply (handbrake_torque_opposes_rotation h 20 0.05). simpl. lra.
Defined.

(** ** tire/tire.py *)

Section TireFacts.

Import Tire.

(** Under less than 10 N of load the tyre gives no force: [update] returns
    with both forces at zero and reports the tyre as not grounded; it
    stores [max(0, normal_load)] as the load (the load itself when that is
    not negative, 0 otherwise) and reports it; it leaves the wheel spin,
    the slip state and the relaxation filter alone. *)
Theorem tire_unloaded_gives_no_force
        (t : Tire) (contact_velocity : Vector.Vector3)
        (wheel_heading normal_load_arg drive_torque brake_torque dt : R) :
  normal_load_arg < 10 ->
  exists t' st,
    update t contact_velocity wheel_heading normal_load_arg
           drive_torque brake_torque dt = Some (t', st)
    /\ _Fx t' = 0 /\ _Fy t' = 0
    /\ ts_Fx st = 0 /\ ts_Fy st = 0
    /\ ts_is_grounded st = false
    /\ normal_load t' = Py.max 0 normal_load_arg
    /\ (0 <= normal_load_arg -> normal_load t' = normal_load_arg)
    /\ (normal_load_arg <= 0 -> normal_load t' = 0)
    /\ ts_Fz st = normal_load t'
    /\ 0 <= normal_load t' < 10
    /\ angular_velocity t' = angular_velocity t
    /\ relaxation t' = relaxation t
    /\ _slip_state t' = _slip_state t.
Proof.
  intros H. unfold update.
  assert (Hl : 0 <= Py.max 0 normal_load_arg < 10).
  { unfold Py.max. destruct (ltb_spec 0 normal_load_arg); lra. }
  rewrite (ltb_true (Py.max 0 normal_load_arg) 10) by lra.
  do 2 eexists. split; [reflexivity |].
  cbn [_Fx _Fy normal_load angular_velocity relaxation _slip_state
       _get_state ts_Fx ts_Fy ts_Fz ts_is_grounded].
  repeat split; try reflexivity; try lra.
  - unfold Py.gtb. apply ltb_false. lra.
  - intros H0. unfold Py.max. destruct (ltb_spec 0 normal_load_arg); lra.
  - intros H0. unfold Py.max. destruct (ltb_spec 0 normal_load_arg); lra.
Qed.

(** A wheel at rest (or slower than 0.1 rad/s) whose brake torque exceeds
    the net of drive and road torque stays at rest. *)
Theorem braked_wheel_stays_at_rest (t : Tire) (drive_torque brake_torque dt : R) :
  inertia (config t) <> 0 ->
  Rabs (angular_velocity t) <= 0.1 ->
  Rabs (drive_torque - _Fx t * radius (config t)) < brake_torque ->
  exists t',
    _update_wheel_rotation t drive_torque brake_torque dt = Some t'
    /\ angular_velocity t' = 0.
Proof.
  intros Hi Hw Hb. unfold _update_wheel_rotation, Py.gtb.
  rewrite (ltb_false 0.1) by exact Hw.
  rewrite ltb_true by exact Hb.
  rewrite div_some by exact Hi. cbn [Py.bind].
  eexists. split; [reflexivity |]. cbn [angular_velocity].
  pose proof (Rabs_pos (drive_torque - _Fx t * radius (config t))).
  replace (0 + 0 / inertia (config t) * dt) with 0 by (field; exact Hi).
  rewrite (ltb_true 0 brake_torque) by lra.
  rewrite (ltb_true (Rabs 0)) by (rewrite Rabs_R0; lra).
  cbn [andb]. unfold Py.max. rewrite ltb_false; lra.
Qed.

(** The world-frame force of a tyre has the magnitude of its tyre-frame
    force. *)
Theorem tire_world_force_magnitude (t : Tire) (wheel_heading : R) :
  Vector.magnitude_squared (get_forces_world t wheel_heading)
  = _Fx t * _Fx t + _Fy t * _Fy t.
Proof.
  unfold get_forces_world, Vector.magnitude_squared.
  cbn [Vector.x Vector.y Vector.z].
  pose proof (sin2_cos2 wheel_heading) as H. unfold Rsqr in H.
  transitivity ((_Fx t * _Fx t + _Fy t * _Fy t)
                * (sin wheel_heading * sin wheel_heading
                   + cos wheel_heading * cos wheel_heading));
    [ring | rewrite H; ring].
Qed.

End TireFacts.

Lemma tire_unloaded_gives_no_force_witness :
  exists t' st,
    Tire.update (Tire.init Tire.sport) (Vector.mkVector3 10 0 0) 0 5 100 0 0.001
    = Some (t', st)
    /\ Tire._Fx t' = 0 /\ Tire._Fy t' = 0
    /\ Tire.ts_Fx st = 0 /\ Tire.ts_Fy st = 0
    /\ Tire.ts_is_grounded st = false
    /\ Tire.normal_load t' = Py.max 0 5
    /\ (0 <= 5 -> Tire.normal_load t' = 5)
    /\ (5 <= 0 -> Tire.normal_load t' = 0)
    /\ Tire.ts_Fz st = Tire.normal_load t'
    /\ 0 <= Tire.normal_load t' < 10
    /\ Tire.angular_velocity t' = Tire.angular_velocity (Tire.init Tire.sport)
    /\ Tire.relaxation t' = Tire.relaxation (Tire.init Tire.sport)
    /\ Tire._slip_state t' = Tire._slip_state (Tire.init Tire.sport).
Proof.
  apply (tire_unloaded_gives_no_force (Tire.init Tire.sport)
           (Vector.mkVector3 10 0 0) 0 5 100 0 0.001).
  lra.
Defined.

Lemma braked_wheel_stays_at_rest_witness :
  exists t',
    Tire._update_wheel_rotation (Tire.init Tire.sport) 50 300 0.001 = Some t'
    /\ Tire.angular_velocity t' = 0.
Proof.
  apply (braked_wheel_stays_at_rest (Tire.init Tire.sport) 50 300 0.001).
  - simpl. lra.
  - simpl. rewrite Rabs_R0. lra.
  - simpl. rewrite Rabs_pos_eq; lra.
Defined.

Lemma saturation_in_unit_interval_witness :
  let cs := Combined.mkCombinedSlip Pacejka.sport_tire 1 1 in
  exists r,
    Combined.calculate cs 0.1 5 4000 0 "empirical" = Some r
    /\ 0 <= Combined.saturation r <= 1.
Proof.
  intros cs.
  assert (Ha : Pacejka.a4 (Combined.pacejka cs) <> 0) by (simpl; lra).
  destruct (get_peak_lateral_force_total (Combined.pacejka cs) 4000 0 Ha)
    as (peak & slip & Hpk).
  destruct (empirical_within_ellipse cs 0.1 5 4000 0 peak slip eq_refl Ha Hpk)
    as (r & Hr & _).
  exists r. split; [exact Hr |].
  exact (saturation_in_unit_interval cs 0.1 5 4000 0 "empirical" r Hr).
Defined.
